(** * Key-management core of the wallet extension: container model and
      wallet controller, embedded from the TypeScript sources.

    - [WalletContainer]: [model/WalletContainer.ts] (bare wallets, the
      restore algorithm, the mnemonic and private-key containers).
    - [WalletController]: [Wallet.ts] (the [Wallet] class and its
      [PublicController]), as a state/error monad over the wallet object,
      a logical clock for its expiry timer and a trace of the calls it
      makes to its collaborators. *)

From Stdlib Require Import String Ascii List ZArith Bool Lia.
From stdpp Require Import base option list gmap strings pretty.
Import ListNotations.

Local Open Scope string_scope.

(* ===================================================================== *)
(** ** JavaScript values                                                   *)
(* ===================================================================== *)

Module Js.

(** [String.prototype.toLowerCase] on the ASCII range, which is where
    hexadecimal addresses live: [A-Z] map to [a-z], every other byte is
    kept. *)
Definition lowerAscii (c : ascii) : ascii :=
  let n := nat_of_ascii c in
  if Nat.leb 65 n && Nat.leb n 90 then ascii_of_nat (n + 32) else c.

Fixpoint toLowerCase (s : string) : string :=
  match s with
  | EmptyString => EmptyString
  | String c rest => String (lowerAscii c) (toLowerCase rest)
  end.

(** The double-quote character, as a string. *)
Definition quote : string := String (ascii_of_nat 34) EmptyString.

(** Truthiness of a string: only the empty string is falsy. *)
Definition truthy (s : string) : bool := negb (String.eqb s "").

(** Truthiness of [string | null | undefined]. *)
Definition truthyOpt (o : option string) : bool :=
  match o with
  | Some s => truthy s
  | None => false
  end.

(** [x || null] for [x : string | null | undefined]. *)
Definition orNull (o : option string) : option string :=
  if truthyOpt o then o else None.

(** [Array.prototype.findIndex]; [None] stands for [-1]. *)
Fixpoint findIndex {A : Type} (p : A -> bool) (l : list A) : option nat :=
  match l with
  | [] => None
  | x :: rest => if p x then Some 0%nat else S <$> findIndex p rest
  end.

(** [Array.prototype.splice(pos, 1)]: the array without its element at
    index [pos]. *)
Definition splice1 {A : Type} (pos : nat) (l : list A) : list A :=
  take pos l ++ drop (S pos) l.

(** [Array.prototype.includes] on strings (strict equality). *)
Definition includes (l : list string) (x : string) : bool :=
  existsb (String.eqb x) l.

(** The names of the properties that every plain object inherits from
    [Object.prototype]. Reading one of them on an object that has no own
    property of that name gives the inherited function (for [__proto__],
    the prototype object), not [undefined]. *)
Definition objectPrototypeKeys : list string :=
  [ "constructor"; "__defineGetter__"; "__defineSetter__"; "hasOwnProperty";
    "__lookupGetter__"; "__lookupSetter__"; "isPrototypeOf";
    "propertyIsEnumerable"; "toString"; "valueOf"; "__proto__";
    "toLocaleString" ].

Definition inherited (key : string) : bool := includes objectPrototypeKeys key.

End Js.

(* ===================================================================== *)
(** ** Errors and results                                                  *)
(* ===================================================================== *)

(** The error classes of [src/shared/errors/errors] that the code throws,
    and [JsError] for a plain [new Error(message)]; [ExternalError] is a
    failure raised inside a collaborator (ethers, the network, storage). *)
Inductive Error : Type :=
| OriginNotAllowed
| InvalidParams
| MethodNotImplemented (message : string)
| RecordNotFound
| SessionExpired
| UserRejected (message : string)
| UserRejectedTxSignature
| JsError (message : string)
| ExternalError (message : string).

Inductive Result (A : Type) : Type :=
| Ok (value : A)
| Throw (e : Error).
Arguments Ok {A} value.
Arguments Throw {A} e.

Definition isThrow {A : Type} (r : Result A) : bool :=
  match r with
  | Ok _ => false
  | Throw _ => true
  end.

Definition bindR {A B : Type} (r : Result A) (k : A -> Result B) : Result B :=
  match r with
  | Ok a => k a
  | Throw e => Throw e
  end.

(** [Array.prototype.map] with a callback that may throw: the first throw
    aborts the whole map. *)
Fixpoint mapR {A B : Type} (f : A -> Result B) (l : list A) : Result (list B) :=
  match l with
  | [] => Ok []
  | x :: rest =>
      bindR (f x) (fun y => bindR (mapR f rest) (fun ys => Ok (y :: ys)))
  end.

(* ===================================================================== *)
(** ** model/WalletContainer.ts                                            *)
(* ===================================================================== *)

Module WalletContainer.

Inductive SeedType : Type := SeedType_privateKey | SeedType_mnemonic.

Record Mnemonic : Type := { phrase : string; path : string }.

(** [BareWallet] of [model/types]. *)
Record BareWallet : Type := {
  mnemonic : option Mnemonic;
  privateKey : string;
  address : string;
  name : option string
}.

(** [Partial<BareWallet>]: every field may be missing. *)
Record PartialBareWallet : Type := {
  p_address : option string;
  p_privateKey : option string;
  p_mnemonic : option Mnemonic;
  p_name : option string
}.

(** What the code reads of an [ethers.Wallet] instance. *)
Record EthersWallet : Type := {
  e_privateKey : string;
  e_address : string;
  e_mnemonic : option Mnemonic
}.

(** A [BareWallet] seen as a [Partial<BareWallet>]. *)
Definition bareAsPartial (w : BareWallet) : PartialBareWallet :=
  {| p_address := Some (address w);
     p_privateKey := Some (privateKey w);
     p_mnemonic := mnemonic w;
     p_name := name w |}.

(** An [ethers.Wallet] seen as a [Partial<BareWallet>]: it has no [name]
    property. *)
Definition ethersAsPartial (w : EthersWallet) : PartialBareWallet :=
  {| p_address := Some (e_address w);
     p_privateKey := Some (e_privateKey w);
     p_mnemonic := e_mnemonic w;
     p_name := None |}.

(** The argument of [walletToObject]: [ethers.Wallet | BareWallet]. *)
Inductive WalletLike : Type :=
| IsEthersWallet (w : EthersWallet)
| IsBareWallet (w : BareWallet).

Definition walletToObject (wallet : WalletLike) : BareWallet :=
  match wallet with
  | IsEthersWallet w =>
      {| mnemonic := e_mnemonic w;
         privateKey := e_privateKey w;
         address := e_address w;
         name := None |}
  | IsBareWallet w =>
      {| mnemonic := mnemonic w;
         privateKey := privateKey w;
         address := address w;
         name := name w |}
  end.

Definition fromEthersWallet (wallet : EthersWallet) : BareWallet :=
  {| privateKey := e_privateKey wallet;
     address := e_address wallet;
     mnemonic := e_mnemonic wallet;
     name := None |}.

Record WalletContainer : Type := {
  seedType : SeedType;
  wallets : list BareWallet
}.

(** [PlainWalletContainer]. *)
Record PlainWalletContainer : Type := {
  plain_seedType : SeedType;
  plain_wallets : list BareWallet
}.

Definition sameAddress (a : string) (wallet : BareWallet) : bool :=
  String.eqb (Js.toLowerCase (address wallet)) (Js.toLowerCase a).

Definition getFirstWallet (this : WalletContainer) : option BareWallet :=
  head (wallets this).

(** Reading [.mnemonic] of [wallets[0]] throws a [TypeError] on an empty
    array. *)
Definition getMnemonic (this : WalletContainer) : Result (option Mnemonic) :=
  match seedType this with
  | SeedType_privateKey => Ok None
  | SeedType_mnemonic =>
      match getFirstWallet this with
      | Some w => Ok (mnemonic w)
      | None => Throw (JsError "TypeError: cannot read properties of undefined")
      end
  end.

(** [WalletContainerImpl.addWallet], overridden by
    [PrivateKeyWalletContainer.addWallet]; the class of a container is
    fixed by its [seedType]. *)
Definition addWallet (this : WalletContainer) (wallet : BareWallet)
  : Result WalletContainer :=
  match seedType this with
  | SeedType_privateKey =>
      Throw (JsError "PrivateKeyWalletContainer cannot have multiple wallets")
  | SeedType_mnemonic =>
      Ok {| seedType := seedType this; wallets := wallets this ++ [wallet] |}
  end.

(** The method has no [throw]; it returns the container after the call. *)
Definition removeWallet (this : WalletContainer) (a : string) : WalletContainer :=
  match Js.findIndex (sameAddress a) (wallets this) with
  | None => this
  | Some pos =>
      {| seedType := seedType this; wallets := Js.splice1 pos (wallets this) |}
  end.

Definition getWalletByAddress (this : WalletContainer) (a : string)
  : option BareWallet :=
  find (sameAddress a) (wallets this).

(** The members of a container are [BareWallet] objects, never
    [ethers.Wallet] instances. *)
Definition toPlainObject (this : WalletContainer) : PlainWalletContainer :=
  {| plain_seedType := seedType this;
     plain_wallets := map (fun w => walletToObject (IsBareWallet w)) (wallets this) |}.

Section Ethers.

(** The ethers library: [new ethers.Wallet(privateKey)] and
    [ethers.Wallet.fromMnemonic(phrase, path)] throw on malformed
    input; [createRandom] is the wallet the random generator yields. *)
Variable ethers_Wallet : string -> Result EthersWallet.
Variable ethers_fromMnemonic : string -> string -> Result EthersWallet.
Variable ethers_createRandom : EthersWallet.

Definition restoreBareWallet (wallet : PartialBareWallet) : Result BareWallet :=
  if Js.truthyOpt (p_address wallet) && Js.truthyOpt (p_privateKey wallet) then
    Ok {| privateKey := default "" (p_privateKey wallet);
          address := default "" (p_address wallet);
          mnemonic := p_mnemonic wallet;
          name := Js.orNull (p_name wallet) |}
  else if Js.truthyOpt (p_privateKey wallet) then
    bindR (ethers_Wallet (default "" (p_privateKey wallet)))
          (fun w => Ok (fromEthersWallet w))
  else
    match p_mnemonic wallet with
    | Some m =>
        bindR (ethers_fromMnemonic (phrase m) (path m))
              (fun w => Ok (fromEthersWallet w))
    | None => Ok (fromEthersWallet ethers_createRandom)
    end.

(** [new MnemonicWalletContainer(wallets?)]. *)
Definition MnemonicWalletContainer (input : option (list PartialBareWallet))
  : Result WalletContainer :=
  match input with
  | None | Some [] =>
      bindR (restoreBareWallet
               {| p_address := None; p_privateKey := None;
                  p_mnemonic := None; p_name := None |})
            (fun w => Ok {| seedType := SeedType_mnemonic; wallets := [w] |})
  | Some ws =>
      bindR (mapR (fun wallet =>
                     match p_mnemonic wallet with
                     | None =>
                         Throw (JsError
                           "Mnemonic container is expected to have a wallet with a mnemonic")
                     | Some _ => restoreBareWallet wallet
                     end) ws)
            (fun ws' => Ok {| seedType := SeedType_mnemonic; wallets := ws' |})
  end.

(** [new PrivateKeyWalletContainer(wallets)]; each input descriptor is
    its [privateKey]. The guard is [!wallets || wallets.length > 1]. *)
Definition PrivateKeyWalletContainer (input : option (list string))
  : Result WalletContainer :=
  match input with
  | None =>
      Throw (JsError
        "Wallets array is expected to have exactly one element, instead got: undefined")
  | Some ws =>
      if Nat.ltb 1 (length ws) then
        Throw (JsError
          ("Wallets array is expected to have exactly one element, instead got: "
             +:+ pretty (length ws)))
      else
        bindR (mapR (fun pk =>
                       if Js.truthy pk then
                         bindR (ethers_Wallet pk)
                               (fun w => restoreBareWallet (ethersAsPartial w))
                       else
                         Throw (JsError
                           "PrivateKey container is expected to have a wallet with a privateKey"))
                    ws)
              (fun ws' => Ok {| seedType := SeedType_privateKey; wallets := ws' |})
  end.

End Ethers.

End WalletContainer.


(* ===================================================================== *)
(** ** The wallet record ([model/types]) and its model functions          *)
(* ===================================================================== *)

Module WalletRecord.
Import WalletContainer.

(** [Chain] of [src/modules/networks/Chain]: an opaque identifier compared
    by value. *)
Definition Chain : Type := string.

Record WalletGroup : Type := {
  group_id : string;
  walletContainer : WalletContainer;
  lastBackedUp : option Z
}.

Record Permission : Type := {
  addresses : list string;
  chain : option Chain
}.

Record WalletManager : Type := {
  groups : list WalletGroup;
  currentAddress : option string
}.

(** The fields of [WalletRecord] that the controller code below reads:
    [record.walletManager] and [record.permissions[origin].addresses]. *)
Record WalletRecord : Type := {
  walletManager : WalletManager;
  permissions : gmap string Permission
}.

Definition with_currentAddress (a : option string) (r : WalletRecord) : WalletRecord :=
  {| walletManager :=
       {| groups := groups (walletManager r); currentAddress := a |};
     permissions := permissions r |}.

Definition with_permissions (p : gmap string Permission) (r : WalletRecord)
  : WalletRecord :=
  {| walletManager := walletManager r; permissions := p |}.

(** The functions of [WalletRecordModel] ([WalletRecord.ts]) are not in
    this part of the repository; the controller takes them as parameters
    (see [Collaborators] below). The definitions that follow are one
    implementation of them, built on the spec's description, with which the
    controller can be run. *)

(** Modelled from the spec: [WalletRecordModel.getWalletByAddress] of
    [WalletRecord.ts], which is absent. The record's wallets are the
    wallets of its groups' containers; the lookup is the container's
    case-insensitive one, first group first. *)
Fixpoint Spec_getWalletByAddress_in (gs : list WalletGroup) (a : string)
  : option BareWallet :=
  match gs with
  | [] => None
  | g :: rest =>
      match getWalletByAddress (walletContainer g) a with
      | Some w => Some w
      | None => Spec_getWalletByAddress_in rest a
      end
  end.

Definition Spec_getWalletByAddress (r : WalletRecord) (a : string)
  : option BareWallet :=
  Spec_getWalletByAddress_in (groups (walletManager r)) a.

(** Modelled from the spec: [WalletRecordModel.setCurrentAddress] of
    [WalletRecord.ts], which is absent: "fails if the address is not owned
    by any group"; otherwise the new record has that current address. *)
Definition Spec_setCurrentAddress (r : WalletRecord) (a : string)
  : Result WalletRecord :=
  match Spec_getWalletByAddress r a with
  | Some _ => Ok (with_currentAddress (Some a) r)
  | None => Throw (JsError "Address is not found in the record")
  end.

(** Modelled from the spec: [WalletRecordModel.addPermission] of
    [WalletRecord.ts], which is absent: a permission-map edit that adds the
    address to the origin's address set and touches nothing else. *)
Definition Spec_addPermission (r : WalletRecord) (a : string) (o : string)
  : WalletRecord :=
  match permissions r !! o with
  | Some p =>
      if Js.includes (addresses p) a then r
      else with_permissions
             (<[o := {| addresses := addresses p ++ [a]; chain := chain p |}]>
                (permissions r)) r
  | None =>
      with_permissions
        (<[o := {| addresses := [a]; chain := None |}]> (permissions r)) r
  end.

(** Modelled from the spec: [WalletRecordModel.getChainForOrigin] of
    [WalletRecord.ts], which is absent: the per-origin chain, "unset origin
    resolves to a documented default chain" ([dflt]). *)
Definition Spec_getChainForOrigin (dflt : Chain) (r : WalletRecord) (o : string)
  : Chain :=
  match permissions r !! o with
  | Some p => default dflt (chain p)
  | None => dflt
  end.

(** Modelled from the spec: [WalletRecordModel.setChainForOrigin] of
    [WalletRecord.ts], which is absent: sets the origin's chain and leaves
    the other origins and the origin's addresses as they are. *)
Definition Spec_setChainForOrigin (r : WalletRecord) (c : Chain) (o : string)
  : WalletRecord :=
  let addrs := match permissions r !! o with
               | Some p => addresses p
               | None => []
               end in
  with_permissions
    (<[o := {| addresses := addrs; chain := Some c |}]> (permissions r)) r.

(** Modelled from the spec: [WalletRecordModel.removePermission] of
    [WalletRecord.ts], which is absent: "removing a permission for an
    origin with no remaining addresses removes the origin entry entirely";
    otherwise the entry stays, without the address. Without an address,
    of which the spec says nothing, the entry is removed. *)
Definition Spec_removePermission (r : WalletRecord) (o : string)
    (address : option string) : WalletRecord :=
  match permissions r !! o with
  | None => r
  | Some p =>
      let rest :=
        match address with
        | Some a => List.filter (fun x => negb (String.eqb x a)) (addresses p)
        | None => []
        end in
      match rest with
      | [] => with_permissions (delete o (permissions r)) r
      | _ => with_permissions
               (<[o := {| addresses := rest; chain := chain p |}]> (permissions r)) r
      end
  end.

End WalletRecord.

(* ===================================================================== *)
(** ** Wallet.ts: the [Wallet] class and its [PublicController]            *)
(* ===================================================================== *)

Module WalletController.
Import WalletContainer WalletRecord.

(** A [CryptoKey] object: opaque, always truthy. *)
Inductive CryptoKey : Type := CryptoKey_handle (n : nat).

(** [context.origin]: a string for a [ChannelContext], a symbol for a
    [PrivateChannelContext]. *)
Inductive OriginValue : Type :=
| OriginString (s : string)
| OriginSymbol (n : nat).

(** [Partial<ChannelContext | PrivateChannelContext>]. *)
Record Context : Type := { origin : option OriginValue }.

(** [INTERNAL_ORIGIN_SYMBOL] of [src/background/constants]: one fixed
    symbol. *)
Definition INTERNAL_ORIGIN_SYMBOL : OriginValue := OriginSymbol 0.

Definition INTERNAL_SYMBOL_CONTEXT : Context :=
  {| origin := Some INTERNAL_ORIGIN_SYMBOL |}.

Definition OriginValue_eqb (a b : OriginValue) : bool :=
  match a, b with
  | OriginString s, OriginString t => String.eqb s t
  | OriginSymbol n, OriginSymbol m => Nat.eqb n m
  | _, _ => false
  end.

(** [context?.origin]. *)
Definition originOf (context : option Context) : option OriginValue :=
  match context with
  | Some c => origin c
  | None => None
  end.

(** Truthiness of [context.origin]: symbols are truthy. *)
Definition truthyOrigin (o : OriginValue) : bool :=
  match o with
  | OriginString s => Js.truthy s
  | OriginSymbol _ => true
  end.

Inductive ChainIdValue : Type :=
| ChainIdNumber (n : Z)
| ChainIdString (s : string).

(** The fields of a transaction object that the controller reads or
    writes; [tx_data] stands for the rest. The prepared transaction
    returned by [prepareTransaction] has the same shape. *)
Record IncomingTransaction : Type := {
  tx_from : option string;
  tx_chainId : option ChainIdValue;
  tx_type : option Z;
  tx_gasPrice : option string;
  tx_data : string
}.

Definition with_chainId (c : string) (tx : IncomingTransaction) : IncomingTransaction :=
  {| tx_from := tx_from tx;
     tx_chainId := Some (ChainIdString c);
     tx_type := tx_type tx;
     tx_gasPrice := tx_gasPrice tx;
     tx_data := tx_data tx |}.

(** [{ ...transaction, type: transaction.type || undefined }]. *)
Definition with_type_or_undefined (tx : IncomingTransaction) : IncomingTransaction :=
  {| tx_from := tx_from tx;
     tx_chainId := tx_chainId tx;
     tx_type := match tx_type tx with
                | Some 0%Z => None
                | t => t
                end;
     tx_gasPrice := tx_gasPrice tx;
     tx_data := tx_data tx |}.

Record TransactionResponse : Type := {
  response_hash : string;
  response_raw : option string
}.

(** [toEthersWallet(currentWallet).connect(jsonRpcProvider)]. *)
Record Signer : Type := {
  signer_wallet : BareWallet;
  signer_nodeUrl : string
}.

(** What the wallet does to the outside: events on its emitters, console
    output, and calls to its collaborators, oldest first. *)
Inductive Event : Type :=
| Emit_recordUpdated
| Emit_currentAddressChange (addresses : list string)
| Emit_chainChanged (chain : Chain) (origin : string)
| Emit_permissionsUpdated
| Emit_pendingTransactionCreated (tx : TransactionResponse)
| ConsoleWarn (message : string)
| NetworksStoreLoad
| WalletStoreRead (id key : string)
| WalletStoreSave (id key : string) (record : WalletRecord)
| FetchAndAssignGasPrice (tx : IncomingTransaction)
| SignerSendTransaction (signer : Signer) (tx : IncomingTransaction)
| NotificationWindowOpen (route search : string).

(** The private fields of a [Wallet] instance. [seedPhraseExpiryTimerId]
    is the deadline, on the clock below, of the pending timeout, [None]
    when no timeout is pending. *)
Record Wallet : Type := {
  id : string;
  encryptionKey : option string;
  seedPhraseEncryptionKey : option CryptoKey;
  seedPhraseExpiryTimerId : option Z;
  record : option WalletRecord
}.

Definition with_record (r : option WalletRecord) (t : Wallet) : Wallet :=
  {| id := id t;
     encryptionKey := encryptionKey t;
     seedPhraseEncryptionKey := seedPhraseEncryptionKey t;
     seedPhraseExpiryTimerId := seedPhraseExpiryTimerId t;
     record := r |}.

Definition with_seedPhraseEncryptionKey (k : option CryptoKey) (t : Wallet) : Wallet :=
  {| id := id t;
     encryptionKey := encryptionKey t;
     seedPhraseEncryptionKey := k;
     seedPhraseExpiryTimerId := seedPhraseExpiryTimerId t;
     record := record t |}.

Definition with_seedPhraseExpiryTimerId (d : option Z) (t : Wallet) : Wallet :=
  {| id := id t;
     encryptionKey := encryptionKey t;
     seedPhraseEncryptionKey := seedPhraseEncryptionKey t;
     seedPhraseExpiryTimerId := d;
     record := record t |}.

(** The wallet object, the clock (milliseconds) and the trace. *)
Record World : Type := {
  this : Wallet;
  clock : Z;
  trace : list Event
}.

(** A method body: it may change the wallet, extend the trace, and either
    return or throw; what it changed before a throw stays changed. *)
Definition M (A : Type) : Type := World -> Result A * World.

#[global] Instance M_ret : MRet M := fun A (a : A) w => (Ok a, w).

#[global] Instance M_bind : MBind M :=
  fun A B (k : A -> M B) (m : M A) w =>
    match m w with
    | (Ok a, w') => k a w'
    | (Throw e, w') => (Throw e, w')
    end.

Definition throw {A : Type} (e : Error) : M A := fun w => (Throw e, w).

Definition liftR {A : Type} (r : Result A) : M A := fun w => (r, w).

Definition getThis : M Wallet := fun w => (Ok (this w), w).

Definition getClock : M Z := fun w => (Ok (clock w), w).

Definition modifyThis (f : Wallet -> Wallet) : M unit :=
  fun w => (Ok tt, {| this := f (this w); clock := clock w; trace := trace w |}).

Definition tell (e : Event) : M unit :=
  fun w => (Ok tt, {| this := this w; clock := clock w; trace := trace w ++ [e] |}).

(** A call to an [async] function whose promise is not awaited: the
    callee runs up to its first [await] (the callees used this way have
    none), and a throw inside it rejects a promise nobody looks at. *)
Definition detached {A : Type} (m : M A) : M unit :=
  fun w => (Ok tt, snd (m w)).

(** The length of the session: [1000 * 120] milliseconds. *)
Definition SEED_PHRASE_TIMEOUT : Z := 1000 * 120.

(** The collaborators of the controller that are outside this repository
    part: the network registry ([networksStore]), the ethers helpers, the
    transaction helpers of [src/modules/ethereum], the signer, the
    encrypted store, and the functions of the record model
    ([WalletRecordModel], imported as [Model]). Each [Result] is the
    collaborator returning or throwing. *)
Record Collaborators : Type := {
  Model_getWalletByAddress : WalletRecord -> string -> option BareWallet;
  Model_setCurrentAddress : WalletRecord -> string -> Result WalletRecord;
  Model_addPermission : WalletRecord -> string -> string -> WalletRecord;
  Model_getChainForOrigin : WalletRecord -> string -> Chain;
  Model_setChainForOrigin : WalletRecord -> Chain -> string -> WalletRecord;
  networks_getChainId : Chain -> string;
  networks_getChainById : string -> Chain;
  networks_getRpcUrlInternal : Chain -> string;
  ethers_hexValue : ChainIdValue -> Result string;
  getTransactionChainId : IncomingTransaction -> option string;
  prepareTransaction : IncomingTransaction -> Result IncomingTransaction;
  hasGasPrice : IncomingTransaction -> bool;
  fetchAndAssignGasPrice : IncomingTransaction -> Result IncomingTransaction;
  signer_sendTransaction : Signer -> IncomingTransaction -> Result TransactionResponse;
  removeSignature : TransactionResponse -> TransactionResponse;
  walletStore_read : string -> string -> Result (option WalletRecord);
  Model_getPrivateKey : WalletRecord -> string -> Result string;
  Model_getRecoveryPhrase : WalletRecord -> string -> CryptoKey -> Result Mnemonic
}.

(** Modelled from the spec: [normalizeAddress] of
    [src/shared/normalizeAddress], which is absent; the spec calls the
    comparisons made with it case-insensitive. *)
Definition normalizeAddress (a : string) : string := Js.toLowerCase a.

(** A method that either settles at once or leaves a promise pending on
    the confirmation window it opened. *)
Inductive Outcome (A : Type) : Type :=
| Settled (a : A)
| AwaitingConfirmation.
Arguments Settled {A} a.
Arguments AwaitingConfirmation {A}.

Section Controller.

(** [INTERNAL_ORIGIN] of [src/background/constants]. *)
Variable INTERNAL_ORIGIN : string.
Variable env : Collaborators.

(** *** Session key *)

Definition hasSeedPhraseEncryptionKey (t : Wallet) : bool :=
  match seedPhraseEncryptionKey t with
  | Some _ => true
  | None => false
  end.

Definition removeSeedPhraseEncryptionKey : M unit :=
  modifyThis (with_seedPhraseEncryptionKey None).

(** [clearTimeout] of the pending timeout, then [setTimeout] of a new one,
    [1000 * 120] milliseconds from now. *)
Definition setExpirationForSeedPhraseEncryptionKey : M unit :=
  now ← getClock;
  modifyThis (with_seedPhraseExpiryTimerId (Some (now + SEED_PHRASE_TIMEOUT)%Z)).

(** The callback given to [setTimeout]. *)
Definition seedPhraseExpiryCallback : M unit :=
  removeSeedPhraseEncryptionKey.

(** Time passes by [dt] milliseconds; a pending timeout whose deadline is
    reached runs its callback, once. *)
Definition advance (dt : Z) (w : World) : World :=
  let t := (clock w + dt)%Z in
  match seedPhraseExpiryTimerId (this w) with
  | Some deadline =>
      if (deadline <=? t)%Z then
        snd (seedPhraseExpiryCallback
               {| this := with_seedPhraseExpiryTimerId None (this w);
                  clock := t; trace := trace w |})
      else {| this := this w; clock := t; trace := trace w |}
  | None => {| this := this w; clock := t; trace := trace w |}
  end.

Definition syncWithWalletStore : M unit :=
  t ← getThis;
  match encryptionKey t with
  | Some key =>
      if Js.truthy key then
        tell (WalletStoreRead (id t) key);;
        r ← liftR (walletStore_read env (id t) key);
        modifyThis (with_record r);;
        match r with
        | Some _ => tell Emit_recordUpdated
        | None => mret tt
        end
      else mret tt
  | None => mret tt
  end.

Definition updateWalletStore (r : WalletRecord) : M unit :=
  t ← getThis;
  match encryptionKey t with
  | Some key =>
      if Js.truthy key then tell (WalletStoreSave (id t) key r)
      else throw (JsError "Cannot save pending wallet: encryptionKey is null")
  | None => throw (JsError "Cannot save pending wallet: encryptionKey is null")
  end.

Definition updateCredentials (id' : string) (encryptionKey' : string)
    (seedPhraseEncryptionKey' : option CryptoKey) : M unit :=
  modifyThis (fun t =>
    {| id := id';
       encryptionKey := Some encryptionKey';
       seedPhraseEncryptionKey := seedPhraseEncryptionKey';
       seedPhraseExpiryTimerId := seedPhraseExpiryTimerId t;
       record := record t |});;
  setExpirationForSeedPhraseEncryptionKey;;
  syncWithWalletStore.

(** *** Guards *)

Definition verifyInternalOrigin (context : option Context) : M unit :=
  match originOf context with
  | Some o =>
      if OriginValue_eqb o (OriginString INTERNAL_ORIGIN)
         || OriginValue_eqb o INTERNAL_ORIGIN_SYMBOL
      then mret tt
      else throw OriginNotAllowed
  | None => throw OriginNotAllowed
  end.

Definition ensureRecord : M WalletRecord :=
  t ← getThis;
  match record t with
  | Some r => mret r
  | None => throw RecordNotFound
  end.

Definition ensureStringOrigin (context : option Context) : M string :=
  verifyInternalOrigin context;;
  match originOf context with
  | Some (OriginString s) => mret s
  | _ => throw (JsError "Origin must be a string")
  end.

Definition readCurrentAddress (t : Wallet) : option string :=
  match record t with
  | Some r => Js.orNull (currentAddress (walletManager r))
  | None => None
  end.

Definition ensureCurrentAddress : M string :=
  t ← getThis;
  match readCurrentAddress t with
  | Some a => mret a
  | None => throw (JsError "Wallet is not initialized")
  end.

(** *** Reveal operations *)

Definition getRecoveryPhrase (groupId : string) (context : option Context)
  : M Mnemonic :=
  verifyInternalOrigin context;;
  r ← ensureRecord;
  t ← getThis;
  match seedPhraseEncryptionKey t with
  | None => throw SessionExpired
  | Some key => liftR (Model_getRecoveryPhrase env r groupId key)
  end.

Definition getPrivateKey (address : string) (context : option Context)
  : M string :=
  verifyInternalOrigin context;;
  r ← ensureRecord;
  t ← getThis;
  match seedPhraseEncryptionKey t with
  | None => throw SessionExpired
  | Some _ => liftR (Model_getPrivateKey env r address)
  end.

(** *** Permissions and current address *)

(** The [TypeError] of a call of [.includes] on [undefined]. *)
Definition INCLUDES_OF_UNDEFINED : string :=
  "TypeError: Cannot read properties of undefined (reading 'includes')".

(** [this.record?.permissions[origin]?.addresses.includes(address) || false],
    the expression that [allowedOrigin] and [hasPermission] share. The
    permission map is a plain object and its entries are its own
    properties. When it has no entry for [origin] the read gives
    [undefined] and the chain stops, unless [origin] is the name of an
    inherited property: then the read gives the inherited value, which is
    not nullish and has no [addresses], and [.includes] is called on
    [undefined]. *)
Definition permissionsInclude (t : Wallet) (o : string) (address : string)
  : Result bool :=
  match record t with
  | Some r =>
      match permissions r !! o with
      | Some p => Ok (Js.includes (addresses p) address)
      | None =>
          if Js.inherited o then Throw (JsError INCLUDES_OF_UNDEFINED)
          else Ok false
      end
  | None => Ok false
  end.

(** The method only reads the wallet. A symbol is no key of the
    permission map. *)
Definition allowedOrigin (t : Wallet) (context : option Context) (address : string)
  : Result bool :=
  match originOf context with
  | None => Throw (JsError "This method requires context")
  | Some o =>
      if negb (truthyOrigin o) then Throw (JsError "This method requires context")
      else if OriginValue_eqb o (OriginString INTERNAL_ORIGIN) then Ok true
      else
        match o with
        | OriginString s => permissionsInclude t s address
        | OriginSymbol _ => Ok false
        end
  end.

Definition hasPermission (address : string) (o : string) (context : option Context)
  : M bool :=
  verifyInternalOrigin context;;
  t ← getThis;
  liftR (permissionsInclude t o address).

Definition acceptOrigin (o : string) (address : string) : M unit :=
  r ← ensureRecord;
  let r' := Model_addPermission env r address o in
  modifyThis (with_record (Some r'));;
  detached (updateWalletStore r');;
  tell Emit_permissionsUpdated.

(** [[currentAddress].filter(isTruthy)]. *)
Definition truthyAddresses (a : option string) : list string :=
  match Js.orNull a with
  | Some s => [s]
  | None => []
  end.

Definition setCurrentAddress (address : string) (context : option Context)
  : M unit :=
  verifyInternalOrigin context;;
  r ← ensureRecord;
  r' ← liftR (Model_setCurrentAddress env r address);
  modifyThis (with_record (Some r'));;
  detached (updateWalletStore r');;
  tell (Emit_currentAddressChange
          (truthyAddresses (currentAddress (walletManager r')))).

(** *** Chains *)

Definition getChainIdForOrigin (o : string) : M string :=
  t ← getThis;
  match record t with
  | None => mret "0x1"
  | Some r =>
      let chain := Model_getChainForOrigin env r o in
      tell NetworksStoreLoad;;
      mret (networks_getChainId env chain)
  end.

Definition setChainForOrigin (c : Chain) (o : string) : M unit :=
  r ← ensureRecord;
  let r' := Model_setChainForOrigin env r c o in
  modifyThis (with_record (Some r'));;
  detached (updateWalletStore r');;
  tell (Emit_chainChanged c o).

(** *** Transactions *)

(** The two messages of [sendTransaction] that quote the field name; the
    quote character is code 34. *)
Definition MISSING_FROM : string :=
  Js.quote +:+ "from" +:+ Js.quote
    +:+ " field is missing from the transaction object. Send from current address?".

Definition DIFFERENT_FROM : string :=
  "transaction " +:+ Js.quote +:+ "from" +:+ Js.quote
    +:+ " field is different from currently selected address".

Definition getProvider (chainId : string) : M string :=
  tell NetworksStoreLoad;;
  mret (networks_getRpcUrlInternal env (networks_getChainById env chainId)).

Definition getSigner (chainId : string) : M Signer :=
  t ← getThis;
  let currentAddress := readCurrentAddress t in
  match record t with
  | None => throw RecordNotFound
  | Some r =>
      let currentWallet :=
        match currentAddress with
        | Some a => Model_getWalletByAddress env r a
        | None => None
        end in
      match currentWallet with
      | None => throw (JsError "Wallet is not initialized")
      | Some wallet =>
          nodeUrl ← getProvider chainId;
          mret {| signer_wallet := wallet; signer_nodeUrl := nodeUrl |}
      end
  end.

(** [sendTransaction] from [prepareTransaction] on: the statements after
    the checks of the sender and of the chain. *)
Definition sendTransaction_dispatch (chainId : string)
    (incomingTransaction : IncomingTransaction) : M TransactionResponse :=
  transaction ← liftR (prepareTransaction env incomingTransaction);
  transaction' ←
    (if hasGasPrice env transaction then mret transaction
     else
       tell (FetchAndAssignGasPrice transaction);;
       liftR (fetchAndAssignGasPrice env transaction));
  signer ← getSigner chainId;
  let request := with_type_or_undefined transaction' in
  tell (SignerSendTransaction signer request);;
  transactionResponse ← liftR (signer_sendTransaction env signer request);
  let safeTx := removeSignature env transactionResponse in
  tell (Emit_pendingTransactionCreated safeTx);;
  mret safeTx.

Definition sendTransaction (incomingTransaction : IncomingTransaction)
    (context : option Context) (transactionOrigin : string)
  : M TransactionResponse :=
  verifyInternalOrigin context;;
  match tx_from incomingTransaction with
  | None =>
      throw (JsError MISSING_FROM)
  | Some from =>
      if negb (Js.truthy from) then
        throw (JsError MISSING_FROM)
      else
        currentAddress ← ensureCurrentAddress;
        if negb (String.eqb (normalizeAddress from) (normalizeAddress currentAddress))
        then
          throw (JsError DIFFERENT_FROM)
        else
          chainId ← getChainIdForOrigin transactionOrigin;
          match getTransactionChainId env incomingTransaction with
          | Some targetChainId =>
              if Js.truthy targetChainId && negb (String.eqb chainId targetChainId)
              then
                throw (JsError
                  "chainId in transaction object is different from current chainId")
              else sendTransaction_dispatch chainId incomingTransaction
          | None =>
              tell (ConsoleWarn "chainId field is missing from transaction object");;
              sendTransaction_dispatch chainId
                (with_chainId chainId incomingTransaction)
          end
  end.

Definition signAndSendTransaction
    (params : option IncomingTransaction * string) (context : option Context)
  : M TransactionResponse :=
  verifyInternalOrigin context;;
  _ ← ensureStringOrigin context;
  match params with
  | (None, _) => throw InvalidParams
  | (Some transaction, o) => sendTransaction transaction context o
  end.

(** *** PublicController *)

(** The method only reads the wallet. *)
Definition eth_accounts (t : Wallet) (context : option Context)
  : Result (list string) :=
  match readCurrentAddress t with
  | None => Ok []
  | Some currentAddress =>
      bindR (allowedOrigin t context currentAddress)
            (fun allowed => if allowed then Ok [currentAddress] else Ok [])
  end.

(** [const { origin } = context] after [allowedOrigin] has narrowed the
    context to one with a string origin. *)
Definition originString (context : option Context) : string :=
  match originOf context with
  | Some (OriginString s) => s
  | _ => ""
  end.

Definition eth_requestAccounts (context : option Context)
  : M (Outcome (list string)) :=
  t ← getThis;
  let currentAddress := readCurrentAddress t in
  allowed ←
    match currentAddress with
    | Some a => liftR (allowedOrigin t context a)
    | None => mret false
    end;
  match currentAddress, allowed with
  | Some a, true => mret (Settled [a])
  | _, _ =>
      match originOf context with
      | Some (OriginString o) =>
          if Js.truthy o then
            tell (NotificationWindowOpen "/requestAccounts" ("?origin=" +:+ o));;
            mret AwaitingConfirmation
          else throw (JsError "This method requires origin")
      | Some (OriginSymbol _) =>
          throw (JsError "TypeError: Cannot convert a Symbol value to a string")
      | None => throw (JsError "This method requires origin")
      end
  end.

(** The [onResolve] callback that [eth_requestAccounts] hands to the
    confirmation window; [o] is the [origin] it captured from [context]. *)
Definition eth_requestAccounts_onResolve (context : option Context) (o : string)
    (address : string) : M (list string) :=
  if negb (Js.truthy address) then
    throw (JsError "Confirmation resolved with invalid arguments")
  else
    currentAddress ← ensureCurrentAddress;
    (if negb (String.eqb (normalizeAddress address) (normalizeAddress currentAddress))
     then setCurrentAddress address (Some INTERNAL_SYMBOL_CONTEXT)
     else mret tt);;
    detached (acceptOrigin o address);;
    t ← getThis;
    liftR (eth_accounts t context).

(** The [onDismiss] callback of the same window. *)
Definition eth_requestAccounts_onDismiss : M (list string) :=
  throw (UserRejected "User Rejected the Request").

(** [params[0].chainId] is [chainIdParameter]; the method returns [null]. *)
Definition wallet_switchEthereumChain (chainIdParameter : ChainIdValue)
    (context : option Context) : M unit :=
  t ← getThis;
  match readCurrentAddress t with
  | None => throw (JsError "Wallet is not initialized")
  | Some currentAddress =>
      allowed ← liftR (allowedOrigin t context currentAddress);
      if negb allowed then throw OriginNotAllowed
      else
        let o := originString context in
        chainId ← liftR (ethers_hexValue env chainIdParameter);
        currentChainIdForThisOrigin ← getChainIdForOrigin o;
        if String.eqb chainId currentChainIdForThisOrigin then mret tt
        else
          tell NetworksStoreLoad;;
          let c := networks_getChainById env chainId in
          setChainForOrigin c o;;
          mret tt
  end.

End Controller.

End WalletController.

(* ===================================================================== *)
(** ** Vocabulary of the statements, and sample data                       *)
(* ===================================================================== *)

Module Scenarios.
Import WalletContainer WalletRecord WalletController.

(** The world after the events [es] were appended to its trace. *)
Definition logged (es : list Event) (w : World) : World :=
  {| this := this w; clock := clock w; trace := (trace w ++ es)%list |}.

(** The call context passes [verifyInternalOrigin]. *)
Definition isInternal (INTERNAL_ORIGIN : string) (context : option Context) : bool :=
  match originOf context with
  | Some o =>
      OriginValue_eqb o (OriginString INTERNAL_ORIGIN)
      || OriginValue_eqb o INTERNAL_ORIGIN_SYMBOL
  | None => false
  end.

(** The value [getChainIdForOrigin] returns for an origin. *)
Definition resolvedChainId (env : Collaborators) (t : Wallet) (o : string) : string :=
  match record t with
  | None => "0x1"
  | Some r =>
      networks_getChainId env (Model_getChainForOrigin env r o)
  end.

(** The events of a call to [updateWalletStore] that is not awaited. *)
Definition storeSaves (t : Wallet) (r : WalletRecord) : list Event :=
  match encryptionKey t with
  | Some key => if Js.truthy key then [WalletStoreSave (id t) key r] else []
  | None => []
  end.

(** What happens between two calls of [updateCredentials]: the UI uses a
    reveal method, or time passes. *)
Inductive Use : Type :=
| UseGetPrivateKey (address : string) (context : option Context)
| UseGetRecoveryPhrase (groupId : string) (context : option Context)
| Wait (dt : Z).

Definition step (INTERNAL_ORIGIN : string) (env : Collaborators) (u : Use) (w : World)
  : World :=
  match u with
  | UseGetPrivateKey a context => snd (getPrivateKey INTERNAL_ORIGIN env a context w)
  | UseGetRecoveryPhrase g context =>
      snd (getRecoveryPhrase INTERNAL_ORIGIN env g context w)
  | Wait dt => advance dt w
  end.

Definition run (INTERNAL_ORIGIN : string) (env : Collaborators) (us : list Use)
    (w : World) : World :=
  fold_left (fun w u => step INTERNAL_ORIGIN env u w) us w.

(** The time that passes in a sequence of uses. *)
Fixpoint elapsed (us : list Use) : Z :=
  match us with
  | [] => 0
  | Wait dt :: rest => dt + elapsed rest
  | _ :: rest => elapsed rest
  end.

(** Time does not run backwards. *)
Definition forward (u : Use) : Prop :=
  match u with
  | Wait dt => (0 <= dt)%Z
  | _ => True
  end.

(** In the world [w] every reveal call throws and leaves the world as it
    is. The error is [OriginNotAllowed] when the call does not come from
    the internal origin, [RecordNotFound] when it does and no record is
    loaded, and [SessionExpired] when it does and a record is loaded. *)
Definition revealBlocked (INTERNAL_ORIGIN : string) (env : Collaborators) (w : World)
  : Prop :=
  (forall a context,
      exists e,
        getPrivateKey INTERNAL_ORIGIN env a context w = (Throw e, w)
        /\ (isInternal INTERNAL_ORIGIN context = false -> e = OriginNotAllowed)
        /\ (isInternal INTERNAL_ORIGIN context = true ->
            record (this w) = None -> e = RecordNotFound)
        /\ (isInternal INTERNAL_ORIGIN context = true ->
            record (this w) <> None -> e = SessionExpired))
  /\ (forall g context,
        exists e,
          getRecoveryPhrase INTERNAL_ORIGIN env g context w = (Throw e, w)
          /\ (isInternal INTERNAL_ORIGIN context = false -> e = OriginNotAllowed)
          /\ (isInternal INTERNAL_ORIGIN context = true ->
              record (this w) = None -> e = RecordNotFound)
          /\ (isInternal INTERNAL_ORIGIN context = true ->
              record (this w) <> None -> e = SessionExpired)).

(** The state of the session with deadline [d] and key [sk]: the timeout
    is pending and the key is the one that was set, or the deadline has
    passed and the key is gone. *)
Definition sessionAt (d : Z) (sk : option CryptoKey) (w : World) : Prop :=
  (seedPhraseExpiryTimerId (this w) = Some d /\ (clock w < d)%Z
   /\ seedPhraseEncryptionKey (this w) = sk)
  \/ (seedPhraseEncryptionKey (this w) = None /\ (d <= clock w)%Z).

(** The world with another wallet object. *)
Definition withThis (t : Wallet) (w : World) : World :=
  {| this := t; clock := clock w; trace := trace w |}.

(** *** Sample data *)

Definition sample_mnemonic : Mnemonic :=
  {| phrase := "test test test test test test test test test test test junk";
     path := "m/44'/60'/0'/0/0" |}.

Definition wallet_A : BareWallet :=
  {| mnemonic := Some sample_mnemonic;
     privateKey := "0xac0974bec39a17e36ba4a6b4d238ff944bacb478cbed5efcae784d7bf4f2ff80";
     address := "0xf39Fd6e51aad88F6F4ce6aB8827279cffFb92266";
     name := Some "Main" |}.

Definition wallet_B : BareWallet :=
  {| mnemonic := Some sample_mnemonic;
     privateKey := "0x59c6995e998f97a5a0044966f0945389dc9e86dae88c7a8412f4603b6b78690d";
     address := "0x70997970C51812dc3A010C7d01b50e0d17dc79C8";
     name := None |}.

Definition container_AB : WalletContainer :=
  {| seedType := SeedType_mnemonic; wallets := [wallet_A; wallet_B] |}.

Definition address_A_lower : string := "0xf39fd6e51aad88f6f4ce6ab8827279cfffb92266".
Definition address_A_upper : string := "0XF39FD6E51AAD88F6F4CE6AB8827279CFFFB92266".
Definition address_B : string := "0x70997970C51812dc3A010C7d01b50e0d17dc79C8".
Definition address_unknown : string := "0x3C44CdDdB6a900fa2b585dd299e03d12FA4293BC".

(** A stand-in for the ethers library: it accepts every key and phrase. *)
Definition sample_ethers_Wallet (pk : string) : Result EthersWallet :=
  Ok {| e_privateKey := pk; e_address := "0x" +:+ pk; e_mnemonic := None |}.

Definition sample_ethers_fromMnemonic (ph pa : string) : Result EthersWallet :=
  Ok {| e_privateKey := ph; e_address := "0x" +:+ ph;
        e_mnemonic := Some {| phrase := ph; path := pa |} |}.

Definition sample_ethers_createRandom : EthersWallet :=
  {| e_privateKey := "0xrandom"; e_address := "0xRandom";
     e_mnemonic := Some sample_mnemonic |}.

Definition SAMPLE_INTERNAL_ORIGIN : string :=
  "chrome-extension://klghhnkeealcohjjanjjdaeeggmfmlpl".

Definition dapp : string := "https://example.com".

Definition internalContext : option Context :=
  Some {| origin := Some (OriginString SAMPLE_INTERNAL_ORIGIN) |}.

Definition dappContext : option Context :=
  Some {| origin := Some (OriginString dapp) |}.

Definition sample_record : WalletRecord :=
  {| walletManager :=
       {| groups := [ {| group_id := "group-1"; walletContainer := container_AB;
                         lastBackedUp := None |} ];
          currentAddress := Some (address wallet_A) |};
     permissions :=
       {[ dapp := {| addresses := [address wallet_A]; chain := Some "polygon" |} ]} |}.

Definition sample_env : Collaborators :=
  {| Model_getWalletByAddress := Spec_getWalletByAddress;
     Model_setCurrentAddress := Spec_setCurrentAddress;
     Model_addPermission := Spec_addPermission;
     Model_getChainForOrigin := Spec_getChainForOrigin "ethereum";
     Model_setChainForOrigin := Spec_setChainForOrigin;
     networks_getChainId := fun c =>
       if String.eqb c "polygon" then "0x89" else "0x1";
     networks_getChainById := fun i =>
       if String.eqb i "0x89" then "polygon" else "ethereum";
     networks_getRpcUrlInternal := fun c => "https://rpc.example/" +:+ c;
     ethers_hexValue := fun v =>
       match v with
       | ChainIdString s => Ok s
       | ChainIdNumber n => if (n =? 137)%Z then Ok "0x89" else Ok "0x1"
       end;
     getTransactionChainId := fun tx =>
       match tx_chainId tx with
       | Some (ChainIdString s) => Some s
       | Some (ChainIdNumber n) => if (n =? 137)%Z then Some "0x89" else Some "0x1"
       | None => None
       end;
     prepareTransaction := fun tx => Ok tx;
     hasGasPrice := fun tx =>
       match tx_gasPrice tx with
       | Some _ => true
       | None => false
       end;
     fetchAndAssignGasPrice := fun tx =>
       Ok {| tx_from := tx_from tx; tx_chainId := tx_chainId tx;
             tx_type := tx_type tx; tx_gasPrice := Some "0x3b9aca00";
             tx_data := tx_data tx |};
     signer_sendTransaction := fun _ tx =>
       Ok {| response_hash := "0xhash"; response_raw := Some "0xraw" |};
     removeSignature := fun r =>
       {| response_hash := response_hash r; response_raw := None |};
     walletStore_read := fun _ _ => Ok (Some sample_record);
     Model_getPrivateKey := fun r a =>
       match Spec_getWalletByAddress r a with
       | Some w => Ok (privateKey w)
       | None => Throw (JsError "Wallet not found")
       end;
     Model_getRecoveryPhrase := fun _ _ _ => Ok sample_mnemonic |}.

Definition sample_wallet : Wallet :=
  {| id := "wallet-1";
     encryptionKey := Some "storage-key";
     seedPhraseEncryptionKey := None;
     seedPhraseExpiryTimerId := None;
     record := Some sample_record |}.

Definition sample_world : World :=
  {| this := sample_wallet; clock := 0; trace := [] |}.

(** A wallet object before any record was saved or read. *)
Definition empty_wallet : Wallet :=
  {| id := "wallet-1";
     encryptionKey := Some "storage-key";
     seedPhraseEncryptionKey := None;
     seedPhraseExpiryTimerId := None;
     record := None |}.

Definition empty_world : World :=
  {| this := empty_wallet; clock := 0; trace := [] |}.

Definition sample_tx : IncomingTransaction :=
  {| tx_from := Some address_A_lower;
     tx_chainId := None;
     tx_type := None;
     tx_gasPrice := None;
     tx_data := "0x" |}.

(** A transaction from an address that is not the current one. *)
Definition foreign_tx : IncomingTransaction :=
  {| tx_from := Some address_B;
     tx_chainId := None;
     tx_type := None;
     tx_gasPrice := None;
     tx_data := "0x" |}.

(** A transaction with neither [from] nor [chainId]. *)
Definition bare_tx : IncomingTransaction :=
  {| tx_from := None;
     tx_chainId := None;
     tx_type := None;
     tx_gasPrice := None;
     tx_data := "0x" |}.

(** A transaction for chain [0x1], while [dapp] is on [0x89]. *)
Definition mainnet_tx : IncomingTransaction :=
  {| tx_from := Some address_A_lower;
     tx_chainId := Some (ChainIdString "0x1");
     tx_type := None;
     tx_gasPrice := None;
     tx_data := "0x" |}.

Definition sample_session_key : option CryptoKey := Some (CryptoKey_handle 1).

Definition sample_uses : list Use :=
  [ UseGetPrivateKey address_A_lower internalContext;
    Wait 60000;
    UseGetRecoveryPhrase "group-1" internalContext;
    Wait 60000 ].

(** A web origin with no permission yet. *)
Definition newDapp : string := "https://app.example.org".

Definition newDappContext : option Context :=
  Some {| origin := Some (OriginString newDapp) |}.

(** A context whose origin is the name of a property that every object
    inherits; the sample record has no entry for it. *)
Definition inheritedKeyContext : option Context :=
  Some {| origin := Some (OriginString "constructor") |}.

(** The entry of [dapp] in the sample permission map. *)
Definition dapp_permission : Permission :=
  {| addresses := [address wallet_A]; chain := Some "polygon" |}.

(** The sample collaborators with a store that holds no record. *)
Definition blank_store_env : Collaborators :=
  {| Model_getWalletByAddress := Model_getWalletByAddress sample_env;
     Model_setCurrentAddress := Model_setCurrentAddress sample_env;
     Model_addPermission := Model_addPermission sample_env;
     Model_getChainForOrigin := Model_getChainForOrigin sample_env;
     Model_setChainForOrigin := Model_setChainForOrigin sample_env;
     networks_getChainId := networks_getChainId sample_env;
     networks_getChainById := networks_getChainById sample_env;
     networks_getRpcUrlInternal := networks_getRpcUrlInternal sample_env;
     ethers_hexValue := ethers_hexValue sample_env;
     getTransactionChainId := getTransactionChainId sample_env;
     prepareTransaction := prepareTransaction sample_env;
     hasGasPrice := hasGasPrice sample_env;
     fetchAndAssignGasPrice := fetchAndAssignGasPrice sample_env;
     signer_sendTransaction := signer_sendTransaction sample_env;
     removeSignature := removeSignature sample_env;
     walletStore_read := fun _ _ => Ok None;
     Model_getPrivateKey := Model_getPrivateKey sample_env;
     Model_getRecoveryPhrase := Model_getRecoveryPhrase sample_env |}.

(** The sample world two minutes after [updateCredentials]. *)
Definition expired_world : World :=
  run SAMPLE_INTERNAL_ORIGIN sample_env sample_uses
    (snd (updateCredentials sample_env "wallet-1" "storage-key" sample_session_key
            sample_world)).

(** The empty world after an explicit clear of the session key. *)
Definition cleared_world : World :=
  snd (removeSeedPhraseEncryptionKey empty_world).

End Scenarios.

(* ===================================================================== *)
(** ** Wallet.ts: the other methods of [Wallet] and [PublicController]     *)
(* ===================================================================== *)

Module WalletMethods.
Import WalletContainer WalletRecord WalletController.

(** [WalletOrigin] of [model/WalletOrigin]. *)
Inductive WalletOrigin : Type := WalletOrigin_extension | WalletOrigin_imported.

(** [PendingWallet] of [model/types]. *)
Record PendingWallet : Type := {
  pending_origin : WalletOrigin;
  pending_groupId : option string;
  pending_walletContainer : WalletContainer
}.

(** The [data] argument of [eth_signTypedData_v4]: a string, or an object
    (named by a handle). *)
Inductive TypedDataArg : Type :=
| TypedData_string (s : string)
| TypedData_object (handle : nat).

Record Web3WalletPermission : Type := { parentCapability : string }.

(** [Partial<ChannelContext>], the context of a [PublicController] method:
    its origin, when present, is a string. *)
Record ChannelContext : Type := { channel_origin : option string }.

Definition asContext (context : option ChannelContext) : option Context :=
  match context with
  | Some c =>
      Some {| origin := match channel_origin c with
                        | Some s => Some (OriginString s)
                        | None => None
                        end |}
  | None => None
  end.

(** Further collaborators: the other functions of the record model, the
    [Chain] helpers, [maskWallet] of [helpers/mask], and the two text
    encoders the confirmation routes are built with. *)
Record MoreCollaborators : Type := {
  Model_removePermission : WalletRecord -> string -> option string -> WalletRecord;
  Model_removeAllOriginPermissions : WalletRecord -> WalletRecord;
  Model_createOrUpdateRecord : option WalletRecord -> PendingWallet -> WalletRecord;
  Model_getFirstWallet : WalletRecord -> option BareWallet;
  createChain : string -> Chain;
  Chain_toString : Chain -> string;
  maskWallet : BareWallet -> BareWallet;
  URLSearchParams_toString : list (string * string) -> string;
  JSON_stringify_transaction : IncomingTransaction -> string;
  JSON_stringify_typedData : nat -> string
}.

(** The wallet object with its [pendingWallet] field. *)
Record Controller : Type := {
  world : World;
  pendingWallet : option PendingWallet
}.

(** The message of the two address checks of the signing methods. *)
Definition ADDRESS_MISMATCH (currentAddress address : string) : string :=
  "Address parameter is different from currently selected address. Expected: "
    +:+ currentAddress +:+ ", received: " +:+ address.

Definition isMnemonicGroup (g : WalletGroup) : bool :=
  match seedType (walletContainer g) with
  | SeedType_mnemonic => true
  | SeedType_privateKey => false
  end.

(** [group.lastBackedUp == null]. *)
Definition neverBackedUp (g : WalletGroup) : bool :=
  match lastBackedUp g with
  | None => true
  | Some _ => false
  end.

Section Methods.

Variable INTERNAL_ORIGIN : string.
Variable env : Collaborators.
Variable more : MoreCollaborators.
Variable ethers_Wallet : string -> Result EthersWallet.
Variable ethers_fromMnemonic : string -> string -> Result EthersWallet.
Variable ethers_createRandom : EthersWallet.

(** *** [Wallet]: methods of the internal tier *)

Definition verifyRecoveryPhrase (groupId value : string) (context : option Context)
  : M bool :=
  verifyInternalOrigin INTERNAL_ORIGIN context;;
  r ← ensureRecord;
  t ← getThis;
  match seedPhraseEncryptionKey t with
  | None => throw SessionExpired
  | Some key =>
      m ← liftR (Model_getRecoveryPhrase env r groupId key);
      mret (String.eqb (phrase m) value)
  end.

Definition verifyPrivateKey (address value : string) (context : option Context)
  : M bool :=
  verifyInternalOrigin INTERNAL_ORIGIN context;;
  r ← ensureRecord;
  t ← getThis;
  match seedPhraseEncryptionKey t with
  | None => throw SessionExpired
  | Some _ =>
      privateKey ← liftR (Model_getPrivateKey env r address);
      mret (String.eqb privateKey value)
  end.

Definition uiGetCurrentWallet (context : option Context) : M (option BareWallet) :=
  verifyInternalOrigin INTERNAL_ORIGIN context;;
  t ← getThis;
  if negb (Js.truthy (id t)) then mret None
  else
    match record t, readCurrentAddress t with
    | Some r, Some currentAddress =>
        let wallet :=
          match Model_getWalletByAddress env r currentAddress with
          | Some w => Some w
          | None => Model_getFirstWallet more r
          end in
        mret (maskWallet more <$> wallet)
    | _, _ => mret None
    end.

Definition uiGetWalletByAddress (address : string) (context : option Context)
  : M (option BareWallet) :=
  verifyInternalOrigin INTERNAL_ORIGIN context;;
  t ← getThis;
  match record t with
  | None => throw RecordNotFound
  | Some r =>
      if negb (Js.truthy address) then
        throw (JsError "Ilegal argument: address is required for this method")
      else mret (maskWallet more <$> Model_getWalletByAddress env r address)
  end.

Definition removeAllOriginPermissions (context : option Context) : M unit :=
  verifyInternalOrigin INTERNAL_ORIGIN context;;
  r ← ensureRecord;
  let r' := Model_removeAllOriginPermissions more r in
  modifyThis (with_record (Some r'));;
  detached (updateWalletStore r');;
  tell Emit_permissionsUpdated.

Definition removePermission (o : string) (address : option string)
    (context : option Context) : M unit :=
  verifyInternalOrigin INTERNAL_ORIGIN context;;
  r ← ensureRecord;
  let r' := Model_removePermission more r o address in
  modifyThis (with_record (Some r'));;
  detached (updateWalletStore r');;
  tell Emit_permissionsUpdated.

Definition getOriginPermissions (context : option Context)
  : M (gmap string Permission) :=
  verifyInternalOrigin INTERNAL_ORIGIN context;;
  r ← ensureRecord;
  mret (permissions r).

Definition getCurrentAddress (context : option Context) : M (option string) :=
  verifyInternalOrigin INTERNAL_ORIGIN context;;
  t ← getThis;
  mret (readCurrentAddress t).

Definition getNoBackupCount (context : option Context) : M nat :=
  verifyInternalOrigin INTERNAL_ORIGIN context;;
  r ← ensureRecord;
  mret (length (List.filter neverBackedUp
                  (List.filter isMnemonicGroup (groups (walletManager r))))).

(** Deprecated: it throws after the origin check. *)
Definition switchChain (chainStr : string) (context : option Context) : M unit :=
  verifyInternalOrigin INTERNAL_ORIGIN context;;
  throw (JsError "switchChain is deprecated").

Definition switchChainForOrigin (chain : string) (o : string)
    (context : option Context) : M unit :=
  verifyInternalOrigin INTERNAL_ORIGIN context;;
  _ ← ensureRecord;
  setChainForOrigin env (createChain more chain) o.

Definition requestChainForOrigin (o : string) (context : option Context) : M string :=
  verifyInternalOrigin INTERNAL_ORIGIN context;;
  r ← ensureRecord;
  mret (Chain_toString more (Model_getChainForOrigin env r o)).

(** *** [Wallet]: the pending wallet *)

(** [uiImportPrivateKey]: the container always gets a one-element array.
    ([getFirstWallet] of the container built from it is never
    [undefined].) *)
Definition uiImportPrivateKey (privateKey : string) (c : Controller)
  : Result BareWallet * Controller :=
  match PrivateKeyWalletContainer ethers_Wallet ethers_fromMnemonic
          ethers_createRandom (Some [privateKey]) with
  | Throw e => (Throw e, c)
  | Ok container =>
      let c' :=
        {| world := world c;
           pendingWallet :=
             Some {| pending_origin := WalletOrigin_imported;
                     pending_groupId := None;
                     pending_walletContainer := container |} |} in
      match getFirstWallet container with
      | Some w => (Ok (maskWallet more w), c')
      | None => (Throw (JsError "TypeError: cannot read properties of undefined"), c')
      end
  end.

Definition savePendingWallet (c : Controller) : Result unit * Controller :=
  match pendingWallet c with
  | None =>
      (Throw (JsError "Cannot save pending wallet: pendingWallet is null"), c)
  | Some pending =>
      let t := this (world c) in
      if negb (Js.truthyOpt (encryptionKey t)) then
        (Throw (JsError "Cannot save pending wallet: encryptionKey is null"), c)
      else
        let r := Model_createOrUpdateRecord more (record t) pending in
        let w1 :=
          {| this := with_seedPhraseEncryptionKey None (with_record (Some r) t);
             clock := clock (world c);
             trace := trace (world c) |} in
        (Ok tt,
         {| world := snd (detached (updateWalletStore r) w1);
            pendingWallet := None |})
  end.

(** *** [PublicController] *)

Definition eth_chainId (context : option ChannelContext) : M string :=
  match context with
  | Some c =>
      match channel_origin c with
      | Some o =>
          if Js.truthy o then getChainIdForOrigin env o
          else throw (JsError "Unknown sender origin")
      | None => throw (JsError "Unknown sender origin")
      end
  | None => throw (JsError "Unknown sender origin")
  end.

(** [params] is the array of transactions; the method looks at
    [params[0]]. It checks the current address, not [transaction.from]. *)
Definition eth_sendTransaction (params : list IncomingTransaction)
    (context : option ChannelContext) : M (Outcome string) :=
  currentAddress ← ensureCurrentAddress;
  t ← getThis;
  allowed ← liftR (allowedOrigin INTERNAL_ORIGIN t (asContext context) currentAddress);
  if negb allowed then throw OriginNotAllowed
  else
    match head params with
    | None => throw InvalidParams
    | Some transaction =>
        tell (NotificationWindowOpen "/sendTransaction"
                ("?" +:+ URLSearchParams_toString more
                           [("origin", originString (asContext context));
                            ("transaction",
                             JSON_stringify_transaction more transaction)]));;
        mret AwaitingConfirmation
    end.

Definition eth_signTypedData_v4 (address : string) (data : TypedDataArg)
    (context : option ChannelContext) : M (Outcome string) :=
  currentAddress ← ensureCurrentAddress;
  t ← getThis;
  allowed ← liftR (allowedOrigin INTERNAL_ORIGIN t (asContext context) currentAddress);
  if negb allowed then throw OriginNotAllowed
  else if negb (String.eqb (normalizeAddress address) (normalizeAddress currentAddress))
  then throw (JsError (ADDRESS_MISMATCH currentAddress address))
  else
    let stringifiedData :=
      match data with
      | TypedData_string s => s
      | TypedData_object h => JSON_stringify_typedData more h
      end in
    tell (NotificationWindowOpen "/signMessage"
            ("?" +:+ URLSearchParams_toString more
                       [("origin", originString (asContext context));
                        ("typedData", stringifiedData);
                        ("method", "eth_signTypedData_v4")]));;
    mret AwaitingConfirmation.

Definition eth_signTypedData (context : option ChannelContext) : M (Outcome string) :=
  throw (MethodNotImplemented "eth_signTypedData: Not Implemented").

Definition eth_sign (context : option ChannelContext) : M (Outcome string) :=
  throw (MethodNotImplemented "eth_sign: Not Implemented").

(** [params] is [[message, address, _password]], possibly shorter. The
    address check comes before the origin check. *)
Definition personal_sign (params : list string) (context : option ChannelContext)
  : M (Outcome string) :=
  match params with
  | [] => throw InvalidParams
  | message :: rest =>
      let address := head rest in
      currentAddress ← ensureCurrentAddress;
      if Js.truthyOpt address
         && negb (String.eqb (normalizeAddress (default "" address))
                             (normalizeAddress currentAddress))
      then throw (JsError (ADDRESS_MISMATCH currentAddress (default "" address)))
      else
        t ← getThis;
        allowed ←
          liftR (allowedOrigin INTERNAL_ORIGIN t (asContext context) currentAddress);
        if negb allowed then throw OriginNotAllowed
        else
          tell (NotificationWindowOpen "/signMessage"
                  ("?" +:+ URLSearchParams_toString more
                             [("origin", originString (asContext context));
                              ("message", message);
                              ("method", "personal_sign")]));;
          mret AwaitingConfirmation
  end.

(** [params] is an array whose first element is an object, given by its
    property names. *)
Definition generatePermissionResponse (params : option (list (list string)))
  : Result (list Web3WalletPermission) :=
  match params with
  | Some (names :: _) =>
      if Js.includes names "eth_accounts"
      then Ok [ {| parentCapability := "eth_accounts" |} ]
      else Throw InvalidParams
  | _ => Throw InvalidParams
  end.

Definition getIsAllowedOrigin (t : Wallet) (context : option ChannelContext)
  : Result bool :=
  match readCurrentAddress t with
  | None => Ok false
  | Some currentAddress =>
      allowedOrigin INTERNAL_ORIGIN t (asContext context) currentAddress
  end.

(** The part of [wallet_requestPermissions] up to the point where
    [eth_requestAccounts] has settled or is left pending. *)
Definition wallet_requestPermissions (context : option ChannelContext)
    (params : option (list (list string))) : M (Outcome (list Web3WalletPermission)) :=
  accounts ← eth_requestAccounts INTERNAL_ORIGIN (asContext context);
  match accounts with
  | Settled _ =>
      r ← liftR (generatePermissionResponse params);
      mret (Settled r)
  | AwaitingConfirmation => mret AwaitingConfirmation
  end.

Definition wallet_getPermissions (t : Wallet) (context : option ChannelContext)
  : Result (list Web3WalletPermission) :=
  bindR (getIsAllowedOrigin t context)
        (fun allowed =>
           if allowed then Ok [ {| parentCapability := "eth_accounts" |} ]
           else Ok []).

End Methods.

End WalletMethods.

(* ===================================================================== *)
(** ** Vocabulary and sample data for the other methods                    *)
(* ===================================================================== *)

Module MoreScenarios.
Import WalletContainer WalletRecord WalletController Scenarios WalletMethods.

(** A method called for its effect: its value is dropped. *)
Definition discard {A : Type} (m : M A) : M unit := m ≫= fun _ => mret tt.

(** The calls of the internal tier: every one of these methods starts with
    [verifyInternalOrigin]. *)
Inductive InternalCall : Type :=
| Call_getRecoveryPhrase (groupId : string)
| Call_verifyRecoveryPhrase (groupId value : string)
| Call_getPrivateKey (address : string)
| Call_verifyPrivateKey (address value : string)
| Call_uiGetCurrentWallet
| Call_uiGetWalletByAddress (address : string)
| Call_removeAllOriginPermissions
| Call_removePermission (o : string) (address : option string)
| Call_hasPermission (address o : string)
| Call_getOriginPermissions
| Call_setCurrentAddress (address : string)
| Call_getCurrentAddress
| Call_getNoBackupCount
| Call_switchChain (chain : string)
| Call_switchChainForOrigin (chain o : string)
| Call_requestChainForOrigin (o : string)
| Call_sendTransaction (tx : IncomingTransaction) (o : string)
| Call_signAndSendTransaction (tx : option IncomingTransaction) (o : string).

Definition callInternal (INTERNAL_ORIGIN : string) (env : Collaborators)
    (more : MoreCollaborators) (call : InternalCall) (context : option Context)
  : M unit :=
  match call with
  | Call_getRecoveryPhrase g => discard (getRecoveryPhrase INTERNAL_ORIGIN env g context)
  | Call_verifyRecoveryPhrase g v =>
      discard (verifyRecoveryPhrase INTERNAL_ORIGIN env g v context)
  | Call_getPrivateKey a => discard (getPrivateKey INTERNAL_ORIGIN env a context)
  | Call_verifyPrivateKey a v => discard (verifyPrivateKey INTERNAL_ORIGIN env a v context)
  | Call_uiGetCurrentWallet => discard (uiGetCurrentWallet INTERNAL_ORIGIN env more context)
  | Call_uiGetWalletByAddress a =>
      discard (uiGetWalletByAddress INTERNAL_ORIGIN env more a context)
  | Call_removeAllOriginPermissions => removeAllOriginPermissions INTERNAL_ORIGIN more context
  | Call_removePermission o a => removePermission INTERNAL_ORIGIN more o a context
  | Call_hasPermission a o => discard (hasPermission INTERNAL_ORIGIN a o context)
  | Call_getOriginPermissions => discard (getOriginPermissions INTERNAL_ORIGIN context)
  | Call_setCurrentAddress a => setCurrentAddress INTERNAL_ORIGIN env a context
  | Call_getCurrentAddress => discard (getCurrentAddress INTERNAL_ORIGIN context)
  | Call_getNoBackupCount => discard (getNoBackupCount INTERNAL_ORIGIN context)
  | Call_switchChain c => switchChain INTERNAL_ORIGIN c context
  | Call_switchChainForOrigin c o => switchChainForOrigin INTERNAL_ORIGIN env more c o context
  | Call_requestChainForOrigin o =>
      discard (requestChainForOrigin INTERNAL_ORIGIN env more o context)
  | Call_sendTransaction tx o => discard (sendTransaction INTERNAL_ORIGIN env tx context o)
  | Call_signAndSendTransaction tx o =>
      discard (signAndSendTransaction INTERNAL_ORIGIN env (tx, o) context)
  end.

(** The calls of [PublicController] that sign, send or switch for a web
    origin. *)
Inductive GatedCall : Type :=
| Gated_eth_sendTransaction (params : list IncomingTransaction)
| Gated_eth_signTypedData_v4 (address : string) (data : TypedDataArg)
| Gated_personal_sign (params : list string)
| Gated_wallet_switchEthereumChain (chainId : ChainIdValue).

Definition callGated (INTERNAL_ORIGIN : string) (env : Collaborators)
    (more : MoreCollaborators) (call : GatedCall) (context : option ChannelContext)
  : M unit :=
  match call with
  | Gated_eth_sendTransaction params =>
      discard (eth_sendTransaction INTERNAL_ORIGIN more params context)
  | Gated_eth_signTypedData_v4 a d =>
      discard (eth_signTypedData_v4 INTERNAL_ORIGIN more a d context)
  | Gated_personal_sign params => discard (personal_sign INTERNAL_ORIGIN more params context)
  | Gated_wallet_switchEthereumChain p =>
      wallet_switchEthereumChain INTERNAL_ORIGIN env p (asContext context)
  end.

(** The current address is set and [allowedOrigin] accepts the context for
    it. *)
Definition permitted (INTERNAL_ORIGIN : string) (t : Wallet)
    (context : option ChannelContext) : Prop :=
  exists c,
    readCurrentAddress t = Some c
    /\ allowedOrigin INTERNAL_ORIGIN t (asContext context) c = Ok true.

(** The records that the trace says were handed to [walletStore.save]. *)
Fixpoint savedRecords (es : list Event) : list WalletRecord :=
  match es with
  | [] => []
  | WalletStoreSave _ _ r :: rest => r :: savedRecords rest
  | _ :: rest => savedRecords rest
  end.

(** The signer calls on a trace. *)
Fixpoint signerCalls (es : list Event) : list (Signer * IncomingTransaction) :=
  match es with
  | [] => []
  | SignerSendTransaction s tx :: rest => (s, tx) :: signerCalls rest
  | _ :: rest => signerCalls rest
  end.

(** The confirmation windows opened on a trace. *)
Fixpoint windowsOpened (es : list Event) : list (string * string) :=
  match es with
  | [] => []
  | NotificationWindowOpen route search :: rest => (route, search) :: windowsOpened rest
  | _ :: rest => windowsOpened rest
  end.

(** The mutators of the record that save it. *)
Inductive Mutator : Type :=
| Mut_acceptOrigin (o address : string)
| Mut_setCurrentAddress (address : string)
| Mut_setChainForOrigin (c : Chain) (o : string)
| Mut_removePermission (o : string) (address : option string)
| Mut_removeAllOriginPermissions.

Definition runMutator (INTERNAL_ORIGIN : string) (env : Collaborators)
    (more : MoreCollaborators) (m : Mutator) : M unit :=
  match m with
  | Mut_acceptOrigin o a => acceptOrigin env o a
  | Mut_setCurrentAddress a =>
      setCurrentAddress INTERNAL_ORIGIN env a (Some INTERNAL_SYMBOL_CONTEXT)
  | Mut_setChainForOrigin c o => setChainForOrigin env c o
  | Mut_removePermission o a =>
      removePermission INTERNAL_ORIGIN more o a (Some INTERNAL_SYMBOL_CONTEXT)
  | Mut_removeAllOriginPermissions =>
      removeAllOriginPermissions INTERNAL_ORIGIN more (Some INTERNAL_SYMBOL_CONTEXT)
  end.

(** *** Sample data *)

Definition sample_more : MoreCollaborators :=
  {| Model_removePermission := Spec_removePermission;
     Model_removeAllOriginPermissions := fun r => with_permissions ∅ r;
     Model_createOrUpdateRecord := fun r pending =>
       let g := {| group_id := "group-new";
                   walletContainer := pending_walletContainer pending;
                   lastBackedUp := None |} in
       match r with
       | Some r =>
           {| walletManager :=
                {| groups := groups (walletManager r) ++ [g];
                   currentAddress := currentAddress (walletManager r) |};
              permissions := permissions r |}
       | None =>
           {| walletManager :=
                {| groups := [g];
                   currentAddress := address <$> head (wallets (pending_walletContainer pending)) |};
              permissions := ∅ |}
       end;
     Model_getFirstWallet := fun r =>
       match groups (walletManager r) with
       | g :: _ => head (wallets (walletContainer g))
       | [] => None
       end;
     createChain := fun s => s;
     Chain_toString := fun c => c;
     maskWallet := fun w =>
       {| mnemonic := None; privateKey := "<privateKey>";
          address := address w; name := name w |};
     URLSearchParams_toString := fun l =>
       fold_right (fun '(k, v) acc => k +:+ "=" +:+ v +:+ "&" +:+ acc) "" l;
     JSON_stringify_transaction := fun tx => tx_data tx;
     JSON_stringify_typedData := fun _ => "{}" |}.

Definition dappChannel : option ChannelContext :=
  Some {| channel_origin := Some dapp |}.

Definition newDappChannel : option ChannelContext :=
  Some {| channel_origin := Some newDapp |}.

Definition sample_controller : Controller :=
  {| world := sample_world; pendingWallet := None |}.

(** The sample world with a session key set. *)
Definition unlocked_world : World :=
  {| this := with_seedPhraseEncryptionKey sample_session_key sample_wallet;
     clock := 0; trace := [] |}.

Definition backed_up_group : WalletGroup :=
  {| group_id := "group-2"; walletContainer := container_AB;
     lastBackedUp := Some 1700000000000%Z |}.

Definition imported_group : WalletGroup :=
  {| group_id := "group-3";
     walletContainer := {| seedType := SeedType_privateKey; wallets := [wallet_B] |};
     lastBackedUp := None |}.

(** The sample world with a record in which [dapp] is permitted for two
    addresses. *)
Definition two_address_record : WalletRecord :=
  with_permissions
    {[ dapp := {| addresses := [address wallet_A; address_B]; chain := None |} ]}
    sample_record.

Definition two_address_world : World :=
  withThis (with_record (Some two_address_record) sample_wallet) sample_world.

(** A third wallet of the sample mnemonic, at [address_unknown]. *)
Definition wallet_C : BareWallet :=
  {| mnemonic := Some sample_mnemonic;
     privateKey := "0x5de4111afa1a4b94908f83103eb1f1706367c2e68ca870fc3fb9a804cdab365a";
     address := address_unknown;
     name := None |}.

Definition container_ABC : WalletContainer :=
  {| seedType := SeedType_mnemonic; wallets := [wallet_A; wallet_B; wallet_C] |}.

(** The pending wallet that importing the key [abc] leaves, and the
    controller after that import. *)
Definition imported_pending : PendingWallet :=
  {| pending_origin := WalletOrigin_imported;
     pending_groupId := None;
     pending_walletContainer :=
       {| seedType := SeedType_privateKey;
          wallets := [ {| mnemonic := None; privateKey := "abc";
                          address := "0xabc"; name := None |} ] |} |}.

Definition importing_controller : Controller :=
  snd (uiImportPrivateKey sample_more sample_ethers_Wallet sample_ethers_fromMnemonic
         sample_ethers_createRandom "abc" sample_controller).

(** The sample record with one more group, of an imported key. *)
Definition sample_record_with_import : WalletRecord :=
  {| walletManager :=
       {| groups := groups (walletManager sample_record) ++ [imported_group];
          currentAddress := currentAddress (walletManager sample_record) |};
     permissions := permissions sample_record |}.

End MoreScenarios.

(* ===================================================================== *)
(** ** Wallet.ts: groups, addresses, backups and preferences               *)
(* ===================================================================== *)

Module WalletEdits.
Import WalletContainer WalletRecord WalletController Scenarios WalletMethods.

(** [WalletNameFlag] of [model/WalletNameFlag]: an enumeration, named here
    by the position of its member. *)
Inductive WalletNameFlag : Type := WalletNameFlag_member (tag : nat).

(** [WalletRecord['preferences']]: the field the controller reads, and a
    text that stands for the rest. *)
Record Preferences : Type := {
  walletNameFlags : option (list WalletNameFlag);
  preferences_rest : string
}.

(** The object literal [{}]. *)
Definition NO_PREFERENCES : Preferences :=
  {| walletNameFlags := None; preferences_rest := EmptyString |}.

(** The functions of the record model that edit groups, addresses, backups
    and preferences, and the two group masks of [helpers/mask]. A model
    function that edits the record may throw. *)
Record EditCollaborators : Type := {
  Model_removeWalletGroup : WalletRecord -> string -> Result WalletRecord;
  Model_renameWalletGroup : WalletRecord -> string -> string -> Result WalletRecord;
  Model_renameAddress : WalletRecord -> string -> string -> Result WalletRecord;
  Model_removeAddress : WalletRecord -> string -> Result WalletRecord;
  Model_updateLastBackedUp : WalletRecord -> string -> Z -> Result WalletRecord;
  Model_setPreference : WalletRecord -> Preferences -> Result WalletRecord;
  Model_getPreferences : WalletRecord -> Preferences;
  Model_setWalletNameFlag : WalletRecord -> WalletNameFlag -> Result WalletRecord;
  Model_removeWalletNameFlag : WalletRecord -> WalletNameFlag -> Result WalletRecord;
  maskWalletGroup : WalletGroup -> WalletGroup;
  maskWalletGroups : list WalletGroup -> list WalletGroup
}.

Section Edits.

Variable INTERNAL_ORIGIN : string.
Variable edits : EditCollaborators.

(** The two statements that end each of these methods:
    [this.record = Model...(...); this.updateWalletStore(this.record)],
    the second one not awaited. Nothing is emitted. *)
Definition assignAndSave (edited : Result WalletRecord) : M unit :=
  r' ← liftR edited;
  modifyThis (with_record (Some r'));;
  detached (updateWalletStore r').

Definition uiGetWalletGroups (context : option Context)
  : M (option (list WalletGroup)) :=
  verifyInternalOrigin INTERNAL_ORIGIN context;;
  t ← getThis;
  match record t with
  | Some r => mret (Some (maskWalletGroups edits (groups (walletManager r))))
  | None => mret None
  end.

Definition uiGetWalletGroup (groupId : string) (context : option Context)
  : M (option WalletGroup) :=
  verifyInternalOrigin INTERNAL_ORIGIN context;;
  t ← getThis;
  let group :=
    match record t with
    | Some r =>
        find (fun group => String.eqb (group_id group) groupId)
             (groups (walletManager r))
    | None => None
    end in
  mret (maskWalletGroup edits <$> group).

Definition removeWalletGroup (groupId : string) (context : option Context) : M unit :=
  verifyInternalOrigin INTERNAL_ORIGIN context;;
  t ← getThis;
  match record t with
  | None => throw RecordNotFound
  | Some r => assignAndSave (Model_removeWalletGroup edits r groupId)
  end.

Definition renameWalletGroup (groupId name : string) (context : option Context)
  : M unit :=
  verifyInternalOrigin INTERNAL_ORIGIN context;;
  t ← getThis;
  match record t with
  | None => throw RecordNotFound
  | Some r => assignAndSave (Model_renameWalletGroup edits r groupId name)
  end.

Definition renameAddress (address name : string) (context : option Context)
  : M unit :=
  verifyInternalOrigin INTERNAL_ORIGIN context;;
  t ← getThis;
  match record t with
  | None => throw RecordNotFound
  | Some r => assignAndSave (Model_renameAddress edits r address name)
  end.

Definition removeAddress (address : string) (context : option Context) : M unit :=
  verifyInternalOrigin INTERNAL_ORIGIN context;;
  r ← ensureRecord;
  assignAndSave (Model_removeAddress edits r address).

(** [Date.now()] is the clock. *)
Definition updateLastBackedUp (groupId : string) (context : option Context)
  : M unit :=
  verifyInternalOrigin INTERNAL_ORIGIN context;;
  r ← ensureRecord;
  if negb (Js.truthy groupId) then throw (JsError "Must provide groupId")
  else
    timestamp ← getClock;
    assignAndSave (Model_updateLastBackedUp edits r groupId timestamp).

Definition setPreference (preferences : Preferences) (context : option Context)
  : M unit :=
  verifyInternalOrigin INTERNAL_ORIGIN context;;
  r ← ensureRecord;
  assignAndSave (Model_setPreference edits r preferences).

Definition getPreferences (context : option Context) : M Preferences :=
  verifyInternalOrigin INTERNAL_ORIGIN context;;
  t ← getThis;
  match record t with
  | None => mret NO_PREFERENCES
  | Some r => mret (Model_getPreferences edits r)
  end.

Definition wallet_setWalletNameFlag (flag : WalletNameFlag) (checked : bool)
    (context : option Context) : M unit :=
  verifyInternalOrigin INTERNAL_ORIGIN context;;
  r ← ensureRecord;
  assignAndSave (if checked then Model_setWalletNameFlag edits r flag
                 else Model_removeWalletNameFlag edits r flag).

(** [PublicController.wallet_getWalletNameFlags]: the caller's context is
    not looked at. *)
Definition wallet_getWalletNameFlags (context : option ChannelContext)
  : M (list WalletNameFlag) :=
  preferences ← getPreferences (Some INTERNAL_SYMBOL_CONTEXT);
  mret (default [] (walletNameFlags preferences)).

End Edits.

(** *** Vocabulary of the statements *)

(** The calls that edit the record without emitting an event. *)
Inductive Edit : Type :=
| Edit_removeWalletGroup (groupId : string)
| Edit_renameWalletGroup (groupId name : string)
| Edit_renameAddress (address name : string)
| Edit_removeAddress (address : string)
| Edit_updateLastBackedUp (groupId : string)
| Edit_setPreference (preferences : Preferences)
| Edit_setWalletNameFlag (flag : WalletNameFlag) (checked : bool).

Definition runEdit (INTERNAL_ORIGIN : string) (edits : EditCollaborators)
    (e : Edit) (context : option Context) : M unit :=
  match e with
  | Edit_removeWalletGroup g => removeWalletGroup INTERNAL_ORIGIN edits g context
  | Edit_renameWalletGroup g n => renameWalletGroup INTERNAL_ORIGIN edits g n context
  | Edit_renameAddress a n => renameAddress INTERNAL_ORIGIN edits a n context
  | Edit_removeAddress a => removeAddress INTERNAL_ORIGIN edits a context
  | Edit_updateLastBackedUp g => updateLastBackedUp INTERNAL_ORIGIN edits g context
  | Edit_setPreference p => setPreference INTERNAL_ORIGIN edits p context
  | Edit_setWalletNameFlag f c => wallet_setWalletNameFlag INTERNAL_ORIGIN edits f c context
  end.

(** What an edit asks of the record model once its guards have passed, at
    the time [now]; [updateLastBackedUp] first refuses an empty group id. *)
Definition editedRecord (edits : EditCollaborators) (e : Edit) (now : Z)
    (r : WalletRecord) : Result WalletRecord :=
  match e with
  | Edit_removeWalletGroup g => Model_removeWalletGroup edits r g
  | Edit_renameWalletGroup g n => Model_renameWalletGroup edits r g n
  | Edit_renameAddress a n => Model_renameAddress edits r a n
  | Edit_removeAddress a => Model_removeAddress edits r a
  | Edit_updateLastBackedUp g =>
      if Js.truthy g then Model_updateLastBackedUp edits r g now
      else Throw (JsError "Must provide groupId")
  | Edit_setPreference p => Model_setPreference edits r p
  | Edit_setWalletNameFlag f true => Model_setWalletNameFlag edits r f
  | Edit_setWalletNameFlag f false => Model_removeWalletNameFlag edits r f
  end.

(** *** Sample data *)

Definition set_lastBackedUp (timestamp : Z) (g : WalletGroup) : WalletGroup :=
  {| group_id := group_id g; walletContainer := walletContainer g;
     lastBackedUp := Some timestamp |}.

Definition with_groups (gs : list WalletGroup) (r : WalletRecord) : WalletRecord :=
  {| walletManager :=
       {| groups := gs; currentAddress := currentAddress (walletManager r) |};
     permissions := permissions r |}.

(** A stand-in for the record model: groups are found by id, names and
    preferences are not kept. *)
Definition sample_edits : EditCollaborators :=
  {| Model_removeWalletGroup := fun r g =>
       Ok (with_groups
             (List.filter (fun grp => negb (String.eqb (group_id grp) g))
                          (groups (walletManager r))) r);
     Model_renameWalletGroup := fun r _ _ => Ok r;
     Model_renameAddress := fun r _ _ => Ok r;
     Model_removeAddress := fun r a =>
       match Spec_getWalletByAddress r a with
       | Some _ => Ok r
       | None => Throw (JsError "Address is not found in the record")
       end;
     Model_updateLastBackedUp := fun r g timestamp =>
       Ok (with_groups
             (map (fun grp => if String.eqb (group_id grp) g
                              then set_lastBackedUp timestamp grp else grp)
                  (groups (walletManager r))) r);
     Model_setPreference := fun r _ => Ok r;
     Model_getPreferences := fun _ =>
       {| walletNameFlags := Some [WalletNameFlag_member 0];
          preferences_rest := "{}" |};
     Model_setWalletNameFlag := fun r _ => Ok r;
     Model_removeWalletNameFlag := fun r _ => Ok r;
     maskWalletGroup := fun g =>
       {| group_id := group_id g;
          walletContainer :=
            {| seedType := seedType (walletContainer g);
               wallets := map (maskWallet MoreScenarios.sample_more)
                              (wallets (walletContainer g)) |};
          lastBackedUp := lastBackedUp g |};
     maskWalletGroups := fun gs =>
       map (fun g =>
              {| group_id := group_id g;
                 walletContainer :=
                   {| seedType := seedType (walletContainer g);
                      wallets := map (maskWallet MoreScenarios.sample_more)
                                     (wallets (walletContainer g)) |};
                 lastBackedUp := lastBackedUp g |}) gs |}.

End WalletEdits.

(* ===================================================================== *)
(** ** Properties of the containers                                        *)
(* ===================================================================== *)

Import WalletContainer WalletRecord WalletController Scenarios.
Import WalletMethods MoreScenarios.

Local Open Scope list_scope.

Section ContainerFacts.

Lemma truthy_true (s : string) : Js.truthy s = true <-> s <> "".
Proof.
  unfold Js.truthy. destruct (String.eqb_spec s ""); simpl; split; congruence.
Qed.

Lemma truthy_false (s : string) : Js.truthy s = false <-> s = "".
Proof.
  unfold Js.truthy. destruct (String.eqb_spec s ""); simpl; split; congruence.
Qed.

Lemma sameAddress_true (a : string) (w : BareWallet) :
  sameAddress a w = true <-> Js.toLowerCase (address w) = Js.toLowerCase a.
Proof. unfold sameAddress. apply String.eqb_eq. Qed.

Lemma sameAddress_false (a : string) (w : BareWallet) :
  sameAddress a w = false <-> Js.toLowerCase (address w) <> Js.toLowerCase a.
Proof. unfold sameAddress. apply String.eqb_neq. Qed.

Lemma sameAddress_case (a a' : string) (w : BareWallet) :
  Js.toLowerCase a' = Js.toLowerCase a -> sameAddress a' w = sameAddress a w.
Proof. intros H. unfold sameAddress. now rewrite H. Qed.

Lemma find_ext_pred {A : Type} (p q : A -> bool) (l : list A) :
  (forall x, p x = q x) -> find p l = find q l.
Proof.
  intros H. induction l as [|x l IH]; simpl; [reflexivity|].
  rewrite H, IH. reflexivity.
Qed.

Lemma findIndex_ext_pred {A : Type} (p q : A -> bool) (l : list A) :
  (forall x, p x = q x) -> Js.findIndex p l = Js.findIndex q l.
Proof.
  intros H. induction l as [|x l IH]; simpl; [reflexivity|].
  rewrite H, IH. reflexivity.
Qed.

Lemma findIndex_none {A : Type} (p : A -> bool) (l : list A) :
  (forall x, In x l -> p x = false) -> Js.findIndex p l = None.
Proof.
  induction l as [|x l IH]; simpl; intros H; [reflexivity|].
  rewrite (H x (or_introl eq_refl)), IH; [reflexivity|].
  intros y Hy. apply H. now right.
Qed.

(** [findIndex] finds the first element that satisfies the predicate, and
    [splice1] at that index removes exactly that element. *)
Lemma findIndex_some_split {A : Type} (p : A -> bool) (l : list A) (pos : nat) :
  Js.findIndex p l = Some pos ->
  exists l1 x l2,
    l = l1 ++ x :: l2 /\ p x = true /\ (forall y, In y l1 -> p y = false)
    /\ Js.splice1 pos l = l1 ++ l2.
Proof.
  revert pos. induction l as [|x l IH]; simpl; intros pos H; [discriminate|].
  destruct (p x) eqn:Hp.
  - injection H as <-. exists [], x, l.
    split; [reflexivity|]. split; [exact Hp|]. split; [intros y []|].
    unfold Js.splice1. simpl. now rewrite drop_0.
  - destruct (Js.findIndex p l) as [i|] eqn:Hi; simpl in H; [|discriminate].
    injection H as <-.
    destruct (IH i eq_refl) as (l1 & y & l2 & -> & Hy & Hl1 & Hs).
    exists (x :: l1), y, l2.
    split; [reflexivity|]. split; [exact Hy|].
    split; [intros z [<-|Hz]; auto|].
    unfold Js.splice1 in *. simpl. now rewrite Hs.
Qed.

Lemma findIndex_some_of_In {A : Type} (p : A -> bool) (l : list A) (x : A) :
  In x l -> p x = true -> exists pos, Js.findIndex p l = Some pos.
Proof.
  induction l as [|y l IH]; simpl; intros Hin Hp; [contradiction|].
  destruct (p y) eqn:Hy; [now exists 0%nat|].
  destruct Hin as [->|Hin]; [congruence|].
  destruct (IH Hin Hp) as [pos ->]. now exists (S pos).
Qed.

Lemma container_eta (c : WalletContainer) :
  {| seedType := seedType c; wallets := wallets c |} = c.
Proof. now destruct c. Qed.

(** C9. [getWalletByAddress] and [removeWallet] compare addresses after
    lower-casing both sides: an address that differs only in case gives the
    same result; a wallet is found or removed exactly when some member
    matches case-insensitively (the first such member is the one returned
    and the one removed); and when no member matches, [removeWallet] returns
    the container unchanged, without throwing. *)
Theorem removeWallet_getWalletByAddress_case_insensitive
    (c : WalletContainer) (a : string) :
  (forall a', Js.toLowerCase a' = Js.toLowerCase a ->
     getWalletByAddress c a' = getWalletByAddress c a
     /\ removeWallet c a' = removeWallet c a)
  /\ (forall w, In w (wallets c) ->
        Js.toLowerCase (address w) = Js.toLowerCase a ->
        exists l1 x l2,
          wallets c = l1 ++ x :: l2
          /\ Js.toLowerCase (address x) = Js.toLowerCase a
          /\ (forall y, In y l1 -> Js.toLowerCase (address y) <> Js.toLowerCase a)
          /\ getWalletByAddress c a = Some x
          /\ wallets (removeWallet c a) = l1 ++ l2)
  /\ ((forall w, In w (wallets c) ->
         Js.toLowerCase (address w) <> Js.toLowerCase a) ->
      removeWallet c a = c /\ getWalletByAddress c a = None).
Proof.
  split; [|split].
  - intros a' Ha. unfold getWalletByAddress, removeWallet.
    rewrite (find_ext_pred (sameAddress a') (sameAddress a)) by
      (intros w; now apply sameAddress_case).
    rewrite (findIndex_ext_pred (sameAddress a') (sameAddress a)) by
      (intros w; now apply sameAddress_case).
    split; reflexivity.
  - intros w Hin Hw.
    destruct (findIndex_some_of_In (sameAddress a) (wallets c) w Hin) as [pos Hpos].
    { now apply sameAddress_true. }
    destruct (findIndex_some_split _ _ _ Hpos) as (l1 & x & l2 & Hl & Hx & Hl1 & Hs).
    exists l1, x, l2.
    split; [exact Hl|]. split; [now apply sameAddress_true|].
    split; [intros y Hy; apply sameAddress_false; now apply Hl1|].
    split.
    + unfold getWalletByAddress. rewrite Hl.
      clear Hl Hs Hpos Hin. induction l1 as [|y l1 IH]; simpl.
      * now rewrite Hx.
      * rewrite (Hl1 y (or_introl eq_refl)). apply IH.
        intros z Hz. apply Hl1. now right.
    + unfold removeWallet. rewrite Hpos. simpl. exact Hs.
  - intros Hnone.
    assert (Hp : forall x, In x (wallets c) -> sameAddress a x = false).
    { intros x Hx. apply sameAddress_false. now apply Hnone. }
    split.
    + unfold removeWallet. now rewrite (findIndex_none _ _ Hp).
    + unfold getWalletByAddress.
      destruct (find (sameAddress a) (wallets c)) as [x|] eqn:Hf; [|reflexivity].
      apply find_some in Hf. destruct Hf as [Hin Hx].
      rewrite (Hp x Hin) in Hx. discriminate.
Qed.

End ContainerFacts.

Lemma removeWallet_getWalletByAddress_case_insensitive_witness :
  getWalletByAddress container_AB address_A_upper
    = getWalletByAddress container_AB address_A_lower
  /\ getWalletByAddress container_AB address_A_lower = Some wallet_A
  /\ wallets (removeWallet container_AB address_A_lower) = [wallet_B]
  /\ removeWallet container_AB address_unknown = container_AB.
Proof.
  pose proof (removeWallet_getWalletByAddress_case_insensitive
                container_AB address_A_lower) as [Hcase [Hfound _]].
  pose proof (removeWallet_getWalletByAddress_case_insensitive
                container_AB address_unknown) as [_ [_ Habsent]].
  split; [|split; [|split]].
  - apply (Hcase address_A_upper). vm_compute. reflexivity.
  - vm_compute. reflexivity.
  - vm_compute. reflexivity.
  - apply Habsent.
    intros w [<-|[<-|[]]]; vm_compute; discriminate.
Defined.

Section RestoreFacts.

Variable ethers_Wallet : string -> Result EthersWallet.
Variable ethers_fromMnemonic : string -> string -> Result EthersWallet.
Variable ethers_createRandom : EthersWallet.

Abbreviation restore :=
  (restoreBareWallet ethers_Wallet ethers_fromMnemonic ethers_createRandom).

Lemma walletToObject_bare (w : BareWallet) : walletToObject (IsBareWallet w) = w.
Proof. now destruct w. Qed.

(** The fast path of [restoreBareWallet]: a wallet that carries an address
    and a private key comes back as it is, with only a falsy name replaced
    by [null]. *)
Lemma restoreBareWallet_of_bare (w : BareWallet) :
  address w <> "" -> privateKey w <> "" ->
  restore (bareAsPartial w)
  = Ok {| mnemonic := mnemonic w; privateKey := privateKey w;
          address := address w; name := Js.orNull (name w) |}.
Proof.
  intros Ha Hk. unfold restoreBareWallet, bareAsPartial. simpl.
  apply truthy_true in Ha. apply truthy_true in Hk. rewrite Ha, Hk. reflexivity.
Qed.

Lemma orNull_present (n : string) : n <> "" -> Js.orNull (Some n) = Some n.
Proof. intros H. unfold Js.orNull. simpl. apply truthy_true in H. now rewrite H. Qed.

Lemma orNull_absent (o : option string) :
  o = None \/ o = Some "" -> Js.orNull o = None.
Proof. intros [->| ->]; reflexivity. Qed.

(** C8. Serialising a container with [toPlainObject] and restoring each
    serialised wallet with [restoreBareWallet] succeeds and gives back, in
    order, wallets with the same address (and private key); the mnemonic
    field is the original one (present or [null]); a name that was present
    (a non-empty string) is the original one, and an absent name stays
    [null]. The members are key-bearing wallets: address and private key
    are non-empty. *)
Theorem toPlainObject_restore_roundtrip (c : WalletContainer) :
  Forall (fun w => address w <> "" /\ privateKey w <> "") (wallets c) ->
  exists restored,
    mapR restore (map bareAsPartial (plain_wallets (toPlainObject c))) = Ok restored
    /\ plain_seedType (toPlainObject c) = seedType c
    /\ map address restored = map address (wallets c)
    /\ Forall2 (fun w w' =>
                  address w' = address w
                  /\ privateKey w' = privateKey w
                  /\ mnemonic w' = mnemonic w
                  /\ (forall n, name w = Some n -> n <> "" -> name w' = Some n)
                  /\ (name w = None \/ name w = Some "" -> name w' = None))
               (wallets c) restored.
Proof.
  destruct c as [st ws]. unfold toPlainObject.
  cbn [plain_wallets plain_seedType wallets seedType].
  induction 1 as [|w ws [Ha Hk] _ IH].
  - exists []. repeat split; constructor.
  - destruct IH as (restored & Hmap & _ & Haddr & Hall).
    exists ({| mnemonic := mnemonic w; privateKey := privateKey w;
               address := address w; name := Js.orNull (name w) |} :: restored).
    split; [|split; [reflexivity|split]].
    + cbn [map mapR].
      rewrite walletToObject_bare, (restoreBareWallet_of_bare w Ha Hk).
      cbn [bindR]. now rewrite Hmap.
    + simpl. now rewrite Haddr.
    + constructor; [|exact Hall]. simpl.
      split; [reflexivity|]. split; [reflexivity|]. split; [reflexivity|].
      split.
      * intros n -> Hn. now apply orNull_present.
      * apply orNull_absent.
Qed.

(** [restoreBareWallet] never returns an empty-string name: on its fast
    path a falsy name becomes [null], and the other paths set [null]. *)
Lemma restoreBareWallet_name (p : PartialBareWallet) (w : BareWallet) :
  restore p = Ok w -> name w <> Some "".
Proof.
  unfold restoreBareWallet.
  destruct (Js.truthyOpt (p_address p) && Js.truthyOpt (p_privateKey p)).
  - intros [= <-]. simpl. unfold Js.orNull.
    destruct (p_name p) as [n|]; simpl; [|discriminate].
    destruct (Js.truthy n) eqn:Hn; [|discriminate].
    intros [= ->]. discriminate.
  - destruct (Js.truthyOpt (p_privateKey p)).
    + destruct (ethers_Wallet (default "" (p_privateKey p))); simpl; [|discriminate].
      intros [= <-]. discriminate.
    + destruct (p_mnemonic p) as [m|].
      * destruct (ethers_fromMnemonic (phrase m) (path m)); simpl; [|discriminate].
        intros [= <-]. discriminate.
      * intros [= <-]. discriminate.
Qed.

(** [PrivateKeyWalletContainer]: more than one descriptor, or no array at
    all, is refused. *)
Lemma PrivateKeyWalletContainer_rejects_many (ws : list string) :
  (1 < length ws)%nat ->
  isThrow (PrivateKeyWalletContainer ethers_Wallet ethers_fromMnemonic
             ethers_createRandom (Some ws)) = true.
Proof.
  intros H. unfold PrivateKeyWalletContainer.
  apply Nat.ltb_lt in H. now rewrite H.
Qed.

Lemma PrivateKeyWalletContainer_rejects_undefined :
  isThrow (PrivateKeyWalletContainer ethers_Wallet ethers_fromMnemonic
             ethers_createRandom None) = true.
Proof. reflexivity. Qed.

(** Every [addWallet] on a private-key container throws. *)
Lemma addWallet_privateKey_throws (c : WalletContainer) (w : BareWallet) :
  seedType c = SeedType_privateKey -> isThrow (addWallet c w) = true.
Proof. intros H. unfold addWallet. now rewrite H. Qed.

(** C5. The constructor of [PrivateKeyWalletContainer] accepts the empty
    array: its guard is [wallets.length > 1], so zero descriptors pass and
    the container is built with no wallet at all, although the message of
    the guard asks for exactly one element. *)
Theorem PrivateKeyWalletContainer_accepts_empty_array :
  PrivateKeyWalletContainer ethers_Wallet ethers_fromMnemonic
    ethers_createRandom (Some [])
  = Ok {| seedType := SeedType_privateKey; wallets := [] |}.
Proof. reflexivity. Qed.

End RestoreFacts.

Lemma toPlainObject_restore_roundtrip_witness :
  exists restored,
    mapR (restoreBareWallet sample_ethers_Wallet sample_ethers_fromMnemonic
            sample_ethers_createRandom)
         (map bareAsPartial (plain_wallets (toPlainObject container_AB)))
    = Ok restored
    /\ map address restored = [address wallet_A; address wallet_B].
Proof.
  destruct (toPlainObject_restore_roundtrip sample_ethers_Wallet
              sample_ethers_fromMnemonic sample_ethers_createRandom container_AB)
    as (restored & Hmap & _ & Haddr & _).
  - repeat constructor; vm_compute; discriminate.
  - exists restored. split; [exact Hmap | exact Haddr].
Defined.

(* ===================================================================== *)
(** ** Properties of the controller                                        *)
(* ===================================================================== *)

Lemma bind_ok {A B : Type} (m : M A) (k : A -> M B) (w w' : World) (a : A) :
  m w = (Ok a, w') -> (m ≫= k) w = k a w'.
Proof. intros H. unfold mbind, M_bind. now rewrite H. Qed.

Lemma bind_throw {A B : Type} (m : M A) (k : A -> M B) (w w' : World) (e : Error) :
  m w = (Throw e, w') -> (m ≫= k) w = (Throw e, w').
Proof. intros H. unfold mbind, M_bind. now rewrite H. Qed.

Lemma logged_nil (w : World) : logged [] w = w.
Proof. destruct w. unfold logged. simpl. now rewrite app_nil_r. Qed.

Lemma logged_logged (es1 es2 : list Event) (w : World) :
  logged es2 (logged es1 w) = logged (es1 ++ es2) w.
Proof. unfold logged. simpl. now rewrite app_assoc. Qed.

Lemma tell_run (e : Event) (w : World) : tell e w = (Ok tt, logged [e] w).
Proof. reflexivity. Qed.

Lemma includes_In (l : list string) (x : string) :
  Js.includes l x = true <-> In x l.
Proof.
  unfold Js.includes. rewrite existsb_exists. split.
  - intros (y & Hy & Heq). apply String.eqb_eq in Heq. now subst.
  - intros H. exists x. split; [exact H | apply String.eqb_refl].
Qed.

(** *** The record model built on the spec *)

Lemma Spec_setChainForOrigin_get (dflt : Chain) (r : WalletRecord) (c : Chain) (o : string) :
  Spec_getChainForOrigin dflt (Spec_setChainForOrigin r c o) o = c.
Proof.
  unfold Spec_getChainForOrigin, Spec_setChainForOrigin, with_permissions. simpl.
  now rewrite lookup_insert_eq.
Qed.

Lemma Spec_setChainForOrigin_other (dflt : Chain) (r : WalletRecord) (c : Chain)
    (o o' : string) :
  o <> o' ->
  Spec_getChainForOrigin dflt (Spec_setChainForOrigin r c o) o'
  = Spec_getChainForOrigin dflt r o'.
Proof.
  intros H. unfold Spec_getChainForOrigin, Spec_setChainForOrigin, with_permissions.
  simpl. now rewrite lookup_insert_ne.
Qed.

Lemma Spec_addPermission_walletManager (r : WalletRecord) (a o : string) :
  walletManager (Spec_addPermission r a o) = walletManager r.
Proof.
  unfold Spec_addPermission.
  destruct (permissions r !! o) as [p|]; [|reflexivity].
  destruct (Js.includes (addresses p) a); reflexivity.
Qed.

(** After [Spec_addPermission] the permission map lists the address for
    the origin. *)
Lemma Spec_addPermission_lists (r : WalletRecord) (a o : string) :
  exists p, permissions (Spec_addPermission r a o) !! o = Some p /\ In a (addresses p).
Proof.
  unfold Spec_addPermission.
  destruct (permissions r !! o) as [p|] eqn:Hp.
  - destruct (Js.includes (addresses p) a) eqn:Hin.
    + exists p. split; [exact Hp|]. now apply includes_In.
    + eexists. simpl. rewrite lookup_insert_eq. split; [reflexivity|].
      simpl. apply in_or_app. right. now left.
  - eexists. simpl. rewrite lookup_insert_eq. split; [reflexivity|]. now left.
Qed.

Lemma Spec_setCurrentAddress_current (r r1 : WalletRecord) (a : string) :
  Spec_setCurrentAddress r a = Ok r1 ->
  currentAddress (walletManager r1) = Some a /\ permissions r1 = permissions r.
Proof.
  unfold Spec_setCurrentAddress.
  destruct (Spec_getWalletByAddress r a); [|discriminate].
  intros [= <-]. split; reflexivity.
Qed.

Section ControllerFacts.

Variable INTERNAL_ORIGIN : string.
Variable env : Collaborators.

Lemma verifyInternalOrigin_run (context : option Context) (w : World) :
  verifyInternalOrigin INTERNAL_ORIGIN context w
  = (if isInternal INTERNAL_ORIGIN context then Ok tt else Throw OriginNotAllowed, w).
Proof.
  unfold verifyInternalOrigin, isInternal.
  destruct (originOf context) as [o|]; [|reflexivity].
  destruct (OriginValue_eqb o (OriginString INTERNAL_ORIGIN)
            || OriginValue_eqb o INTERNAL_ORIGIN_SYMBOL); reflexivity.
Qed.

Lemma ensureRecord_run (w : World) :
  ensureRecord w
  = (match record (this w) with
     | Some r => Ok r
     | None => Throw RecordNotFound
     end, w).
Proof.
  unfold ensureRecord, mbind, M_bind, getThis.
  destruct (record (this w)); reflexivity.
Qed.

Lemma ensureCurrentAddress_run (w : World) :
  ensureCurrentAddress w
  = (match readCurrentAddress (this w) with
     | Some a => Ok a
     | None => Throw (JsError "Wallet is not initialized")
     end, w).
Proof.
  unfold ensureCurrentAddress, mbind, M_bind, getThis.
  destruct (readCurrentAddress (this w)); reflexivity.
Qed.

(** [readCurrentAddress] never returns the empty string. *)
Lemma readCurrentAddress_truthy (t : Wallet) (a : string) :
  readCurrentAddress t = Some a -> a <> "".
Proof.
  unfold readCurrentAddress, Js.orNull.
  destruct (record t) as [r|]; [|discriminate].
  destruct (currentAddress (walletManager r)) as [c|]; simpl; [|discriminate].
  destruct (Js.truthy c) eqn:Hc; [|discriminate].
  intros [= <-]. now apply truthy_true.
Qed.

Lemma readCurrentAddress_record (t : Wallet) (a : string) :
  readCurrentAddress t = Some a ->
  exists r, record t = Some r /\ Js.orNull (currentAddress (walletManager r)) = Some a.
Proof.
  unfold readCurrentAddress. destruct (record t) as [r|]; [|discriminate].
  intros H. now exists r.
Qed.

Lemma OriginValue_eqb_eq (a b : OriginValue) :
  OriginValue_eqb a b = true <-> a = b.
Proof.
  destruct a as [s|n], b as [s'|n']; simpl; split; try discriminate.
  - intros H. apply String.eqb_eq in H. now subst.
  - intros [= ->]. apply String.eqb_refl.
  - intros H. apply Nat.eqb_eq in H. now subst.
  - intros [= ->]. apply Nat.eqb_refl.
Qed.

Lemma allowedOrigin_internal (t : Wallet) (context : option Context) (a : string) :
  INTERNAL_ORIGIN <> "" ->
  originOf context = Some (OriginString INTERNAL_ORIGIN) ->
  allowedOrigin INTERNAL_ORIGIN t context a = Ok true.
Proof.
  intros Hne Ho. unfold allowedOrigin. rewrite Ho. simpl.
  apply truthy_true in Hne. rewrite Hne. simpl.
  now rewrite String.eqb_refl.
Qed.

Lemma allowedOrigin_string (t : Wallet) (context : option Context) (o a : string) :
  originOf context = Some (OriginString o) -> o <> "" ->
  allowedOrigin INTERNAL_ORIGIN t context a
  = if String.eqb o INTERNAL_ORIGIN then Ok true else permissionsInclude t o a.
Proof.
  intros Ho Hne. unfold allowedOrigin. rewrite Ho. simpl.
  apply truthy_true in Hne. rewrite Hne. simpl.
  destruct (String.eqb o INTERNAL_ORIGIN); reflexivity.
Qed.

Lemma includes_false (l : list string) (x : string) :
  Js.includes l x = false <-> ~ In x l.
Proof.
  split.
  - intros H Hin. apply includes_In in Hin. congruence.
  - intros H. destruct (Js.includes l x) eqn:Hi; [|reflexivity].
    apply includes_In in Hi. now destruct H.
Qed.

Lemma inherited_In (o : string) : Js.inherited o = true <-> In o Js.objectPrototypeKeys.
Proof. apply includes_In. Qed.

Lemma inherited_false (o : string) :
  Js.inherited o = false <-> ~ In o Js.objectPrototypeKeys.
Proof. apply includes_false. Qed.

Lemma permissionsInclude_true (t : Wallet) (o a : string) :
  permissionsInclude t o a = Ok true <->
  exists r p, record t = Some r /\ permissions r !! o = Some p /\ In a (addresses p).
Proof.
  unfold permissionsInclude. split.
  - destruct (record t) as [r|]; [|discriminate].
    destruct (permissions r !! o) as [p|] eqn:Hp.
    + intros [= H]. exists r, p. repeat split; auto. now apply includes_In.
    + destruct (Js.inherited o); discriminate.
  - intros (r & p & -> & -> & Hin). f_equal. now apply includes_In.
Qed.

(** The five cases of the shared expression, on the data it reads. *)
Lemma permissionsInclude_cases (t : Wallet) (o a : string) :
  (record t = None -> permissionsInclude t o a = Ok false)
  /\ (forall r p, record t = Some r -> permissions r !! o = Some p ->
        In a (addresses p) -> permissionsInclude t o a = Ok true)
  /\ (forall r p, record t = Some r -> permissions r !! o = Some p ->
        ~ In a (addresses p) -> permissionsInclude t o a = Ok false)
  /\ (forall r, record t = Some r -> permissions r !! o = None ->
        ~ In o Js.objectPrototypeKeys -> permissionsInclude t o a = Ok false)
  /\ (forall r, record t = Some r -> permissions r !! o = None ->
        In o Js.objectPrototypeKeys ->
        permissionsInclude t o a = Throw (JsError INCLUDES_OF_UNDEFINED)).
Proof.
  unfold permissionsInclude. split; [|split; [|split; [|split]]].
  - now intros ->.
  - intros r p -> -> Hin. f_equal. now apply includes_In.
  - intros r p -> -> Hin. f_equal. now apply includes_false.
  - intros r -> -> Hin. apply inherited_false in Hin. now rewrite Hin.
  - intros r -> -> Hin. apply inherited_In in Hin. now rewrite Hin.
Qed.

(** C1. When the origin of the call context is [INTERNAL_ORIGIN],
    [allowedOrigin] returns true for every wallet state and every address,
    whatever the permission map holds; for any other origin it returns true
    only if the record's permission map has an entry for that origin whose
    addresses include the address. For a non-empty string origin other than
    [INTERNAL_ORIGIN] the result is read off the record: true when the
    entry of the origin lists the address; false when no record is loaded,
    when the entry does not list the address, and when there is no entry
    and the origin is not the name of a property inherited from
    [Object.prototype]; for such a name without an entry the call throws
    the [TypeError] of [.includes] on [undefined], so it does not return
    true there either. *)
Theorem allowedOrigin_internal_or_listed (t : Wallet) (address : string) :
  INTERNAL_ORIGIN <> "" ->
  (forall context,
      originOf context = Some (OriginString INTERNAL_ORIGIN) ->
      allowedOrigin INTERNAL_ORIGIN t context address = Ok true)
  /\ (forall context,
        originOf context <> Some (OriginString INTERNAL_ORIGIN) ->
        allowedOrigin INTERNAL_ORIGIN t context address = Ok true ->
        exists o r p,
          originOf context = Some (OriginString o)
          /\ record t = Some r
          /\ permissions r !! o = Some p
          /\ In address (addresses p))
  /\ (forall context o,
        originOf context = Some (OriginString o) ->
        o <> "" -> o <> INTERNAL_ORIGIN ->
        (record t = None ->
         allowedOrigin INTERNAL_ORIGIN t context address = Ok false)
        /\ (forall r p,
              record t = Some r -> permissions r !! o = Some p ->
              In address (addresses p) ->
              allowedOrigin INTERNAL_ORIGIN t context address = Ok true)
        /\ (forall r p,
              record t = Some r -> permissions r !! o = Some p ->
              ~ In address (addresses p) ->
              allowedOrigin INTERNAL_ORIGIN t context address = Ok false)
        /\ (forall r,
              record t = Some r -> permissions r !! o = None ->
              ~ In o Js.objectPrototypeKeys ->
              allowedOrigin INTERNAL_ORIGIN t context address = Ok false)
        /\ (forall r,
              record t = Some r -> permissions r !! o = None ->
              In o Js.objectPrototypeKeys ->
              allowedOrigin INTERNAL_ORIGIN t context address
              = Throw (JsError INCLUDES_OF_UNDEFINED))).
Proof.
  intros Hne. split; [|split].
  - intros context Ho. now apply allowedOrigin_internal.
  - intros context Hother. unfold allowedOrigin.
    destruct (originOf context) as [[o|n]|] eqn:Ho; simpl; try discriminate.
    destruct (Js.truthy o); simpl; [|discriminate].
    destruct (String.eqb_spec o INTERNAL_ORIGIN) as [->|Hneq]; [congruence|].
    intros H. apply permissionsInclude_true in H.
    destruct H as (r & p & Hr & Hp & Hin). now exists o, r, p.
  - intros context o Ho Hne' Hneq.
    rewrite (allowedOrigin_string t context o address Ho Hne').
    apply String.eqb_neq in Hneq. rewrite Hneq.
    apply permissionsInclude_cases.
Qed.


(** [sendTransaction] gets past its first checks only from the internal
    origin and with a [from] that is, up to case, the current address;
    otherwise it throws at once. *)
Lemma sendTransaction_first_checks
    (tx : IncomingTransaction) (context : option Context) (o : string) (w : World) :
  (isInternal INTERNAL_ORIGIN context = false
   \/ ~ (exists f c, tx_from tx = Some f /\ readCurrentAddress (this w) = Some c
                     /\ Js.toLowerCase f = Js.toLowerCase c)) ->
  exists e, sendTransaction INTERNAL_ORIGIN env tx context o w = (Throw e, w).
Proof.
  intros H. unfold sendTransaction.
  destruct (isInternal INTERNAL_ORIGIN context) eqn:Hint.
  - destruct H as [H|H]; [discriminate|].
    rewrite (bind_ok _ _ w w tt) by (now rewrite verifyInternalOrigin_run, Hint).
    destruct (tx_from tx) as [f|]; [|now eexists].
    destruct (Js.truthy f) eqn:Htr; simpl; [|now eexists].
    destruct (readCurrentAddress (this w)) as [c|] eqn:Hc.
    + rewrite (bind_ok _ _ w w c) by (now rewrite ensureCurrentAddress_run, Hc).
      unfold normalizeAddress.
      destruct (String.eqb_spec (Js.toLowerCase f) (Js.toLowerCase c)) as [Heq|Hneq].
      * destruct H. now exists f, c.
      * simpl. now eexists.
    + eexists. apply bind_throw. now rewrite ensureCurrentAddress_run, Hc.
  - eexists. apply bind_throw. now rewrite verifyInternalOrigin_run, Hint.
Qed.

(** C3. [sendTransaction] throws, having changed nothing and called no
    collaborator (the world, trace included, is the one it started from),
    when [tx.from] is missing, and when [tx.from] is not, up to case, the
    currently selected address. *)
Theorem sendTransaction_rejects_foreign_from
    (tx : IncomingTransaction) (context : option Context) (o : string) (w : World) :
  (tx_from tx = None
   \/ exists f, tx_from tx = Some f
        /\ forall c, readCurrentAddress (this w) = Some c ->
                     Js.toLowerCase f <> Js.toLowerCase c) ->
  exists e, sendTransaction INTERNAL_ORIGIN env tx context o w = (Throw e, w).
Proof.
  intros H. apply sendTransaction_first_checks. right.
  intros (f & c & Hf & Hc & Heq).
  destruct H as [H|(f' & Hf' & Hdiff)]; [congruence|].
  assert (f' = f) as -> by congruence.
  now apply (Hdiff c).
Qed.

(** *** The session key *)

Lemma getPrivateKey_run (a : string) (context : option Context) (w : World) :
  getPrivateKey INTERNAL_ORIGIN env a context w
  = (if isInternal INTERNAL_ORIGIN context then
       match record (this w) with
       | None => Throw RecordNotFound
       | Some r =>
           match seedPhraseEncryptionKey (this w) with
           | None => Throw SessionExpired
           | Some _ => Model_getPrivateKey env r a
           end
       end
     else Throw OriginNotAllowed, w).
Proof.
  unfold getPrivateKey, mbind, M_bind.
  rewrite verifyInternalOrigin_run.
  destruct (isInternal INTERNAL_ORIGIN context); [|reflexivity].
  rewrite ensureRecord_run.
  destruct (record (this w)); [|reflexivity].
  unfold getThis, liftR, throw.
  destruct (seedPhraseEncryptionKey (this w)); reflexivity.
Qed.

Lemma getRecoveryPhrase_run (g : string) (context : option Context) (w : World) :
  getRecoveryPhrase INTERNAL_ORIGIN env g context w
  = (if isInternal INTERNAL_ORIGIN context then
       match record (this w) with
       | None => Throw RecordNotFound
       | Some r =>
           match seedPhraseEncryptionKey (this w) with
           | None => Throw SessionExpired
           | Some key => Model_getRecoveryPhrase env r g key
           end
       end
     else Throw OriginNotAllowed, w).
Proof.
  unfold getRecoveryPhrase, mbind, M_bind.
  rewrite verifyInternalOrigin_run.
  destruct (isInternal INTERNAL_ORIGIN context); [|reflexivity].
  rewrite ensureRecord_run.
  destruct (record (this w)); [|reflexivity].
  unfold getThis, liftR, throw.
  destruct (seedPhraseEncryptionKey (this w)); reflexivity.
Qed.

(** Without a session key every reveal call throws. *)
Lemma revealBlocked_without_key (w : World) :
  seedPhraseEncryptionKey (this w) = None -> revealBlocked INTERNAL_ORIGIN env w.
Proof.
  intros Hk. split.
  - intros a context. rewrite getPrivateKey_run, Hk.
    destruct (isInternal INTERNAL_ORIGIN context).
    + destruct (record (this w)) as [r|].
      * eexists. split; [reflexivity|].
        split; [discriminate|]. split; [discriminate|reflexivity].
      * eexists. split; [reflexivity|].
        split; [discriminate|]. split; [reflexivity|]. intros _ H. now destruct H.
    + eexists. split; [reflexivity|].
      split; [reflexivity|]. split; discriminate.
  - intros g context. rewrite getRecoveryPhrase_run, Hk.
    destruct (isInternal INTERNAL_ORIGIN context).
    + destruct (record (this w)) as [r|].
      * eexists. split; [reflexivity|].
        split; [discriminate|]. split; [discriminate|reflexivity].
      * eexists. split; [reflexivity|].
        split; [discriminate|]. split; [reflexivity|]. intros _ H. now destruct H.
    + eexists. split; [reflexivity|].
      split; [reflexivity|]. split; discriminate.
Qed.

(** A use of a reveal method changes nothing: in particular it does not
    touch the expiry timer. *)
Lemma step_use_unchanged (u : Use) (w : World) :
  (forall dt, u <> Wait dt) -> step INTERNAL_ORIGIN env u w = w.
Proof.
  destruct u as [a c|g c|dt]; intros H; simpl.
  - now rewrite getPrivateKey_run.
  - now rewrite getRecoveryPhrase_run.
  - now destruct (H dt).
Qed.

Lemma advance_clock (dt : Z) (w : World) : clock (advance dt w) = (clock w + dt)%Z.
Proof.
  unfold advance.
  destruct (seedPhraseExpiryTimerId (this w)) as [d|]; [|reflexivity].
  destruct (d <=? clock w + dt)%Z; reflexivity.
Qed.

Lemma advance_encryptionKey (dt : Z) (w : World) :
  encryptionKey (this (advance dt w)) = encryptionKey (this w).
Proof.
  unfold advance.
  destruct (seedPhraseExpiryTimerId (this w)) as [d|]; [|reflexivity].
  destruct (d <=? clock w + dt)%Z; reflexivity.
Qed.

Lemma sessionAt_advance (d : Z) (sk : option CryptoKey) (dt : Z) (w : World) :
  (0 <= dt)%Z -> sessionAt d sk w -> sessionAt d sk (advance dt w).
Proof.
  intros Hdt [(Ht & Hc & Hk)|(Hk & Hc)]; unfold advance.
  - rewrite Ht. destruct (Z.leb_spec d (clock w + dt)) as [Hle|Hgt].
    + right. simpl. split; [reflexivity|lia].
    + left. simpl. repeat split; auto.
  - right. destruct (seedPhraseExpiryTimerId (this w)) as [d'|].
    + destruct (d' <=? clock w + dt)%Z; simpl; split; auto; lia.
    + simpl. split; auto. lia.
Qed.

Lemma run_invariant (d : Z) (sk : option CryptoKey) (us : list Use) (w : World) :
  Forall forward us -> sessionAt d sk w ->
  sessionAt d sk (run INTERNAL_ORIGIN env us w)
  /\ clock (run INTERNAL_ORIGIN env us w) = (clock w + elapsed us)%Z
  /\ encryptionKey (this (run INTERNAL_ORIGIN env us w)) = encryptionKey (this w).
Proof.
  intros Hf. revert w. induction Hf as [|u us Hu _ IH]; intros w Hs.
  - simpl. repeat split; auto. lia.
  - unfold run in *. simpl fold_left.
    destruct u as [a c|g c|dt].
    + rewrite step_use_unchanged by discriminate. now apply IH.
    + rewrite step_use_unchanged by discriminate. now apply IH.
    + simpl step. simpl in Hu.
      destruct (IH (advance dt w) (sessionAt_advance d sk dt w Hu Hs)) as (H1 & H2 & H3).
      rewrite advance_clock in H2. rewrite advance_encryptionKey in H3.
      repeat split; auto. rewrite H2. simpl. lia.
Qed.

(** [updateCredentials] sets both keys and arms the timeout, whether or
    not the read of the store that follows succeeds. *)
Lemma updateCredentials_session (id' key : string) (sk : option CryptoKey) (w0 : World) :
  let w1 := snd (updateCredentials env id' key sk w0) in
  encryptionKey (this w1) = Some key
  /\ seedPhraseEncryptionKey (this w1) = sk
  /\ seedPhraseExpiryTimerId (this w1) = Some (clock w0 + SEED_PHRASE_TIMEOUT)%Z
  /\ clock w1 = clock w0.
Proof.
  unfold updateCredentials, setExpirationForSeedPhraseEncryptionKey,
    syncWithWalletStore, mbind, M_bind, modifyThis, getClock, getThis, tell,
    liftR, mret, M_ret.
  simpl.
  destruct (Js.truthy key); simpl; [|repeat split].
  destruct (walletStore_read env id' key) as [[r|]|e]; simpl; repeat split.
Qed.

(** C2 (amended). After [updateCredentials], through any sequence of reveal
    calls and waits: the storage key stays held; while less than
    [1000 * 120] milliseconds have passed the session key is the one that
    was set (reveal calls do not extend or shorten the session); once that
    time has passed the session key is gone and every [getPrivateKey] and
    [getRecoveryPhrase] call throws and changes nothing: with
    [SessionExpired] when it comes from the internal origin and a record is
    loaded, and otherwise with the error of the guard that is checked
    first, [OriginNotAllowed] when the call does not come from the internal
    origin and [RecordNotFound] when it does and no record is loaded. The
    same holds right after [removeSeedPhraseEncryptionKey]. *)
Theorem reveal_fails_after_session_end
    (id' key : string) (sk : option CryptoKey) (w0 : World) (us : list Use) :
  Forall forward us ->
  let w := run INTERNAL_ORIGIN env us (snd (updateCredentials env id' key sk w0)) in
  encryptionKey (this w) = Some key
  /\ ((elapsed us < SEED_PHRASE_TIMEOUT)%Z -> seedPhraseEncryptionKey (this w) = sk)
  /\ ((SEED_PHRASE_TIMEOUT <= elapsed us)%Z ->
      seedPhraseEncryptionKey (this w) = None /\ revealBlocked INTERNAL_ORIGIN env w)
  /\ (let w' := snd (removeSeedPhraseEncryptionKey w) in
      encryptionKey (this w') = Some key /\ revealBlocked INTERNAL_ORIGIN env w').
Proof.
  intros Hf.
  destruct (updateCredentials_session id' key sk w0) as (Hk & Hs & Ht & Hc).
  set (w1 := snd (updateCredentials env id' key sk w0)) in *.
  assert (Hinit : sessionAt (clock w0 + SEED_PHRASE_TIMEOUT) sk w1).
  { left. repeat split; auto. rewrite Hc. unfold SEED_PHRASE_TIMEOUT. lia. }
  destruct (run_invariant _ sk us w1 Hf Hinit) as (Hinv & Hclock & Hkey).
  cbv zeta. split; [congruence|]. split; [|split].
  - intros Hlt. destruct Hinv as [(_ & _ & H)|(_ & H)]; [exact H|].
    rewrite Hclock, Hc in H. lia.
  - intros Hge. destruct Hinv as [(_ & H & _)|(H & _)].
    + rewrite Hclock, Hc in H. lia.
    + split; [exact H|]. now apply revealBlocked_without_key.
  - split.
    + simpl. congruence.
    + apply revealBlocked_without_key. reflexivity.
Qed.

(** *** Chains and transactions *)

Lemma toLowerCase_empty (s : string) : Js.toLowerCase s = "" <-> s = "".
Proof. destruct s; simpl; split; congruence. Qed.

Lemma getChainIdForOrigin_run (o : string) (w : World) :
  getChainIdForOrigin env o w
  = (Ok (resolvedChainId env (this w) o),
     match record (this w) with
     | Some _ => logged [NetworksStoreLoad] w
     | None => w
     end).
Proof.
  unfold getChainIdForOrigin, resolvedChainId, mbind, M_bind, getThis.
  destruct (record (this w)); reflexivity.
Qed.

Lemma updateWalletStore_detached (r : WalletRecord) (w : World) :
  detached (updateWalletStore r) w = (Ok tt, logged (storeSaves (this w) r) w).
Proof.
  unfold detached, updateWalletStore, storeSaves, mbind, M_bind, getThis.
  destruct (encryptionKey (this w)) as [key|]; simpl.
  - destruct (Js.truthy key); simpl; [reflexivity|]. now rewrite logged_nil.
  - now rewrite logged_nil.
Qed.

Lemma setChainForOrigin_run (c : Chain) (o : string) (w : World) (r : WalletRecord) :
  record (this w) = Some r ->
  let r' := Model_setChainForOrigin env r c o in
  setChainForOrigin env c o w
  = (Ok tt,
     logged (storeSaves (this w) r' ++ [Emit_chainChanged c o])
            (withThis (with_record (Some r') (this w)) w)).
Proof.
  intros Hr r'. unfold setChainForOrigin.
  rewrite (bind_ok _ _ w w r) by (now rewrite ensureRecord_run, Hr).
  fold r'. unfold mbind at 1. unfold M_bind, modifyThis.
  unfold mbind at 1. unfold M_bind. rewrite updateWalletStore_detached.
  rewrite tell_run, logged_logged. reflexivity.
Qed.

(** C7. For an origin that [allowedOrigin] accepts for the current
    address: when the requested chain id, once normalised, equals the chain
    id resolved for the origin, [wallet_switchEthereumChain] returns [null]
    with the wallet object unchanged and nothing on the trace but the read
    of the network registry (no [chainChanged] event); otherwise it returns
    [null] after replacing the record, at once, by the one in which the
    model has set the origin's chain to the requested one, saving it and
    emitting [chainChanged] for that chain and origin; no confirmation
    window is opened. *)
Theorem wallet_switchEthereumChain_same_or_switch
    (p : ChainIdValue) (context : option Context) (w : World) (a cid : string) :
  readCurrentAddress (this w) = Some a ->
  allowedOrigin INTERNAL_ORIGIN (this w) context a = Ok true ->
  ethers_hexValue env p = Ok cid ->
  let o := originString context in
  (cid = resolvedChainId env (this w) o ->
   wallet_switchEthereumChain INTERNAL_ORIGIN env p context w
   = (Ok tt, logged [NetworksStoreLoad] w))
  /\ (cid <> resolvedChainId env (this w) o ->
      exists r,
        record (this w) = Some r
        /\ let c := networks_getChainById env cid in
           let r' := Model_setChainForOrigin env r c o in
           wallet_switchEthereumChain INTERNAL_ORIGIN env p context w
           = (Ok tt,
              logged ([NetworksStoreLoad; NetworksStoreLoad]
                        ++ storeSaves (this w) r' ++ [Emit_chainChanged c o])
                     (withThis (with_record (Some r') (this w)) w))).
Proof.
  intros Ha Hallowed Hhex o.
  destruct (readCurrentAddress_record _ _ Ha) as (r & Hr & _).
  assert (Hstart :
    wallet_switchEthereumChain INTERNAL_ORIGIN env p context w
    = (if String.eqb cid (resolvedChainId env (this w) o) then mret tt
       else
         tell NetworksStoreLoad;;
         setChainForOrigin env (networks_getChainById env cid) o;;
         mret tt) (logged [NetworksStoreLoad] w)).
  { unfold wallet_switchEthereumChain.
    unfold mbind at 1. unfold M_bind at 1. unfold getThis at 1.
    rewrite Ha.
    unfold mbind at 1. unfold M_bind at 1. unfold liftR at 1.
    rewrite Hallowed. cbn [negb].
    unfold mbind at 1. unfold M_bind at 1. unfold liftR at 1.
    rewrite Hhex.
    unfold mbind at 1. unfold M_bind at 1.
    rewrite getChainIdForOrigin_run, Hr. reflexivity. }
  split.
  - intros Heq. rewrite Hstart. apply String.eqb_eq in Heq. now rewrite Heq.
  - intros Hneq. exists r. split; [exact Hr|]. cbv zeta.
    rewrite Hstart. apply String.eqb_neq in Hneq. rewrite Hneq.
    unfold mbind at 1. unfold M_bind at 1. rewrite tell_run.
    unfold mbind at 1. unfold M_bind at 1.
    rewrite (setChainForOrigin_run _ _ _ r) by exact Hr.
    cbv zeta. unfold mret, M_ret. unfold logged, withThis. simpl.
    repeat rewrite <- app_assoc. reflexivity.
Qed.

(** The checks of [sendTransaction] that come before the chain is
    resolved, once they have passed. *)
Lemma sendTransaction_after_sender_check
    (tx : IncomingTransaction) (context : option Context) (o : string) (w : World)
    (f c : string) :
  isInternal INTERNAL_ORIGIN context = true ->
  tx_from tx = Some f ->
  readCurrentAddress (this w) = Some c ->
  Js.toLowerCase f = Js.toLowerCase c ->
  sendTransaction INTERNAL_ORIGIN env tx context o w
  = (let chainId := resolvedChainId env (this w) o in
     match getTransactionChainId env tx with
     | Some targetChainId =>
         if Js.truthy targetChainId && negb (String.eqb chainId targetChainId)
         then
           throw (JsError
             "chainId in transaction object is different from current chainId")
         else sendTransaction_dispatch env chainId tx
     | None =>
         tell (ConsoleWarn "chainId field is missing from transaction object");;
         sendTransaction_dispatch env chainId (with_chainId chainId tx)
     end) (logged [NetworksStoreLoad] w).
Proof.
  intros Hint Hf Hc Heq. unfold sendTransaction.
  rewrite (bind_ok _ _ w w tt) by (now rewrite verifyInternalOrigin_run, Hint).
  rewrite Hf.
  assert (Htr : Js.truthy f = true).
  { apply truthy_true. intros ->. simpl in Heq. symmetry in Heq.
    apply (proj1 (toLowerCase_empty c)) in Heq.
    now apply (readCurrentAddress_truthy _ _ Hc). }
  rewrite Htr. cbn [negb].
  rewrite (bind_ok _ _ w w c) by (now rewrite ensureCurrentAddress_run, Hc).
  unfold normalizeAddress. rewrite Heq, String.eqb_refl. cbn [negb].
  destruct (readCurrentAddress_record _ _ Hc) as (r & Hr & _).
  unfold mbind at 1. unfold M_bind at 1.
  rewrite getChainIdForOrigin_run, Hr. reflexivity.
Qed.

(** C4 (amended). For every incoming transaction, [sendTransaction] throws
    without reaching the gas-price or signing collaborators when the
    transaction's chain id is present and differs from the chain id
    resolved for the origin. When the transaction has no chain id and the
    call has passed the checks that come first (internal origin, [tx.from]
    equal up to case to the current address), it logs the warning and goes
    on to prepare, price, sign and send the transaction with its [chainId]
    set to the resolved chain id. *)
Theorem sendTransaction_chain_check
    (tx : IncomingTransaction) (context : option Context) (o : string) (w : World) :
  (forall target,
      getTransactionChainId env tx = Some target -> target <> "" ->
      target <> resolvedChainId env (this w) o ->
      exists e w',
        sendTransaction INTERNAL_ORIGIN env tx context o w = (Throw e, w')
        /\ (w' = w \/ w' = logged [NetworksStoreLoad] w))
  /\ (forall f c,
        getTransactionChainId env tx = None ->
        isInternal INTERNAL_ORIGIN context = true ->
        tx_from tx = Some f ->
        readCurrentAddress (this w) = Some c ->
        Js.toLowerCase f = Js.toLowerCase c ->
        let chainId := resolvedChainId env (this w) o in
        sendTransaction INTERNAL_ORIGIN env tx context o w
        = sendTransaction_dispatch env chainId
            (with_chainId chainId tx)
            (logged [NetworksStoreLoad;
                     ConsoleWarn "chainId field is missing from transaction object"]
                    w)).
Proof.
  split.
  - intros target Ht Hne Hdiff.
    assert (Hstop :
      (isInternal INTERNAL_ORIGIN context = false
       \/ ~ (exists f c, tx_from tx = Some f /\ readCurrentAddress (this w) = Some c
                         /\ Js.toLowerCase f = Js.toLowerCase c)) ->
      exists e w',
        sendTransaction INTERNAL_ORIGIN env tx context o w = (Throw e, w')
        /\ (w' = w \/ w' = logged [NetworksStoreLoad] w)).
    { intros H. destruct (sendTransaction_first_checks tx context o w H) as [e He].
      exists e, w. split; [exact He|now left]. }
    destruct (isInternal INTERNAL_ORIGIN context) eqn:Hint; [|apply Hstop; now left].
    destruct (tx_from tx) as [f|] eqn:Hf.
    2:{ apply Hstop. right. intros (f & c & Hf' & _). discriminate. }
    destruct (readCurrentAddress (this w)) as [c|] eqn:Hc.
    2:{ apply Hstop. right. intros (f' & c & _ & Hc' & _). discriminate. }
    destruct (String.eqb_spec (Js.toLowerCase f) (Js.toLowerCase c)) as [Heq|Hneq].
    2:{ apply Hstop. right. intros (f' & c' & Hf' & Hc' & Heq). congruence. }
    rewrite (sendTransaction_after_sender_check tx context o w f c) by assumption.
    cbv zeta. rewrite Ht.
    apply truthy_true in Hne. rewrite Hne.
    assert (Hd : String.eqb (resolvedChainId env (this w) o) target = false).
    { apply String.eqb_neq. congruence. }
    rewrite Hd. simpl. eexists _, _. split; [reflexivity|now right].
  - intros f c Hnone Hint Hf Hc Heq chainId.
    rewrite (sendTransaction_after_sender_check tx context o w f c) by assumption.
    cbv zeta. rewrite Hnone. fold chainId.
    unfold mbind at 1. unfold M_bind at 1. rewrite tell_run, logged_logged.
    reflexivity.
Qed.

(** *** Approval of [eth_requestAccounts] *)

Lemma storeSaves_with_record (t : Wallet) (r0 : option WalletRecord) (r : WalletRecord) :
  storeSaves (with_record r0 t) r = storeSaves t r.
Proof. reflexivity. Qed.

Lemma acceptOrigin_run (o a : string) (w : World) (r : WalletRecord) :
  record (this w) = Some r ->
  let r2 := Model_addPermission env r a o in
  acceptOrigin env o a w
  = (Ok tt,
     logged (storeSaves (this w) r2 ++ [Emit_permissionsUpdated])
            (withThis (with_record (Some r2) (this w)) w)).
Proof.
  intros Hr r2. unfold acceptOrigin.
  rewrite (bind_ok _ _ w w r) by (now rewrite ensureRecord_run, Hr).
  fold r2. unfold mbind at 1. unfold M_bind, modifyThis.
  unfold mbind at 1. unfold M_bind. rewrite updateWalletStore_detached.
  rewrite tell_run, logged_logged. reflexivity.
Qed.

Lemma setCurrentAddress_run (a : string) (w : World) (r r1 : WalletRecord) :
  record (this w) = Some r ->
  Model_setCurrentAddress env r a = Ok r1 ->
  setCurrentAddress INTERNAL_ORIGIN env a (Some INTERNAL_SYMBOL_CONTEXT) w
  = (Ok tt,
     logged (storeSaves (this w) r1
               ++ [Emit_currentAddressChange
                     (truthyAddresses (currentAddress (walletManager r1)))])
            (withThis (with_record (Some r1) (this w)) w)).
Proof.
  intros Hr Hset. unfold setCurrentAddress.
  rewrite (bind_ok _ _ w w tt).
  2:{ rewrite verifyInternalOrigin_run. reflexivity. }
  rewrite (bind_ok _ _ w w r) by (now rewrite ensureRecord_run, Hr).
  rewrite (bind_ok _ _ w w r1) by (unfold liftR; now rewrite Hset).
  unfold mbind at 1. unfold M_bind, modifyThis.
  unfold mbind at 1. unfold M_bind. rewrite updateWalletStore_detached.
  rewrite tell_run, logged_logged. reflexivity.
Qed.

Lemma setCurrentAddress_throws (a : string) (w : World) (r : WalletRecord) (e : Error) :
  record (this w) = Some r ->
  Model_setCurrentAddress env r a = Throw e ->
  setCurrentAddress INTERNAL_ORIGIN env a (Some INTERNAL_SYMBOL_CONTEXT) w
  = (Throw e, w).
Proof.
  intros Hr Hset. unfold setCurrentAddress.
  rewrite (bind_ok _ _ w w tt).
  2:{ rewrite verifyInternalOrigin_run. reflexivity. }
  rewrite (bind_ok _ _ w w r) by (now rewrite ensureRecord_run, Hr).
  apply bind_throw. unfold liftR. now rewrite Hset.
Qed.

Lemma readCurrentAddress_with_record (t : Wallet) (r : WalletRecord) (a : string) :
  a <> "" -> currentAddress (walletManager r) = Some a ->
  readCurrentAddress (with_record (Some r) t) = Some a.
Proof.
  intros Ha Hc. unfold readCurrentAddress. simpl. rewrite Hc.
  now apply orNull_present.
Qed.

(** C10. The [onResolve] callback of [eth_requestAccounts], called with an
    approved (non-empty) address while a current address is set, for a
    record model whose [addPermission] edits the permission map only. If
    the approved address differs, up to case, from the current address,
    [setCurrentAddress] runs first: the record becomes the one the model's
    [setCurrentAddress] returns, whose current address is the approved one,
    and [currentAddressChange] is emitted; only then does [acceptOrigin]
    record the permission in that record, so the current address is the
    approved one before and after the permission is recorded (and if the
    model refuses the address, the callback throws with nothing recorded).
    If the two addresses are equal up to case, only [acceptOrigin] runs and
    the current address stays what it was. *)
Theorem eth_requestAccounts_onResolve_current_address
    (context : option Context) (o a : string) (w : World) (c : string)
    (r : WalletRecord) :
  a <> "" ->
  record (this w) = Some r ->
  readCurrentAddress (this w) = Some c ->
  (forall r0 a0 o0, walletManager (Model_addPermission env r0 a0 o0) = walletManager r0) ->
  (Js.toLowerCase a <> Js.toLowerCase c ->
   (forall r1,
       Model_setCurrentAddress env r a = Ok r1 ->
       currentAddress (walletManager r1) = Some a ->
       let r2 := Model_addPermission env r1 a o in
       let w1 := logged (storeSaves (this w) r1 ++ [Emit_currentAddressChange [a]])
                        (withThis (with_record (Some r1) (this w)) w) in
       let w2 := logged (storeSaves (this w) r2 ++ [Emit_permissionsUpdated])
                        (withThis (with_record (Some r2) (this w)) w1) in
       setCurrentAddress INTERNAL_ORIGIN env a (Some INTERNAL_SYMBOL_CONTEXT) w
       = (Ok tt, w1)
       /\ acceptOrigin env o a w1 = (Ok tt, w2)
       /\ eth_requestAccounts_onResolve INTERNAL_ORIGIN env context o a w
          = (eth_accounts INTERNAL_ORIGIN (this w2) context, w2)
       /\ readCurrentAddress (this w1) = Some a
       /\ readCurrentAddress (this w2) = Some a)
   /\ (forall e,
         Model_setCurrentAddress env r a = Throw e ->
         eth_requestAccounts_onResolve INTERNAL_ORIGIN env context o a w
         = (Throw e, w)))
  /\ (Js.toLowerCase a = Js.toLowerCase c ->
      let r2 := Model_addPermission env r a o in
      let w2 := logged (storeSaves (this w) r2 ++ [Emit_permissionsUpdated])
                       (withThis (with_record (Some r2) (this w)) w) in
      eth_requestAccounts_onResolve INTERNAL_ORIGIN env context o a w
      = (eth_accounts INTERNAL_ORIGIN (this w2) context, w2)
      /\ readCurrentAddress (this w2) = Some c).
Proof.
  intros Ha Hr Hc Hadd.
  assert (Htr : Js.truthy a = true) by now apply truthy_true.
  split.
  - intros Hdiff. apply String.eqb_neq in Hdiff. split.
    + intros r1 Hmodel Hcur r2 w1 w2.
      assert (Hset : setCurrentAddress INTERNAL_ORIGIN env a
                       (Some INTERNAL_SYMBOL_CONTEXT) w = (Ok tt, w1)).
      { rewrite (setCurrentAddress_run a w r r1 Hr Hmodel).
        unfold truthyAddresses. rewrite Hcur, (orNull_present a Ha). reflexivity. }
      assert (Hacc : acceptOrigin env o a w1 = (Ok tt, w2)).
      { unfold w2. rewrite <- (storeSaves_with_record (this w) (Some r1) r2).
        now apply (acceptOrigin_run o a w1 r1). }
      split; [exact Hset|]. split; [exact Hacc|]. split; [|split].
      * unfold eth_requestAccounts_onResolve. rewrite Htr. cbn [negb].
        rewrite (bind_ok _ _ w w c) by (now rewrite ensureCurrentAddress_run, Hc).
        unfold normalizeAddress. rewrite Hdiff. cbn [negb].
        unfold mbind at 1. unfold M_bind at 1. rewrite Hset.
        unfold mbind at 1. unfold M_bind at 1. unfold detached. rewrite Hacc.
        reflexivity.
      * now apply readCurrentAddress_with_record.
      * apply readCurrentAddress_with_record; [exact Ha|].
        unfold r2. now rewrite Hadd.
    + intros e Hmodel.
      unfold eth_requestAccounts_onResolve. rewrite Htr. cbn [negb].
      rewrite (bind_ok _ _ w w c) by (now rewrite ensureCurrentAddress_run, Hc).
      unfold normalizeAddress. rewrite Hdiff. cbn [negb].
      apply bind_throw. now apply (setCurrentAddress_throws a w r).
  - intros Heq r2 w2. split.
    + unfold eth_requestAccounts_onResolve. rewrite Htr. cbn [negb].
      rewrite (bind_ok _ _ w w c) by (now rewrite ensureCurrentAddress_run, Hc).
      unfold normalizeAddress. rewrite Heq, String.eqb_refl. cbn [negb].
      unfold mbind at 1. unfold M_bind at 1. unfold mret at 1. unfold M_ret at 1.
      unfold mbind at 1. unfold M_bind at 1. unfold detached.
      rewrite (acceptOrigin_run o a w r Hr). reflexivity.
    + destruct (readCurrentAddress_record _ _ Hc) as (r' & Hr' & Hor).
      assert (r' = r) as -> by congruence.
      unfold readCurrentAddress. simpl. unfold r2. now rewrite Hadd.
Qed.

End ControllerFacts.

(** *** The theorems at sample inputs *)

Lemma allowedOrigin_internal_or_listed_witness :
  allowedOrigin SAMPLE_INTERNAL_ORIGIN empty_wallet internalContext address_unknown
  = Ok true
  /\ (exists o r p,
        originOf dappContext = Some (OriginString o)
        /\ record sample_wallet = Some r
        /\ permissions r !! o = Some p
        /\ In (address wallet_A) (addresses p))
  /\ allowedOrigin SAMPLE_INTERNAL_ORIGIN sample_wallet dappContext (address wallet_A)
     = Ok true
  /\ allowedOrigin SAMPLE_INTERNAL_ORIGIN sample_wallet dappContext address_B
     = Ok false
  /\ allowedOrigin SAMPLE_INTERNAL_ORIGIN sample_wallet newDappContext
       (address wallet_A) = Ok false
  /\ allowedOrigin SAMPLE_INTERNAL_ORIGIN empty_wallet dappContext (address wallet_A)
     = Ok false
  /\ allowedOrigin SAMPLE_INTERNAL_ORIGIN sample_wallet inheritedKeyContext
       (address wallet_A) = Throw (JsError INCLUDES_OF_UNDEFINED).
Proof.
  split; [|split; [|split; [|split; [|split; [|split]]]]].
  - destruct (allowedOrigin_internal_or_listed SAMPLE_INTERNAL_ORIGIN empty_wallet
                address_unknown) as [H _].
    + discriminate.
    + apply H. reflexivity.
  - destruct (allowedOrigin_internal_or_listed SAMPLE_INTERNAL_ORIGIN sample_wallet
                (address wallet_A)) as [_ [H _]].
    + discriminate.
    + apply (H dappContext); [discriminate | vm_compute; reflexivity].
  - destruct (allowedOrigin_internal_or_listed SAMPLE_INTERNAL_ORIGIN sample_wallet
                (address wallet_A)) as [_ [_ H]].
    + discriminate.
    + destruct (H dappContext dapp) as (_ & Hyes & _);
        [reflexivity | discriminate | discriminate |].
      apply (Hyes sample_record dapp_permission);
        [reflexivity | reflexivity | now left].
  - destruct (allowedOrigin_internal_or_listed SAMPLE_INTERNAL_ORIGIN sample_wallet
                address_B) as [_ [_ H]].
    + discriminate.
    + destruct (H dappContext dapp) as (_ & _ & Hno & _);
        [reflexivity | discriminate | discriminate |].
      apply (Hno sample_record dapp_permission); [reflexivity | reflexivity |].
      intros [Heq|[]]. discriminate.
  - destruct (allowedOrigin_internal_or_listed SAMPLE_INTERNAL_ORIGIN sample_wallet
                (address wallet_A)) as [_ [_ H]].
    + discriminate.
    + destruct (H newDappContext newDapp) as (_ & _ & _ & Hnone & _);
        [reflexivity | discriminate | discriminate |].
      apply (Hnone sample_record); [reflexivity | reflexivity |].
      apply includes_false. reflexivity.
  - destruct (allowedOrigin_internal_or_listed SAMPLE_INTERNAL_ORIGIN empty_wallet
                (address wallet_A)) as [_ [_ H]].
    + discriminate.
    + destruct (H dappContext dapp) as (Hempty & _);
        [reflexivity | discriminate | discriminate |].
      apply Hempty. reflexivity.
  - destruct (allowedOrigin_internal_or_listed SAMPLE_INTERNAL_ORIGIN sample_wallet
                (address wallet_A)) as [_ [_ H]].
    + discriminate.
    + destruct (H inheritedKeyContext "constructor") as (_ & _ & _ & _ & Hthrow);
        [reflexivity | discriminate | discriminate |].
      apply (Hthrow sample_record); [reflexivity | reflexivity |].
      now left.
Defined.



Lemma sendTransaction_rejects_foreign_from_witness :
  exists e,
    sendTransaction SAMPLE_INTERNAL_ORIGIN sample_env foreign_tx internalContext dapp
      sample_world
    = (Throw e, sample_world).
Proof.
  apply (sendTransaction_rejects_foreign_from SAMPLE_INTERNAL_ORIGIN sample_env).
  right. exists address_B. split; [reflexivity|].
  intros c Hc. vm_compute in Hc. injection Hc as <-. vm_compute. discriminate.
Defined.

(** C2, as stated, fails: after an explicit clear, with the storage key
    held, a [getPrivateKey] call from the internal origin on a wallet with
    no record loaded throws [RecordNotFound]; and two minutes after
    [updateCredentials] a [getRecoveryPhrase] call from a web origin throws
    [OriginNotAllowed]. Neither is [SessionExpired]. *)
Lemma reveal_guards_come_before_session_check :
  encryptionKey (this cleared_world) = Some "storage-key"
  /\ seedPhraseEncryptionKey (this cleared_world) = None
  /\ fst (getPrivateKey SAMPLE_INTERNAL_ORIGIN sample_env address_A_lower
            internalContext cleared_world) = Throw RecordNotFound
  /\ fst (getPrivateKey SAMPLE_INTERNAL_ORIGIN sample_env address_A_lower
            internalContext cleared_world) <> Throw SessionExpired
  /\ seedPhraseEncryptionKey (this expired_world) = None
  /\ fst (getRecoveryPhrase SAMPLE_INTERNAL_ORIGIN sample_env "group-1"
            dappContext expired_world) = Throw OriginNotAllowed
  /\ fst (getRecoveryPhrase SAMPLE_INTERNAL_ORIGIN sample_env "group-1"
            dappContext expired_world) <> Throw SessionExpired.
Proof.
  repeat split; try (vm_compute; reflexivity); vm_compute; discriminate.
Qed.

Lemma reveal_fails_after_session_end_witness :
  encryptionKey (this expired_world) = Some "storage-key"
  /\ getPrivateKey SAMPLE_INTERNAL_ORIGIN sample_env address_A_lower internalContext
       expired_world
     = (Throw SessionExpired, expired_world)
  /\ getRecoveryPhrase SAMPLE_INTERNAL_ORIGIN sample_env "group-1" dappContext
       expired_world
     = (Throw OriginNotAllowed, expired_world)
  /\ (let w := run SAMPLE_INTERNAL_ORIGIN blank_store_env sample_uses
                 (snd (updateCredentials blank_store_env "wallet-1" "storage-key"
                         sample_session_key sample_world)) in
      getPrivateKey SAMPLE_INTERNAL_ORIGIN blank_store_env address_A_lower
        internalContext w
      = (Throw RecordNotFound, w)).
Proof.
  destruct (reveal_fails_after_session_end SAMPLE_INTERNAL_ORIGIN sample_env
              "wallet-1" "storage-key" sample_session_key sample_world sample_uses)
    as (Hkey & _ & Hexpired & _).
  - repeat constructor; vm_compute; discriminate.
  - split; [exact Hkey|].
    destruct Hexpired as [_ [Hpk Hrp]]; [vm_compute; discriminate|].
    split; [|split].
    + destruct (Hpk address_A_lower internalContext) as (e & Hrun & _ & _ & He).
      fold expired_world in Hrun, He.
      rewrite Hrun. rewrite He; [reflexivity | reflexivity | vm_compute; discriminate].
    + destruct (Hrp "group-1" dappContext) as (e & Hrun & He & _).
      fold expired_world in Hrun.
      rewrite Hrun. rewrite He; [reflexivity | reflexivity].
    + destruct (reveal_fails_after_session_end SAMPLE_INTERNAL_ORIGIN blank_store_env
                  "wallet-1" "storage-key" sample_session_key sample_world sample_uses)
        as (_ & _ & Hblank & _).
      * repeat constructor; vm_compute; discriminate.
      * destruct Hblank as [_ [Hpk' _]]; [vm_compute; discriminate|].
        destruct (Hpk' address_A_lower internalContext) as (e & Hrun & _ & He & _).
        cbv zeta. rewrite Hrun.
        rewrite He; [reflexivity | reflexivity | vm_compute; reflexivity].
Defined.

(** C4, as stated, fails: a transaction with no [chainId] and no [from],
    sent from the internal origin, is refused for its missing sender; the
    trace is untouched, so no warning was logged and nothing went on. *)
Lemma sendTransaction_without_sender_does_not_proceed :
  getTransactionChainId sample_env bare_tx = None
  /\ isInternal SAMPLE_INTERNAL_ORIGIN internalContext = true
  /\ sendTransaction SAMPLE_INTERNAL_ORIGIN sample_env bare_tx internalContext dapp
       sample_world
     = (Throw (JsError MISSING_FROM), sample_world).
Proof. repeat split. Qed.

Lemma sendTransaction_chain_check_witness :
  (exists e w',
      sendTransaction SAMPLE_INTERNAL_ORIGIN sample_env mainnet_tx internalContext
        dapp sample_world = (Throw e, w')
      /\ (w' = sample_world \/ w' = logged [NetworksStoreLoad] sample_world))
  /\ sendTransaction SAMPLE_INTERNAL_ORIGIN sample_env sample_tx internalContext dapp
       sample_world
     = sendTransaction_dispatch sample_env "0x89" (with_chainId "0x89" sample_tx)
         (logged [NetworksStoreLoad;
                  ConsoleWarn "chainId field is missing from transaction object"]
                 sample_world).
Proof.
  split.
  - destruct (sendTransaction_chain_check SAMPLE_INTERNAL_ORIGIN sample_env
                mainnet_tx internalContext dapp sample_world) as [H _].
    apply (H "0x1"); [reflexivity | discriminate | vm_compute; discriminate].
  - destruct (sendTransaction_chain_check SAMPLE_INTERNAL_ORIGIN sample_env
                sample_tx internalContext dapp sample_world) as [_ H].
    apply (H address_A_lower (address wallet_A));
      [reflexivity | reflexivity | reflexivity | vm_compute; reflexivity
       | vm_compute; reflexivity].
Defined.

Lemma wallet_switchEthereumChain_same_or_switch_witness :
  wallet_switchEthereumChain SAMPLE_INTERNAL_ORIGIN sample_env (ChainIdNumber 137)
    dappContext sample_world
  = (Ok tt, logged [NetworksStoreLoad] sample_world)
  /\ exists w',
       wallet_switchEthereumChain SAMPLE_INTERNAL_ORIGIN sample_env (ChainIdNumber 1)
         dappContext sample_world = (Ok tt, w')
       /\ record (this w') = Some (Spec_setChainForOrigin sample_record "ethereum" dapp)
       /\ resolvedChainId sample_env (this w') dapp = "0x1".
Proof.
  split.
  - destruct (wallet_switchEthereumChain_same_or_switch SAMPLE_INTERNAL_ORIGIN
                sample_env (ChainIdNumber 137) dappContext sample_world
                (address wallet_A) "0x89") as [H _];
      [vm_compute; reflexivity | vm_compute; reflexivity | reflexivity |].
    apply H. vm_compute. reflexivity.
  - destruct (wallet_switchEthereumChain_same_or_switch SAMPLE_INTERNAL_ORIGIN
                sample_env (ChainIdNumber 1) dappContext sample_world
                (address wallet_A) "0x1") as [_ H];
      [vm_compute; reflexivity | vm_compute; reflexivity | reflexivity |].
    destruct H as (r & Hr & Hrun); [vm_compute; discriminate|].
    injection Hr as <-.
    eexists. split; [exact Hrun|]. split; [reflexivity|].
    unfold resolvedChainId. cbn [this logged withThis with_record record].
    cbn [sample_env Model_getChainForOrigin Model_setChainForOrigin
         networks_getChainId networks_getChainById].
    cbn [originString originOf dappContext origin].
    rewrite Spec_setChainForOrigin_get. reflexivity.
Defined.

Lemma eth_requestAccounts_onResolve_current_address_witness :
  (exists w2,
      eth_requestAccounts_onResolve SAMPLE_INTERNAL_ORIGIN sample_env dappContext dapp
        address_B sample_world
      = (eth_accounts SAMPLE_INTERNAL_ORIGIN (this w2) dappContext, w2)
      /\ readCurrentAddress (this w2) = Some address_B)
  /\ (exists w2,
        eth_requestAccounts_onResolve SAMPLE_INTERNAL_ORIGIN sample_env dappContext
          dapp address_A_upper sample_world
        = (eth_accounts SAMPLE_INTERNAL_ORIGIN (this w2) dappContext, w2)
        /\ readCurrentAddress (this w2) = Some (address wallet_A)).
Proof.
  split.
  - destruct (eth_requestAccounts_onResolve_current_address SAMPLE_INTERNAL_ORIGIN
                sample_env dappContext dapp address_B sample_world (address wallet_A)
                sample_record) as [H _];
      [discriminate | reflexivity | vm_compute; reflexivity
       | exact Spec_addPermission_walletManager |].
    destruct H as [H _]; [vm_compute; discriminate|].
    destruct (H (with_currentAddress (Some address_B) sample_record))
      as (_ & _ & Hrun & _ & Hcur);
      [vm_compute; reflexivity | reflexivity |].
    eexists. split; [exact Hrun | exact Hcur].
  - destruct (eth_requestAccounts_onResolve_current_address SAMPLE_INTERNAL_ORIGIN
                sample_env dappContext dapp address_A_upper sample_world
                (address wallet_A) sample_record) as [_ H];
      [discriminate | reflexivity | vm_compute; reflexivity
       | exact Spec_addPermission_walletManager |].
    destruct H as (Hrun & Hcur); [vm_compute; reflexivity|].
    eexists. split; [exact Hrun | exact Hcur].
Defined.

(** *** Runs of the model on the sample data *)

Example toLowerCase_address : Js.toLowerCase address_A_upper = address_A_lower.
Proof. reflexivity. Qed.

Example PrivateKeyWalletContainer_one_key :
  PrivateKeyWalletContainer sample_ethers_Wallet sample_ethers_fromMnemonic
    sample_ethers_createRandom (Some ["abc"])
  = Ok {| seedType := SeedType_privateKey;
          wallets := [ {| mnemonic := None; privateKey := "abc";
                          address := "0xabc"; name := None |} ] |}.
Proof. reflexivity. Qed.

Example PrivateKeyWalletContainer_two_keys :
  PrivateKeyWalletContainer sample_ethers_Wallet sample_ethers_fromMnemonic
    sample_ethers_createRandom (Some ["abc"; "def"])
  = Throw (JsError
      "Wallets array is expected to have exactly one element, instead got: 2").
Proof. reflexivity. Qed.

Example MnemonicWalletContainer_without_mnemonic :
  MnemonicWalletContainer sample_ethers_Wallet sample_ethers_fromMnemonic
    sample_ethers_createRandom
    (Some [ {| p_address := None; p_privateKey := Some "abc";
               p_mnemonic := None; p_name := None |} ])
  = Throw (JsError "Mnemonic container is expected to have a wallet with a mnemonic").
Proof. reflexivity. Qed.

(** A transaction without [chainId], sent for [dapp] from the internal
    origin, goes through every step. *)
Example sendTransaction_sample_run :
  let '(result, w) :=
    sendTransaction SAMPLE_INTERNAL_ORIGIN sample_env sample_tx internalContext dapp
      sample_world in
  result = Ok {| response_hash := "0xhash"; response_raw := None |}
  /\ map (fun e => match e with
                   | NetworksStoreLoad => "networks"
                   | ConsoleWarn _ => "warn"
                   | FetchAndAssignGasPrice _ => "gas"
                   | SignerSendTransaction _ _ => "send"
                   | Emit_pendingTransactionCreated _ => "pending"
                   | _ => "other"
                   end) (trace w)
     = ["networks"; "warn"; "gas"; "networks"; "send"; "pending"].
Proof. vm_compute. split; reflexivity. Qed.

(** A web origin without permission: [eth_accounts] is empty,
    [eth_requestAccounts] opens the confirmation window, and after the
    approval of the current address [eth_accounts] returns it. *)
Example eth_requestAccounts_sample_run :
  eth_accounts SAMPLE_INTERNAL_ORIGIN sample_wallet newDappContext = Ok []
  /\ eth_requestAccounts SAMPLE_INTERNAL_ORIGIN newDappContext sample_world
     = (Ok AwaitingConfirmation,
        logged [NotificationWindowOpen "/requestAccounts"
                  "?origin=https://app.example.org"] sample_world)
  /\ fst (eth_requestAccounts_onResolve SAMPLE_INTERNAL_ORIGIN sample_env
            newDappContext newDapp (address wallet_A) sample_world)
     = Ok [address wallet_A].
Proof. vm_compute. repeat split. Qed.

(** The symbol context, which only the controller itself builds, passes
    [verifyInternalOrigin] and is not a key of the permission map. *)
Example internal_symbol_context :
  isInternal SAMPLE_INTERNAL_ORIGIN (Some INTERNAL_SYMBOL_CONTEXT) = true
  /\ allowedOrigin SAMPLE_INTERNAL_ORIGIN sample_wallet (Some INTERNAL_SYMBOL_CONTEXT)
       (address wallet_A) = Ok false.
Proof. split; reflexivity. Qed.

(* ===================================================================== *)
(** ** Further properties of the containers                                *)
(* ===================================================================== *)

Lemma mapR_length {A B : Type} (f : A -> Result B) (l : list A) (l' : list B) :
  mapR f l = Ok l' -> length l' = length l.
Proof.
  revert l'. induction l as [|x l IH]; simpl; intros l' H.
  - now injection H as <-.
  - destruct (f x) as [y|e]; simpl in H; [|discriminate].
    destruct (mapR f l) as [ys|e]; simpl in H; [|discriminate].
    injection H as <-. simpl. now rewrite (IH ys eq_refl).
Qed.

Lemma mapR_Forall2 {A B : Type} (f : A -> Result B) (l : list A) (l' : list B) :
  mapR f l = Ok l' -> Forall2 (fun x y => f x = Ok y) l l'.
Proof.
  revert l'. induction l as [|x l IH]; simpl; intros l' H.
  - injection H as <-. constructor.
  - destruct (f x) as [y|e] eqn:Hx; simpl in H; [|discriminate].
    destruct (mapR f l) as [ys|e]; simpl in H; [|discriminate].
    injection H as <-. constructor; [exact Hx|now apply IH].
Qed.

Lemma find_app_first {A : Type} (p : A -> bool) (l1 l2 : list A) :
  find p (l1 ++ l2) = match find p l1 with
                      | Some x => Some x
                      | None => find p l2
                      end.
Proof.
  induction l1 as [|x l1 IH]; simpl; [reflexivity|].
  destruct (p x); [reflexivity|exact IH].
Qed.

Lemma find_none_iff {A : Type} (p : A -> bool) (l : list A) :
  find p l = None <-> forall x, In x l -> p x = false.
Proof.
  split.
  - intros H x Hx. now apply (find_none p l H).
  - induction l as [|x l IH]; simpl; intros H; [reflexivity|].
    rewrite (H x (or_introl eq_refl)). apply IH. intros y Hy. apply H. now right.
Qed.

Lemma findIndex_app_last {A : Type} (p : A -> bool) (l : list A) (x : A) :
  (forall y, In y l -> p y = false) -> p x = true ->
  Js.findIndex p (l ++ [x]) = Some (length l).
Proof.
  induction l as [|y l IH]; simpl; intros Hl Hx.
  - now rewrite Hx.
  - rewrite (Hl y (or_introl eq_refl)).
    rewrite IH; [reflexivity| |exact Hx]. intros z Hz. apply Hl. now right.
Qed.

Lemma splice1_app_last {A : Type} (l : list A) (x : A) :
  Js.splice1 (length l) (l ++ [x]) = l.
Proof.
  unfold Js.splice1.
  rewrite take_app_length. rewrite drop_ge; [now rewrite app_nil_r|].
  rewrite length_app. simpl. lia.
Qed.

Section MoreContainerFacts.

Variable ethers_Wallet : string -> Result EthersWallet.
Variable ethers_fromMnemonic : string -> string -> Result EthersWallet.
Variable ethers_createRandom : EthersWallet.

Abbreviation restore' :=
  (restoreBareWallet ethers_Wallet ethers_fromMnemonic ethers_createRandom).

(** X1. What [restoreBareWallet] returns is a fixed point of it: restoring
    a restored wallet (one with an address and a private key) returns the
    same wallet, name and mnemonic included, and never calls ethers. *)
Theorem restoreBareWallet_idempotent (p : PartialBareWallet) (w : BareWallet) :
  restore' p = Ok w ->
  address w <> "" -> privateKey w <> "" ->
  restore' (bareAsPartial w) = Ok w.
Proof.
  intros Hr Ha Hk.
  rewrite (restoreBareWallet_of_bare ethers_Wallet ethers_fromMnemonic
             ethers_createRandom w Ha Hk).
  pose proof (restoreBareWallet_name ethers_Wallet ethers_fromMnemonic
                ethers_createRandom p w Hr) as Hn.
  destruct w as [m k a n]. simpl in *. f_equal. f_equal.
  destruct n as [n|]; [|reflexivity].
  apply orNull_present. intros ->. now apply Hn.
Qed.

(** The callback of the [map] in the [MnemonicWalletContainer]
    constructor. *)
Lemma mnemonic_entry (p : PartialBareWallet) (w : BareWallet) :
  match p_mnemonic p with
  | None =>
      Throw (JsError "Mnemonic container is expected to have a wallet with a mnemonic")
  | Some _ => restore' p
  end = Ok w ->
  p_mnemonic p <> None /\ restore' p = Ok w.
Proof. destruct (p_mnemonic p); [intros H; split; [discriminate|exact H]|discriminate]. Qed.

(** X2. The [MnemonicWalletContainer] constructor never builds an empty
    container: without input (or with the empty array) it holds exactly the
    freshly generated wallet; with input, a successful construction holds
    one wallet per input descriptor, and every descriptor carried a
    mnemonic. *)
Theorem MnemonicWalletContainer_never_empty
    (input : option (list PartialBareWallet)) (c : WalletContainer) :
  MnemonicWalletContainer ethers_Wallet ethers_fromMnemonic ethers_createRandom input
  = Ok c ->
  seedType c = SeedType_mnemonic
  /\ wallets c <> []
  /\ match input with
     | None | Some [] => wallets c = [fromEthersWallet ethers_createRandom]
     | Some ws =>
         length (wallets c) = length ws
         /\ Forall (fun p => p_mnemonic p <> None) ws
     end.
Proof.
  destruct input as [[|p ws]|]; simpl.
  - intros [= <-]. repeat split; discriminate.
  - destruct (p_mnemonic p) eqn:Hp; simpl; [|discriminate].
    destruct (restore' p) as [w|e]; simpl; [|discriminate].
    destruct (mapR _ ws) as [ws'|e] eqn:Hmap; simpl; [|discriminate].
    intros [= <-]. simpl. split; [reflexivity|]. split; [discriminate|].
    split.
    + now rewrite (mapR_length _ _ _ Hmap).
    + constructor; [congruence|].
      apply mapR_Forall2 in Hmap. clear Hp.
      induction Hmap as [|q y qs ys Hq _ IH]; constructor; [|exact IH].
      now destruct (mnemonic_entry q y Hq).
  - intros [= <-]. repeat split; discriminate.
Qed.

Lemma mnemonic_entries_of_bare (ws : list BareWallet) :
  Forall (fun w => mnemonic w <> None /\ address w <> "" /\ privateKey w <> ""
                   /\ name w <> Some "") ws ->
  mapR (fun wallet =>
          match p_mnemonic wallet with
          | None =>
              Throw (JsError
                "Mnemonic container is expected to have a wallet with a mnemonic")
          | Some _ => restore' wallet
          end)
       (map bareAsPartial (map (fun w => walletToObject (IsBareWallet w)) ws))
  = Ok ws.
Proof.
  induction 1 as [|w ws (Hm & Ha & Hk & Hn) _ IH]; [reflexivity|].
  cbn [map mapR]. rewrite walletToObject_bare.
  replace (p_mnemonic (bareAsPartial w)) with (mnemonic w) by reflexivity.
  destruct (mnemonic w) eqn:Hmw; [|now destruct Hm].
  rewrite (restoreBareWallet_of_bare ethers_Wallet ethers_fromMnemonic
             ethers_createRandom w Ha Hk).
  cbn [bindR]. rewrite IH. cbn [bindR]. f_equal. f_equal.
  destruct w as [wm wk wa wn]. simpl in *. f_equal.
  destruct wn as [n|]; [|reflexivity].
  apply orNull_present. intros ->. now apply Hn.
Qed.

(** X3. Handing the wallets of [toPlainObject] back to the
    [MnemonicWalletContainer] constructor gives back the very same
    container, provided it is a mnemonic container with at least one
    wallet and its wallets are in restored form (mnemonic present, address
    and key non-empty, name null or non-empty). An emptied container does
    not come back: the constructor generates a fresh random wallet
    instead. *)
Theorem MnemonicWalletContainer_restores_plain_object (c : WalletContainer) :
  seedType c = SeedType_mnemonic ->
  Forall (fun w => mnemonic w <> None /\ address w <> "" /\ privateKey w <> ""
                   /\ name w <> Some "") (wallets c) ->
  MnemonicWalletContainer ethers_Wallet ethers_fromMnemonic ethers_createRandom
    (Some (map bareAsPartial (plain_wallets (toPlainObject c))))
  = Ok (match wallets c with
        | [] => {| seedType := SeedType_mnemonic;
                   wallets := [fromEthersWallet ethers_createRandom] |}
        | _ => c
        end).
Proof.
  destruct c as [st ws]. cbn [seedType wallets]. intros -> Hall.
  destruct ws as [|w ws]; [reflexivity|].
  pose proof (mnemonic_entries_of_bare (w :: ws) Hall) as Hmap.
  unfold MnemonicWalletContainer, toPlainObject.
  cbn [plain_wallets wallets map] in *. rewrite Hmap. reflexivity.
Qed.

Lemma restoreBareWallet_of_ethers_name (e : EthersWallet) (w : BareWallet) :
  restore' (ethersAsPartial e) = Ok w -> name w = None.
Proof.
  unfold restoreBareWallet, ethersAsPartial. simpl.
  destruct (Js.truthy (e_address e) && Js.truthy (e_privateKey e)).
  - now intros [= <-].
  - destruct (Js.truthy (e_privateKey e)).
    + destruct (ethers_Wallet (e_privateKey e)); simpl; [|discriminate].
      now intros [= <-].
    + destruct (e_mnemonic e) as [m|].
      * destruct (ethers_fromMnemonic (phrase m) (path m)); simpl; [|discriminate].
        now intros [= <-].
      * now intros [= <-].
Qed.

(** X4. A successfully constructed [PrivateKeyWalletContainer] came from an
    array of at most one descriptor, all with a non-empty key; it holds
    one wallet per descriptor, every wallet without a name (even when the
    descriptor came from a named wallet); [getMnemonic] on it is [null] and
    every [addWallet] on it throws. *)
Theorem PrivateKeyWalletContainer_shape
    (input : option (list string)) (c : WalletContainer) :
  PrivateKeyWalletContainer ethers_Wallet ethers_fromMnemonic ethers_createRandom input
  = Ok c ->
  seedType c = SeedType_privateKey
  /\ (exists ws, input = Some ws /\ length (wallets c) = length ws
                 /\ (length ws <= 1)%nat /\ Forall (fun pk => pk <> "") ws)
  /\ Forall (fun w => name w = None) (wallets c)
  /\ getMnemonic c = Ok None
  /\ forall w, isThrow (addWallet c w) = true.
Proof.
  destruct input as [ws|]; simpl; [|discriminate].
  destruct (Nat.ltb_spec 1 (length ws)) as [Hlt|Hle]; [discriminate|].
  destruct (mapR _ ws) as [ws'|e] eqn:Hmap; simpl; [|discriminate].
  intros [= <-]. simpl.
  pose proof (mapR_length _ _ _ Hmap) as Hlen.
  apply mapR_Forall2 in Hmap.
  split; [reflexivity|]. split; [|split; [|split; [reflexivity|reflexivity]]].
  - exists ws. repeat split; auto.
    clear Hle Hlen. induction Hmap as [|pk w pks ws'' Hpk _ IH]; constructor; [|exact IH].
    intros ->. discriminate.
  - clear Hle Hlen. induction Hmap as [|pk w pks ws'' Hpk _ IH]; constructor; [|exact IH].
    destruct (Js.truthy pk); [|discriminate].
    destruct (ethers_Wallet pk) as [e|err]; simpl in Hpk; [|discriminate].
    now apply (restoreBareWallet_of_ethers_name e).
Qed.

End MoreContainerFacts.

(** X5. [addWallet] on a mnemonic container appends the wallet without
    looking for its address: if the address was not in the container the
    wallet is found under it afterwards; if some wallet already had the
    address (up to case), that earlier wallet is still the one found; the
    lookups of other addresses are unchanged. *)
Theorem addWallet_then_getWalletByAddress (c : WalletContainer) (w : BareWallet) :
  seedType c = SeedType_mnemonic ->
  exists c',
    addWallet c w = Ok c'
    /\ seedType c' = SeedType_mnemonic
    /\ wallets c' = wallets c ++ [w]
    /\ (getWalletByAddress c (address w) = None ->
        getWalletByAddress c' (address w) = Some w)
    /\ (forall x, getWalletByAddress c (address w) = Some x ->
                  getWalletByAddress c' (address w) = Some x)
    /\ (forall b, Js.toLowerCase b <> Js.toLowerCase (address w) ->
                  getWalletByAddress c' b = getWalletByAddress c b).
Proof.
  intros Hst. unfold addWallet. rewrite Hst. eexists. split; [reflexivity|].
  split; [reflexivity|]. split; [reflexivity|].
  unfold getWalletByAddress. simpl. split; [|split].
  - intros Hnone. rewrite find_app_first, Hnone. simpl.
    unfold sameAddress. now rewrite String.eqb_refl.
  - intros x Hx. now rewrite find_app_first, Hx.
  - intros b Hb. rewrite find_app_first.
    destruct (find (sameAddress b) (wallets c)); [reflexivity|].
    simpl. unfold sameAddress.
    assert (H : String.eqb (Js.toLowerCase (address w)) (Js.toLowerCase b) = false).
    { apply String.eqb_neq. congruence. }
    now rewrite H.
Qed.

(** X6. [removeWallet] undoes [addWallet]: adding a wallet whose address
    was not in the mnemonic container and then removing that address gives
    back the container as it was. *)
Theorem addWallet_then_removeWallet (c c' : WalletContainer) (w : BareWallet) :
  getWalletByAddress c (address w) = None ->
  addWallet c w = Ok c' ->
  removeWallet c' (address w) = c.
Proof.
  intros Hnone. unfold addWallet.
  destruct (seedType c) eqn:Hst; [discriminate|].
  intros [= <-]. unfold removeWallet. simpl.
  unfold getWalletByAddress in Hnone.
  rewrite findIndex_app_last.
  - rewrite splice1_app_last. destruct c. simpl in *. now rewrite Hst.
  - now apply find_none_iff.
  - unfold sameAddress. apply String.eqb_refl.
Qed.

Lemma NoDup_app_cons_not_in {A : Type} (l1 l2 : list A) (x : A) :
  List.NoDup (l1 ++ x :: l2) -> ~ In x l1 /\ ~ In x l2.
Proof.
  intros H. apply List.NoDup_remove_2 in H.
  split; intros Hin; apply H; apply in_or_app; auto.
Qed.

(** X7. [removeWallet] removes one wallet at most: the length drops by one
    when a wallet matched and stays otherwise; the lookup of any other
    address (different up to case) is unchanged; and when the addresses in
    the container are unique up to case, the removed address is no longer
    found. *)
Theorem removeWallet_then_getWalletByAddress (c : WalletContainer) (a : string) :
  length (wallets (removeWallet c a))
  = (length (wallets c)
     - match getWalletByAddress c a with
       | Some _ => 1
       | None => 0
       end)%nat
  /\ seedType (removeWallet c a) = seedType c
  /\ (forall b, Js.toLowerCase b <> Js.toLowerCase a ->
        getWalletByAddress (removeWallet c a) b = getWalletByAddress c b)
  /\ (List.NoDup (map (fun w => Js.toLowerCase (address w)) (wallets c)) ->
      getWalletByAddress (removeWallet c a) a = None).
Proof.
  unfold removeWallet, getWalletByAddress.
  destruct (Js.findIndex (sameAddress a) (wallets c)) as [pos|] eqn:Hpos.
  - destruct (findIndex_some_split _ _ _ Hpos) as (l1 & x & l2 & Hl & Hx & Hl1 & Hs).
    simpl. rewrite Hs, Hl.
    assert (Hf1 : find (sameAddress a) l1 = None) by now apply find_none_iff.
    split; [|split; [reflexivity|split]].
    + rewrite find_app_first, Hf1. simpl. rewrite Hx.
      rewrite !length_app. simpl. lia.
    + intros b Hb. rewrite !find_app_first.
      destruct (find (sameAddress b) l1); [reflexivity|]. simpl.
      assert (Hbx : sameAddress b x = false).
      { apply sameAddress_false. apply sameAddress_true in Hx. congruence. }
      now rewrite Hbx.
    + intros Hnd. rewrite map_app in Hnd. simpl in Hnd.
      apply NoDup_app_cons_not_in in Hnd. destruct Hnd as [_ Hnot].
      rewrite find_app_first, Hf1. apply find_none_iff.
      intros y Hy. apply sameAddress_false. intros Heq. apply Hnot.
      apply sameAddress_true in Hx. rewrite Hx, <- Heq.
      now apply (in_map (fun w => Js.toLowerCase (address w))).
  - assert (Hnone : find (sameAddress a) (wallets c) = None).
    { destruct (find (sameAddress a) (wallets c)) as [x|] eqn:Hf; [|reflexivity].
      apply find_some in Hf. destruct Hf as [Hin Hx].
      destruct (findIndex_some_of_In _ _ _ Hin Hx) as [pos' Hpos']. congruence. }
    rewrite Hnone. repeat split; auto. lia.
Qed.

(* ===================================================================== *)
(** ** Further properties of the controller                                *)
(* ===================================================================== *)

Lemma discard_throw {A : Type} (m : M A) (w w' : World) (e : Error) :
  m w = (Throw e, w') -> discard m w = (Throw e, w').
Proof. intros H. unfold discard. now apply bind_throw. Qed.

Lemma discard_ok {A : Type} (m : M A) (w w' : World) (a : A) :
  m w = (Ok a, w') -> discard m w = (Ok tt, w').
Proof. intros H. unfold discard. now rewrite (bind_ok _ _ _ _ _ H). Qed.

Lemma savedRecords_app (es1 es2 : list Event) :
  savedRecords (es1 ++ es2) = savedRecords es1 ++ savedRecords es2.
Proof.
  induction es1 as [|e es1 IH]; [reflexivity|].
  destruct e; simpl; rewrite IH; reflexivity.
Qed.

Lemma signerCalls_app (es1 es2 : list Event) :
  signerCalls (es1 ++ es2) = signerCalls es1 ++ signerCalls es2.
Proof.
  induction es1 as [|e es1 IH]; [reflexivity|].
  destruct e; simpl; rewrite IH; reflexivity.
Qed.

Lemma windowsOpened_app (es1 es2 : list Event) :
  windowsOpened (es1 ++ es2) = windowsOpened es1 ++ windowsOpened es2.
Proof.
  induction es1 as [|e es1 IH]; [reflexivity|].
  destruct e; simpl; rewrite IH; reflexivity.
Qed.

Section MoreControllerFacts.

Variable INTERNAL_ORIGIN : string.
Variable env : Collaborators.
Variable more : MoreCollaborators.

Ltac origin_refused Hint :=
  repeat (first [apply discard_throw | apply bind_throw]);
  rewrite verifyInternalOrigin_run, Hint; reflexivity.

(** X8. The internal tier fails closed: called with a context that is
    neither [INTERNAL_ORIGIN] nor the internal symbol (a web origin, an
    empty or a missing context), each of these methods throws
    [OriginNotAllowed] before anything else, and the wallet, the clock and
    the trace are as they were. *)
Theorem internal_methods_fail_closed
    (call : InternalCall) (context : option Context) (w : World) :
  isInternal INTERNAL_ORIGIN context = false ->
  callInternal INTERNAL_ORIGIN env more call context w = (Throw OriginNotAllowed, w).
Proof.
  intros Hint. destruct call; unfold callInternal.
  - unfold getRecoveryPhrase. origin_refused Hint.
  - unfold verifyRecoveryPhrase. origin_refused Hint.
  - unfold getPrivateKey. origin_refused Hint.
  - unfold verifyPrivateKey. origin_refused Hint.
  - unfold uiGetCurrentWallet. origin_refused Hint.
  - unfold uiGetWalletByAddress. origin_refused Hint.
  - unfold removeAllOriginPermissions. origin_refused Hint.
  - unfold removePermission. origin_refused Hint.
  - unfold hasPermission. origin_refused Hint.
  - unfold getOriginPermissions. origin_refused Hint.
  - unfold setCurrentAddress. origin_refused Hint.
  - unfold getCurrentAddress. origin_refused Hint.
  - unfold getNoBackupCount. origin_refused Hint.
  - unfold switchChain. origin_refused Hint.
  - unfold switchChainForOrigin. origin_refused Hint.
  - unfold requestChainForOrigin. origin_refused Hint.
  - unfold sendTransaction. origin_refused Hint.
  - unfold signAndSendTransaction. origin_refused Hint.
Qed.

(** The two checks that open [eth_sendTransaction],
    [eth_signTypedData_v4] and [wallet_switchEthereumChain]. *)
Lemma gate_refuses {A : Type} (k : string -> Wallet -> bool -> M A)
    (context : option Context) (w : World) :
  ~ (exists c, readCurrentAddress (this w) = Some c
               /\ allowedOrigin INTERNAL_ORIGIN (this w) context c = Ok true) ->
  (forall c t, k c t false = throw OriginNotAllowed) ->
  exists e,
    (currentAddress ← ensureCurrentAddress;
     t ← getThis;
     allowed ← liftR (allowedOrigin INTERNAL_ORIGIN t context currentAddress);
     k currentAddress t allowed) w = (Throw e, w).
Proof.
  intros Hnot Hk.
  destruct (readCurrentAddress (this w)) as [c|] eqn:Hc.
  - rewrite (bind_ok _ _ w w c) by (now rewrite ensureCurrentAddress_run, Hc). cbv beta.
    rewrite (bind_ok _ _ w w (this w)) by reflexivity. cbv beta.
    destruct (allowedOrigin INTERNAL_ORIGIN (this w) context c) as [[|]|e] eqn:Ha.
    + destruct Hnot. now exists c.
    + rewrite (bind_ok _ _ w w false) by (unfold liftR; rewrite ?Ha; reflexivity). cbv beta.
      rewrite Hk. now eexists.
    + eexists. apply bind_throw. unfold liftR. rewrite ?Ha. reflexivity.
  - eexists. apply bind_throw. now rewrite ensureCurrentAddress_run, Hc.
Qed.

(** X9. The public signing, sending and switching methods fail closed:
    unless a current address is set and [allowedOrigin] accepts the calling
    context for it, [eth_sendTransaction], [eth_signTypedData_v4],
    [personal_sign] and [wallet_switchEthereumChain] throw and leave the
    world as it was: no confirmation window, no change of the record. *)
Theorem gated_methods_fail_closed
    (call : GatedCall) (context : option ChannelContext) (w : World) :
  ~ permitted INTERNAL_ORIGIN (this w) context ->
  exists e, callGated INTERNAL_ORIGIN env more call context w = (Throw e, w).
Proof.
  intros Hnot. unfold permitted in Hnot.
  destruct call as [params|a d|params|p]; unfold callGated.
  - destruct (gate_refuses
                (fun (_ : string) (_ : Wallet) (allowed : bool) =>
                   if negb allowed then throw OriginNotAllowed
                   else
                     match head params with
                     | None => throw InvalidParams
                     | Some transaction =>
                         tell (NotificationWindowOpen "/sendTransaction"
                                 ("?" +:+ URLSearchParams_toString more
                                    [("origin", originString (asContext context));
                                     ("transaction",
                                      JSON_stringify_transaction more transaction)]));;
                         mret (AwaitingConfirmation (A:=string))
                     end)
                (asContext context) w Hnot) as [e He]; [reflexivity|].
    exists e. apply discard_throw. exact He.
  - destruct (gate_refuses
                (fun (currentAddress : string) (_ : Wallet) (allowed : bool) =>
                   if negb allowed then throw OriginNotAllowed
                   else if negb (String.eqb (normalizeAddress a)
                                            (normalizeAddress currentAddress))
                   then throw (JsError (ADDRESS_MISMATCH currentAddress a))
                   else
                     tell (NotificationWindowOpen "/signMessage"
                             ("?" +:+ URLSearchParams_toString more
                                [("origin", originString (asContext context));
                                 ("typedData",
                                  match d with
                                  | TypedData_string s => s
                                  | TypedData_object h => JSON_stringify_typedData more h
                                  end);
                                 ("method", "eth_signTypedData_v4")]));;
                     mret (AwaitingConfirmation (A:=string)))
                (asContext context) w Hnot) as [e He]; [reflexivity|].
    exists e. apply discard_throw. exact He.
  - unfold personal_sign. destruct params as [|message rest].
    + eexists. apply discard_throw. reflexivity.
    + destruct (readCurrentAddress (this w)) as [c|] eqn:Hc.
      * cbv zeta.
        destruct (Js.truthyOpt (head rest)
                  && negb (String.eqb (normalizeAddress (default "" (head rest)))
                                      (normalizeAddress c))) eqn:Hm.
        -- eexists. apply discard_throw.
           rewrite (bind_ok _ _ w w c) by (now rewrite ensureCurrentAddress_run, Hc). cbv beta.
           rewrite Hm. reflexivity.
        -- destruct (allowedOrigin INTERNAL_ORIGIN (this w) (asContext context) c)
             as [[|]|e] eqn:Ha.
           ++ destruct Hnot. now exists c.
           ++ eexists. apply discard_throw.
              rewrite (bind_ok _ _ w w c) by (now rewrite ensureCurrentAddress_run, Hc). cbv beta.
              rewrite Hm.
              rewrite (bind_ok _ _ w w (this w)) by reflexivity. cbv beta.
              rewrite (bind_ok _ _ w w false) by (unfold liftR; rewrite ?Ha; reflexivity). cbv beta.
              reflexivity.
           ++ eexists. apply discard_throw.
              rewrite (bind_ok _ _ w w c) by (now rewrite ensureCurrentAddress_run, Hc). cbv beta.
              rewrite Hm.
              rewrite (bind_ok _ _ w w (this w)) by reflexivity. cbv beta.
              apply bind_throw. unfold liftR. rewrite ?Ha. reflexivity.
      * eexists. apply discard_throw. apply bind_throw.
        now rewrite ensureCurrentAddress_run, Hc.
  - unfold wallet_switchEthereumChain.
    rewrite (bind_ok _ _ w w (this w)) by reflexivity. cbv beta.
    destruct (readCurrentAddress (this w)) as [c|] eqn:Hc; [|now eexists].
    destruct (allowedOrigin INTERNAL_ORIGIN (this w) (asContext context) c)
      as [[|]|e] eqn:Ha.
    + destruct Hnot. now exists c.
    + eexists. rewrite (bind_ok _ _ w w false) by (unfold liftR; rewrite ?Ha; reflexivity). cbv beta.
      reflexivity.
    + eexists. apply bind_throw. unfold liftR. rewrite ?Ha. reflexivity.
Qed.

(** X10. For a permitted origin, [eth_sendTransaction] opens exactly one
    confirmation window on the route [/sendTransaction], carrying the
    origin and the first transaction of [params], and touches nothing
    else: the permission is checked for the current address and the
    transaction's [from] plays no part; with an empty [params] it throws
    [InvalidParams] instead. *)
Theorem eth_sendTransaction_opens_window
    (params : list IncomingTransaction) (context : option ChannelContext) (w : World) :
  permitted INTERNAL_ORIGIN (this w) context ->
  eth_sendTransaction INTERNAL_ORIGIN more params context w
  = match params with
    | [] => (Throw InvalidParams, w)
    | transaction :: _ =>
        (Ok AwaitingConfirmation,
         logged [NotificationWindowOpen "/sendTransaction"
                   ("?" +:+ URLSearchParams_toString more
                              [("origin", originString (asContext context));
                               ("transaction",
                                JSON_stringify_transaction more transaction)])] w)
    end.
Proof.
  intros (c & Hc & Ha). unfold eth_sendTransaction.
  rewrite (bind_ok _ _ w w c) by (now rewrite ensureCurrentAddress_run, Hc). cbv beta.
  rewrite (bind_ok _ _ w w (this w)) by reflexivity. cbv beta.
  rewrite (bind_ok _ _ w w true) by (unfold liftR; now rewrite Ha). cbv beta.
  cbn [negb]. destruct params as [|tx rest]; reflexivity.
Qed.

(** X11. [personal_sign] compares its address parameter with the current
    address before it looks at the origin: when the parameter is present
    and differs (up to case) from the current address, the call throws the
    mismatch error, whose message spells out the current address, whatever
    the context is, permitted or not. Without that mismatch the origin
    decides: a permitted one gets the [/signMessage] window, any other is
    refused with the world unchanged. *)
Theorem personal_sign_checks_address_first
    (message : string) (rest : list string) (context : option ChannelContext)
    (w : World) (c : string) :
  readCurrentAddress (this w) = Some c ->
  (forall a,
      head rest = Some a -> a <> "" ->
      Js.toLowerCase a <> Js.toLowerCase c ->
      personal_sign INTERNAL_ORIGIN more (message :: rest) context w
      = (Throw (JsError
           ("Address parameter is different from currently selected address. Expected: "
              +:+ c +:+ ", received: " +:+ a)), w))
  /\ ((head rest = None \/ head rest = Some ""
       \/ exists a, head rest = Some a /\ Js.toLowerCase a = Js.toLowerCase c) ->
      personal_sign INTERNAL_ORIGIN more (message :: rest) context w
      = match allowedOrigin INTERNAL_ORIGIN (this w) (asContext context) c with
        | Ok true =>
            (Ok AwaitingConfirmation,
             logged [NotificationWindowOpen "/signMessage"
                       ("?" +:+ URLSearchParams_toString more
                                  [("origin", originString (asContext context));
                                   ("message", message);
                                   ("method", "personal_sign")])] w)
        | Ok false => (Throw OriginNotAllowed, w)
        | Throw e => (Throw e, w)
        end).
Proof.
  intros Hc. split.
  - intros a Ha Hne Hdiff. unfold personal_sign. cbv zeta.
    rewrite (bind_ok _ _ w w c) by (now rewrite ensureCurrentAddress_run, Hc). cbv beta.
    rewrite Ha. simpl. apply truthy_true in Hne. rewrite Hne.
    unfold normalizeAddress. apply String.eqb_neq in Hdiff. rewrite Hdiff.
    reflexivity.
  - intros Hok. unfold personal_sign. cbv zeta.
    rewrite (bind_ok _ _ w w c) by (now rewrite ensureCurrentAddress_run, Hc). cbv beta.
    assert (Hm : Js.truthyOpt (head rest)
                 && negb (String.eqb (normalizeAddress (default "" (head rest)))
                                     (normalizeAddress c)) = false).
    { destruct Hok as [->|[->|(a & -> & Heq)]]; try reflexivity.
      simpl. unfold normalizeAddress. rewrite Heq, String.eqb_refl.
      now rewrite andb_false_r. }
    rewrite Hm.
    rewrite (bind_ok _ _ w w (this w)) by reflexivity. cbv beta.
    destruct (allowedOrigin INTERNAL_ORIGIN (this w) (asContext context) c)
      as [[|]|e]; reflexivity.
Qed.

Lemma eth_requestAccounts_settled (context : option Context) (w : World) (c : string) :
  readCurrentAddress (this w) = Some c ->
  allowedOrigin INTERNAL_ORIGIN (this w) context c = Ok true ->
  eth_requestAccounts INTERNAL_ORIGIN context w = (Ok (Settled [c]), w).
Proof.
  intros Hc Ha. unfold eth_requestAccounts.
  rewrite (bind_ok _ _ w w (this w)) by reflexivity. cbv beta zeta.
  rewrite Hc.
  rewrite (bind_ok _ _ w w true) by (unfold liftR; now rewrite Ha).
  reflexivity.
Qed.

Lemma eth_requestAccounts_asks (context : option Context) (w : World) (o : string) :
  originOf context = Some (OriginString o) -> o <> "" ->
  (readCurrentAddress (this w) = None
   \/ exists c, readCurrentAddress (this w) = Some c
                /\ allowedOrigin INTERNAL_ORIGIN (this w) context c = Ok false) ->
  eth_requestAccounts INTERNAL_ORIGIN context w
  = (Ok AwaitingConfirmation,
     logged [NotificationWindowOpen "/requestAccounts" ("?origin=" +:+ o)] w).
Proof.
  intros Ho Hne Hnot. apply truthy_true in Hne.
  unfold eth_requestAccounts.
  rewrite (bind_ok _ _ w w (this w)) by reflexivity. cbv beta zeta.
  destruct Hnot as [Hc|(c & Hc & Ha)]; rewrite Hc.
  - rewrite (bind_ok _ _ w w false) by reflexivity. cbv beta.
    rewrite Ho, Hne. reflexivity.
  - rewrite (bind_ok _ _ w w false) by (unfold liftR; now rewrite Ha). cbv beta.
    rewrite Ho, Hne. reflexivity.
Qed.

(** X12. [eth_requestAccounts] returns at once, with the world untouched,
    exactly the list [eth_accounts] gives when the origin is already
    permitted for the current address; otherwise (no current address, or
    the origin is not listed) a calling origin gets the [/requestAccounts]
    window for that origin and nothing else happens until the window
    answers. *)
Theorem eth_requestAccounts_settles_or_asks (context : option Context) (w : World) :
  (forall c,
      readCurrentAddress (this w) = Some c ->
      allowedOrigin INTERNAL_ORIGIN (this w) context c = Ok true ->
      eth_requestAccounts INTERNAL_ORIGIN context w = (Ok (Settled [c]), w)
      /\ eth_accounts INTERNAL_ORIGIN (this w) context = Ok [c])
  /\ (forall o,
        originOf context = Some (OriginString o) -> o <> "" ->
        (readCurrentAddress (this w) = None
         \/ exists c, readCurrentAddress (this w) = Some c
                      /\ allowedOrigin INTERNAL_ORIGIN (this w) context c = Ok false) ->
        eth_requestAccounts INTERNAL_ORIGIN context w
        = (Ok AwaitingConfirmation,
           logged [NotificationWindowOpen "/requestAccounts" ("?origin=" +:+ o)] w)
        /\ eth_accounts INTERNAL_ORIGIN (this w) context = Ok []).
Proof.
  split.
  - intros c Hc Ha. split; [now apply eth_requestAccounts_settled|].
    unfold eth_accounts. now rewrite Hc, Ha.
  - intros o Ho Hne Hnot. split; [now apply eth_requestAccounts_asks|].
    unfold eth_accounts. destruct Hnot as [Hc|(c & Hc & Ha)]; rewrite Hc.
    + reflexivity.
    + now rewrite Ha.
Qed.

(** X13. [wallet_getPermissions] and [eth_accounts] agree: the
    [eth_accounts] capability is reported exactly when [eth_accounts]
    returns a non-empty list, nothing is reported when it returns the
    empty list, and the one throws exactly when the other does. *)
Theorem wallet_getPermissions_matches_eth_accounts
    (t : Wallet) (context : option ChannelContext) :
  wallet_getPermissions INTERNAL_ORIGIN t context
  = bindR (eth_accounts INTERNAL_ORIGIN t (asContext context))
          (fun accounts =>
             match accounts with
             | [] => Ok []
             | _ :: _ => Ok [ {| parentCapability := "eth_accounts" |} ]
             end).
Proof.
  unfold wallet_getPermissions, getIsAllowedOrigin, eth_accounts.
  destruct (readCurrentAddress t) as [c|]; [|reflexivity].
  destruct (allowedOrigin INTERNAL_ORIGIN t (asContext context) c) as [[|]|e];
    reflexivity.
Qed.

(** X14. [wallet_requestPermissions] looks at its parameters only after
    the account request has settled: an origin that is not yet permitted
    gets the confirmation window whatever [params] is, valid or not; an
    origin that is already permitted gets the [eth_accounts] permission
    when the first parameter has an [eth_accounts] property and
    [InvalidParams] otherwise. *)
Theorem wallet_requestPermissions_validates_late
    (context : option ChannelContext) (params : option (list (list string)))
    (w : World) :
  (permitted INTERNAL_ORIGIN (this w) context ->
   wallet_requestPermissions INTERNAL_ORIGIN context params w
   = (match generatePermissionResponse params with
      | Ok r => Ok (Settled r)
      | Throw e => Throw e
      end, w))
  /\ (forall o,
        context = Some {| channel_origin := Some o |} -> o <> "" ->
        (readCurrentAddress (this w) = None
         \/ exists c, readCurrentAddress (this w) = Some c
                      /\ allowedOrigin INTERNAL_ORIGIN (this w) (asContext context) c
                         = Ok false) ->
        wallet_requestPermissions INTERNAL_ORIGIN context params w
        = (Ok AwaitingConfirmation,
           logged [NotificationWindowOpen "/requestAccounts" ("?origin=" +:+ o)] w)).
Proof.
  split.
  - intros (c & Hc & Ha). unfold wallet_requestPermissions.
    rewrite (bind_ok _ _ _ _ _ (eth_requestAccounts_settled _ w c Hc Ha)). cbv beta.
    unfold mbind, M_bind, liftR, mret, M_ret.
    destruct (generatePermissionResponse params); reflexivity.
  - intros o -> Hne Hnot. unfold wallet_requestPermissions.
    rewrite (bind_ok _ _ _ _ _
               (eth_requestAccounts_asks
                  (asContext (Some {| channel_origin := Some o |})) w o eq_refl
                  Hne Hnot)).
    reflexivity.
Qed.

(** X15. [signAndSendTransaction] sends only for the string
    [INTERNAL_ORIGIN]: the internal symbol, which passes the origin check
    of every other internal method, is refused here, and a missing
    transaction is refused with [InvalidParams]; in both cases nothing has
    happened. With the string origin and a transaction it is
    [sendTransaction]. *)
Theorem signAndSendTransaction_needs_string_origin
    (tx : option IncomingTransaction) (o : string) (context : option Context)
    (w : World) :
  (originOf context = Some INTERNAL_ORIGIN_SYMBOL ->
   signAndSendTransaction INTERNAL_ORIGIN env (tx, o) context w
   = (Throw (JsError "Origin must be a string"), w))
  /\ (originOf context = Some (OriginString INTERNAL_ORIGIN) ->
      signAndSendTransaction INTERNAL_ORIGIN env (tx, o) context w
      = match tx with
        | None => (Throw InvalidParams, w)
        | Some transaction => sendTransaction INTERNAL_ORIGIN env transaction context o w
        end).
Proof.
  split; intros Ho; unfold signAndSendTransaction, ensureStringOrigin.
  - assert (Hint : isInternal INTERNAL_ORIGIN context = true).
    { unfold isInternal. rewrite Ho. reflexivity. }
    rewrite (bind_ok _ _ w w tt) by (now rewrite verifyInternalOrigin_run, Hint).
    cbv beta. apply bind_throw.
    rewrite (bind_ok _ _ w w tt) by (now rewrite verifyInternalOrigin_run, Hint).
    cbv beta. rewrite Ho. reflexivity.
  - assert (Hint : isInternal INTERNAL_ORIGIN context = true).
    { unfold isInternal. rewrite Ho. simpl. now rewrite String.eqb_refl. }
    rewrite (bind_ok _ _ w w tt) by (now rewrite verifyInternalOrigin_run, Hint).
    cbv beta.
    rewrite (bind_ok _ _ w w INTERNAL_ORIGIN).
    + cbv beta. destruct tx; reflexivity.
    + rewrite (bind_ok _ _ w w tt) by (now rewrite verifyInternalOrigin_run, Hint).
      cbv beta. rewrite Ho. reflexivity.
Qed.

(** X16. Approval then query: when the confirmation window of
    [eth_requestAccounts] resolves with the current address, for a calling
    origin and a record model whose [addPermission] lists the address for
    the origin and leaves the wallet manager alone, the pending request
    resolves with the one-element list of the current address, opens no
    further window, and from then on [eth_accounts] returns that list and
    [eth_requestAccounts] settles at once for that origin. *)
Theorem approval_grants_accounts
    (context : option Context) (o : string) (w : World) (c : string)
    (r : WalletRecord) :
  originOf context = Some (OriginString o) -> o <> "" ->
  record (this w) = Some r ->
  readCurrentAddress (this w) = Some c ->
  (forall r0 a0 o0, walletManager (Model_addPermission env r0 a0 o0) = walletManager r0) ->
  (forall r0 a0 o0,
      exists p, permissions (Model_addPermission env r0 a0 o0) !! o0 = Some p
                /\ In a0 (addresses p)) ->
  exists w2,
    eth_requestAccounts_onResolve INTERNAL_ORIGIN env context o c w = (Ok [c], w2)
    /\ eth_accounts INTERNAL_ORIGIN (this w2) context = Ok [c]
    /\ eth_requestAccounts INTERNAL_ORIGIN context w2 = (Ok (Settled [c]), w2)
    /\ windowsOpened (trace w2) = windowsOpened (trace w).
Proof.
  intros Ho Hne Hr Hc Hwm Hlist.
  pose proof (readCurrentAddress_truthy _ _ Hc) as Hcne.
  set (r2 := Model_addPermission env r c o).
  set (w2 := logged (storeSaves (this w) r2 ++ [Emit_permissionsUpdated])
                    (withThis (with_record (Some r2) (this w)) w)).
  assert (Hcur : readCurrentAddress (this w2) = Some c).
  { destruct (readCurrentAddress_record _ _ Hc) as (r' & Hr' & Hor).
    assert (r' = r) as -> by congruence.
    unfold readCurrentAddress. simpl. unfold r2. now rewrite Hwm. }
  assert (Hallowed : allowedOrigin INTERNAL_ORIGIN (this w2) context c = Ok true).
  { rewrite (allowedOrigin_string INTERNAL_ORIGIN (this w2) context o c Ho Hne).
    destruct (String.eqb o INTERNAL_ORIGIN); [reflexivity|].
    apply permissionsInclude_true.
    destruct (Hlist r c o) as (p & Hp & Hin).
    exists r2, p. repeat split; auto. }
  assert (Hacc : eth_accounts INTERNAL_ORIGIN (this w2) context = Ok [c]).
  { unfold eth_accounts. now rewrite Hcur, Hallowed. }
  exists w2. split; [|split; [exact Hacc|split]].
  - unfold eth_requestAccounts_onResolve.
    apply truthy_true in Hcne. rewrite Hcne. cbn [negb].
    rewrite (bind_ok _ _ w w c) by (now rewrite ensureCurrentAddress_run, Hc).
    cbv beta. rewrite String.eqb_refl. cbn [negb].
    unfold mbind at 1. unfold M_bind at 1. unfold mret at 1. unfold M_ret at 1.
    unfold mbind at 1. unfold M_bind at 1. unfold detached.
    rewrite (acceptOrigin_run env o c w r Hr). fold r2. fold w2. cbn [snd].
    unfold mbind, M_bind, getThis, liftR. now rewrite Hacc.
  - now apply eth_requestAccounts_settled.
  - unfold w2, logged, withThis. cbn [trace]. rewrite windowsOpened_app.
    replace (windowsOpened (storeSaves (this w) r2 ++ [Emit_permissionsUpdated]))
      with (@nil (string * string)); [now rewrite app_nil_r|].
    rewrite windowsOpened_app. unfold storeSaves.
    destruct (encryptionKey (this w)) as [k|]; [|reflexivity].
    destruct (Js.truthy k); reflexivity.
Qed.

Lemma wallet_switchEthereumChain_run
    (p : ChainIdValue) (context : option Context) (w : World) (a cid : string)
    (r : WalletRecord) :
  readCurrentAddress (this w) = Some a ->
  record (this w) = Some r ->
  allowedOrigin INTERNAL_ORIGIN (this w) context a = Ok true ->
  ethers_hexValue env p = Ok cid ->
  wallet_switchEthereumChain INTERNAL_ORIGIN env p context w
  = (Ok tt,
     if String.eqb cid (resolvedChainId env (this w) (originString context))
     then logged [NetworksStoreLoad] w
     else
       let c := networks_getChainById env cid in
       let r' := Model_setChainForOrigin env r c (originString context) in
       logged ([NetworksStoreLoad; NetworksStoreLoad]
                 ++ storeSaves (this w) r'
                 ++ [Emit_chainChanged c (originString context)])
              (withThis (with_record (Some r') (this w)) w)).
Proof.
  intros Ha Hr Hallowed Hhex. unfold wallet_switchEthereumChain.
  unfold mbind at 1. unfold M_bind at 1. unfold getThis at 1.
  rewrite Ha.
  unfold mbind at 1. unfold M_bind at 1. unfold liftR at 1.
  rewrite Hallowed. cbn [negb].
  unfold mbind at 1. unfold M_bind at 1. unfold liftR at 1.
  rewrite Hhex.
  unfold mbind at 1. unfold M_bind at 1.
  rewrite getChainIdForOrigin_run, Hr.
  destruct (String.eqb cid (resolvedChainId env (this w) (originString context)));
    [reflexivity|].
  unfold mbind at 1. unfold M_bind at 1. rewrite tell_run.
  unfold mbind at 1. unfold M_bind at 1.
  rewrite (setChainForOrigin_run env _ _ _ r) by exact Hr.
  cbv zeta. unfold mret, M_ret. unfold logged, withThis. simpl.
  repeat rewrite <- app_assoc. reflexivity.
Qed.

(** X17. Switching twice is switching once: after
    [wallet_switchEthereumChain] to a chain id, the chain id resolved for
    the origin is the requested one, and the same request again is a no-op
    (only the registry is read), for a registry that gives a chain back
    its id and a record model whose [setChainForOrigin] is read back by
    [getChainForOrigin] and leaves the current address and the listed
    addresses alone. *)
Theorem wallet_switchEthereumChain_twice
    (p : ChainIdValue) (context : option Context) (w : World) (a cid : string) :
  readCurrentAddress (this w) = Some a ->
  allowedOrigin INTERNAL_ORIGIN (this w) context a = Ok true ->
  ethers_hexValue env p = Ok cid ->
  networks_getChainId env (networks_getChainById env cid) = cid ->
  (forall r c o, Model_getChainForOrigin env (Model_setChainForOrigin env r c o) o = c) ->
  (forall r c o, walletManager (Model_setChainForOrigin env r c o) = walletManager r) ->
  (forall r c o p x,
      permissions r !! o = Some p -> In x (addresses p) ->
      exists p', permissions (Model_setChainForOrigin env r c o) !! o = Some p'
                 /\ In x (addresses p')) ->
  exists w1,
    wallet_switchEthereumChain INTERNAL_ORIGIN env p context w = (Ok tt, w1)
    /\ resolvedChainId env (this w1) (originString context) = cid
    /\ wallet_switchEthereumChain INTERNAL_ORIGIN env p context w1
       = (Ok tt, logged [NetworksStoreLoad] w1).
Proof.
  intros Ha Hallowed Hhex Hreg Hget Hwm Hperm.
  destruct (readCurrentAddress_record _ _ Ha) as (r & Hr & Hor).
  rewrite (wallet_switchEthereumChain_run p context w a cid r Ha Hr Hallowed Hhex).
  destruct (String.eqb_spec cid (resolvedChainId env (this w) (originString context)))
    as [Heq|Hneq].
  - eexists. split; [reflexivity|]. split; [now rewrite Heq|].
    rewrite (wallet_switchEthereumChain_run p context _ a cid r); try assumption.
    cbn [this logged]. rewrite <- Heq, String.eqb_refl. reflexivity.
  - cbv zeta.
    set (c := networks_getChainById env cid).
    set (r' := Model_setChainForOrigin env r c (originString context)).
    eexists. split; [reflexivity|].
    assert (Hres : resolvedChainId env (with_record (Some r') (this w))
                     (originString context) = cid).
    { unfold resolvedChainId. simpl. unfold r'. now rewrite Hget. }
    split; [exact Hres|].
    rewrite (wallet_switchEthereumChain_run p context _ a cid r').
    + cbn [this logged withThis]. rewrite Hres, String.eqb_refl. reflexivity.
    + unfold readCurrentAddress. simpl. unfold r'. now rewrite Hwm.
    + reflexivity.
    + cbn [this logged withThis].
      assert (Hs : originOf context = Some (OriginString (originString context))
                   \/ allowedOrigin INTERNAL_ORIGIN (this w) context a <> Ok true).
      { unfold allowedOrigin, originString.
        destruct (originOf context) as [[s|n]|]; [now left| |right; discriminate].
        right. simpl. discriminate. }
      destruct Hs as [Hs|Hs]; [|now destruct Hs].
      unfold allowedOrigin in *. rewrite Hs in *.
      destruct (negb (truthyOrigin (OriginString (originString context))));
        [discriminate|].
      destruct (OriginValue_eqb (OriginString (originString context))
                                (OriginString INTERNAL_ORIGIN)); [reflexivity|].
      apply permissionsInclude_true in Hallowed.
      destruct Hallowed as (r0 & p0 & Hr0 & Hp0 & Hin0).
      assert (r0 = r) by congruence. subst r0.
      destruct (Hperm r c (originString context) p0 a Hp0 Hin0) as (p' & Hp' & Hin').
      apply permissionsInclude_true. exists r', p'.
      split; [reflexivity|]. split; [exact Hp'|exact Hin'].
    + exact Hhex.
Qed.

Lemma storeSaves_saved (t : Wallet) (r : WalletRecord) :
  savedRecords (storeSaves t r)
  = if Js.truthyOpt (encryptionKey t) then [r] else [].
Proof.
  unfold storeSaves, Js.truthyOpt.
  destruct (encryptionKey t) as [k|]; [|reflexivity].
  destruct (Js.truthy k); reflexivity.
Qed.

Lemma storeSaves_windows (t : Wallet) (r : WalletRecord) :
  windowsOpened (storeSaves t r) = [].
Proof.
  unfold storeSaves.
  destruct (encryptionKey t) as [k|]; [|reflexivity].
  destruct (Js.truthy k); reflexivity.
Qed.

Lemma removePermission_run (o : string) (a : option string) (w : World)
    (r : WalletRecord) :
  record (this w) = Some r ->
  let r' := Model_removePermission more r o a in
  removePermission INTERNAL_ORIGIN more o a (Some INTERNAL_SYMBOL_CONTEXT) w
  = (Ok tt,
     logged (storeSaves (this w) r' ++ [Emit_permissionsUpdated])
            (withThis (with_record (Some r') (this w)) w)).
Proof.
  intros Hr r'. unfold removePermission.
  rewrite (bind_ok _ _ w w tt) by (rewrite verifyInternalOrigin_run; reflexivity).
  rewrite (bind_ok _ _ w w r) by (now rewrite ensureRecord_run, Hr).
  fold r'. unfold mbind at 1. unfold M_bind, modifyThis.
  unfold mbind at 1. unfold M_bind. rewrite updateWalletStore_detached.
  rewrite tell_run, logged_logged. reflexivity.
Qed.

Lemma removeAllOriginPermissions_run (w : World) (r : WalletRecord) :
  record (this w) = Some r ->
  let r' := Model_removeAllOriginPermissions more r in
  removeAllOriginPermissions INTERNAL_ORIGIN more (Some INTERNAL_SYMBOL_CONTEXT) w
  = (Ok tt,
     logged (storeSaves (this w) r' ++ [Emit_permissionsUpdated])
            (withThis (with_record (Some r') (this w)) w)).
Proof.
  intros Hr r'. unfold removeAllOriginPermissions.
  rewrite (bind_ok _ _ w w tt) by (rewrite verifyInternalOrigin_run; reflexivity).
  rewrite (bind_ok _ _ w w r) by (now rewrite ensureRecord_run, Hr).
  fold r'. unfold mbind at 1. unfold M_bind, modifyThis.
  unfold mbind at 1. unfold M_bind. rewrite updateWalletStore_detached.
  rewrite tell_run, logged_logged. reflexivity.
Qed.

Lemma mutator_without_record (m : Mutator) (w : World) :
  record (this w) = None ->
  runMutator INTERNAL_ORIGIN env more m w = (Throw RecordNotFound, w).
Proof.
  intros Hr.
  assert (Hens : ensureRecord w = (Throw RecordNotFound, w))
    by (now rewrite ensureRecord_run, Hr).
  destruct m as [o a|a|c o|o a|]; cbn [runMutator].
  - unfold acceptOrigin. now apply bind_throw.
  - unfold setCurrentAddress.
    rewrite (bind_ok _ _ w w tt) by (rewrite verifyInternalOrigin_run; reflexivity).
    now apply bind_throw.
  - unfold setChainForOrigin. now apply bind_throw.
  - unfold removePermission.
    rewrite (bind_ok _ _ w w tt) by (rewrite verifyInternalOrigin_run; reflexivity).
    now apply bind_throw.
  - unfold removeAllOriginPermissions.
    rewrite (bind_ok _ _ w w tt) by (rewrite verifyInternalOrigin_run; reflexivity).
    now apply bind_throw.
Qed.

(** X18. The five methods that replace the record ([acceptOrigin],
    [setCurrentAddress], [setChainForOrigin], [removePermission],
    [removeAllOriginPermissions]) keep memory and store in step: when one
    of them returns, the record now held is the one record handed to
    [walletStore.save] by the call (no save at all when the storage key is
    missing or empty: the rejection of the un-awaited [updateWalletStore]
    is lost and the record is replaced all the same); identity, keys,
    timer and clock are untouched and no window is opened. When one of
    them throws, nothing has changed; without a record each throws
    [RecordNotFound]. *)
Theorem mutators_save_the_record_they_store (m : Mutator) (w : World) :
  exists res w',
    runMutator INTERNAL_ORIGIN env more m w = (res, w')
    /\ match res with
       | Throw e => w' = w /\ (record (this w) = None -> e = RecordNotFound)
       | Ok _ =>
           exists r r',
             record (this w) = Some r
             /\ this w' = with_record (Some r') (this w)
             /\ clock w' = clock w
             /\ savedRecords (trace w')
                = savedRecords (trace w)
                    ++ (if Js.truthyOpt (encryptionKey (this w)) then [r'] else [])
             /\ windowsOpened (trace w') = windowsOpened (trace w)
       end.
Proof.
  destruct (record (this w)) as [r|] eqn:Hr.
  2:{ exists (Throw RecordNotFound), w. split; [now apply mutator_without_record|].
      split; reflexivity. }
  assert (Hdone : forall r' ev,
             windowsOpened [ev] = [] -> savedRecords [ev] = [] ->
             let w' := logged (storeSaves (this w) r' ++ [ev])
                              (withThis (with_record (Some r') (this w)) w) in
             exists r0 r'0,
               Some r = Some r0
               /\ this w' = with_record (Some r'0) (this w)
               /\ clock w' = clock w
               /\ savedRecords (trace w')
                  = savedRecords (trace w)
                      ++ (if Js.truthyOpt (encryptionKey (this w)) then [r'0] else [])
               /\ windowsOpened (trace w') = windowsOpened (trace w)).
  { intros r' ev Hwin Hsav w'. exists r, r'. unfold w', logged, withThis.
    cbn [this clock trace].
    split; [reflexivity|]. split; [reflexivity|]. split; [reflexivity|]. split.
    - rewrite !savedRecords_app, storeSaves_saved, Hsav, app_nil_r. reflexivity.
    - rewrite !windowsOpened_app, storeSaves_windows, Hwin, !app_nil_r. reflexivity. }
  destruct m as [o a|a|c o|o a|]; cbn [runMutator].
  - eexists (Ok tt), _. split; [apply (acceptOrigin_run env o a w r Hr)|].
    now apply Hdone.
  - destruct (Model_setCurrentAddress env r a) as [r1|e] eqn:Hset.
    + eexists (Ok tt), _.
      split; [apply (setCurrentAddress_run INTERNAL_ORIGIN env a w r r1 Hr Hset)|].
      now apply Hdone.
    + exists (Throw e), w.
      split; [apply (setCurrentAddress_throws INTERNAL_ORIGIN env a w r e Hr Hset)|].
      split; [reflexivity|discriminate].
  - eexists (Ok tt), _. split; [apply (setChainForOrigin_run env c o w r Hr)|].
    now apply Hdone.
  - eexists (Ok tt), _. split; [apply (removePermission_run o a w r Hr)|].
    now apply Hdone.
  - eexists (Ok tt), _. split; [apply (removeAllOriginPermissions_run w r Hr)|].
    now apply Hdone.
Qed.

Lemma filter_length_zero {A : Type} (p : A -> bool) (l : list A) :
  length (List.filter p l) = 0%nat <-> forall x, In x l -> p x = false.
Proof.
  induction l as [|y l IH]; simpl.
  - split; [intros _ x []|reflexivity].
  - destruct (p y) eqn:Hy; simpl.
    + split; [discriminate|]. intros H. specialize (H y (or_introl eq_refl)). congruence.
    + rewrite IH. split.
      * intros H x [<-|Hin]; auto.
      * intros H x Hin. apply H. now right.
Qed.

(** X19. [getNoBackupCount], called from the internal origin with a record
    loaded, returns without changing anything; the count is at most the
    number of groups, it is zero exactly when every mnemonic group has a
    [lastBackedUp] date, and groups of private-key containers never count:
    adding one to the record leaves the count as it was. *)
Theorem getNoBackupCount_counts_mnemonic_groups
    (context : option Context) (w : World) (r : WalletRecord) :
  isInternal INTERNAL_ORIGIN context = true ->
  record (this w) = Some r ->
  exists n,
    getNoBackupCount INTERNAL_ORIGIN context w = (Ok n, w)
    /\ (n <= length (groups (walletManager r)))%nat
    /\ (n = 0%nat <->
        forall g, In g (groups (walletManager r)) ->
                  seedType (walletContainer g) = SeedType_mnemonic ->
                  lastBackedUp g <> None)
    /\ forall g r2 w2,
         seedType (walletContainer g) = SeedType_privateKey ->
         groups (walletManager r2) = groups (walletManager r) ++ [g] ->
         record (this w2) = Some r2 ->
         getNoBackupCount INTERNAL_ORIGIN context w2 = (Ok n, w2).
Proof.
  intros Hint Hr.
  assert (Hrun : forall w0 r0, record (this w0) = Some r0 ->
            getNoBackupCount INTERNAL_ORIGIN context w0
            = (Ok (length (List.filter neverBackedUp
                             (List.filter isMnemonicGroup (groups (walletManager r0))))),
               w0)).
  { intros w0 r0 H0. unfold getNoBackupCount.
    rewrite (bind_ok _ _ w0 w0 tt) by (now rewrite verifyInternalOrigin_run, Hint).
    rewrite (bind_ok _ _ w0 w0 r0) by (now rewrite ensureRecord_run, H0).
    reflexivity. }
  eexists. split; [apply (Hrun w r Hr)|]. split; [|split].
  - etransitivity; [apply List.filter_length_le|apply List.filter_length_le].
  - rewrite filter_length_zero. split.
    + intros H g Hin Hseed Hnone.
      assert (Hg : In g (List.filter isMnemonicGroup (groups (walletManager r)))).
      { apply List.filter_In. split; [exact Hin|]. unfold isMnemonicGroup. now rewrite Hseed. }
      specialize (H g Hg). unfold neverBackedUp in H. now rewrite Hnone in H.
    + intros H g Hg. apply List.filter_In in Hg as [Hin Hm].
      unfold isMnemonicGroup in Hm.
      destruct (seedType (walletContainer g)) eqn:Hseed; try discriminate.
      specialize (H g Hin Hseed). unfold neverBackedUp.
      destruct (lastBackedUp g); [reflexivity|congruence].
  - intros g r2 w2 Hseed Hgroups Hr2. rewrite (Hrun w2 r2 Hr2), Hgroups.
    rewrite List.filter_app. cbn [List.filter]. unfold isMnemonicGroup at 2.
    rewrite Hseed, app_nil_r. reflexivity.
Qed.

(** X20. [updateCredentials] always installs the identity, the storage key
    and the session key it is given and arms the expiry timer 120000 ms
    ahead, whatever the store then does. With a non-empty storage key it
    reads the store once: the record becomes what the store returned, also
    when that is [null] (then without a [recordUpdated] event); when the
    read fails the call rejects and the record is the old one. With an
    empty key the store is not read and the record is the old one. *)
Theorem updateCredentials_installs_then_reads
    (id' key : string) (sk : option CryptoKey) (w : World) :
  exists res w',
    updateCredentials env id' key sk w = (res, w')
    /\ id (this w') = id'
    /\ encryptionKey (this w') = Some key
    /\ seedPhraseEncryptionKey (this w') = sk
    /\ seedPhraseExpiryTimerId (this w') = Some (clock w + SEED_PHRASE_TIMEOUT)%Z
    /\ clock w' = clock w
    /\ if Js.truthy key then
         match walletStore_read env id' key with
         | Ok r =>
             res = Ok tt /\ record (this w') = r
             /\ trace w'
                = trace w ++ WalletStoreRead id' key
                    :: match r with Some _ => [Emit_recordUpdated] | None => [] end
         | Throw e =>
             res = Throw e /\ record (this w') = record (this w)
             /\ trace w' = trace w ++ [WalletStoreRead id' key]
         end
       else res = Ok tt /\ record (this w') = record (this w) /\ trace w' = trace w.
Proof.
  unfold updateCredentials, setExpirationForSeedPhraseEncryptionKey, syncWithWalletStore.
  unfold mbind, M_bind, modifyThis, getClock, getThis, mret, M_ret, tell, liftR.
  cbn.
  destruct (Js.truthy key) eqn:Hk.
  - destruct (walletStore_read env id' key) as [[r|]|e]; cbn;
      eexists _, _; (split; [reflexivity|]); cbn;
      repeat (split; [reflexivity|]); try reflexivity.
    now rewrite <- app_assoc.
  - eexists _, _. split; [reflexivity|]. cbn. repeat (split; [reflexivity|]). reflexivity.
Qed.

Lemma sendTransaction_dispatch_effects
    (chainId : string) (tx : IncomingTransaction) (w : World)
    (res : Result TransactionResponse) (w' : World) :
  sendTransaction_dispatch env chainId tx w = (res, w') ->
  this w' = this w /\ clock w' = clock w
  /\ exists es,
       trace w' = trace w ++ es
       /\ windowsOpened es = [] /\ savedRecords es = []
       /\ (length (signerCalls es) <= 1)%nat
       /\ forall resp, res = Ok resp ->
            exists s request raw r c,
              signerCalls es = [(s, request)]
              /\ signer_sendTransaction env s request = Ok raw
              /\ resp = removeSignature env raw
              /\ last es = Some (Emit_pendingTransactionCreated resp)
              /\ record (this w) = Some r
              /\ readCurrentAddress (this w) = Some c
              /\ Model_getWalletByAddress env r c = Some (signer_wallet s).
Proof.
  unfold sendTransaction_dispatch, getSigner, getProvider.
  unfold mbind, M_bind, liftR, tell, getThis, mret, M_ret, throw.
  destruct (prepareTransaction env tx) as [prepared|e1].
  2:{ intros [= <- <-]. split; [reflexivity|]. split; [reflexivity|].
      exists []. rewrite app_nil_r. repeat split; simpl; auto. discriminate. }
  destruct (hasGasPrice env prepared);
    [|destruct (fetchAndAssignGasPrice env prepared) as [priced|e2]];
    cbn [this clock trace];
    try (destruct (record (this w)) as [r|] eqn:Hr;
         [destruct (readCurrentAddress (this w)) as [c|] eqn:Hc;
          [destruct (Model_getWalletByAddress env r c) as [wallet|] eqn:Hwallet;
           [cbn [this clock trace];
            match goal with
            | |- context [signer_sendTransaction env ?s ?q] =>
                destruct (signer_sendTransaction env s q) as [raw|e3] eqn:Hsend
            end|]|]|]);
    intros [= <- <-]; cbn [this clock trace];
    (split; [reflexivity|]); (split; [reflexivity|]);
    (first [ exists []; split; [now rewrite app_nil_r|]
           | eexists; split; [rewrite <- ?app_assoc; reflexivity|] ]);
    (split; [reflexivity|]); (split; [reflexivity|]);
    (split; [simpl; lia|]);
    try discriminate.
  all: intros resp [= <-]; eexists _, _, raw, r, c;
    (split; [reflexivity|]); (split; [exact Hsend|]); (split; [reflexivity|]);
    (split; [reflexivity|]); auto.
Qed.

(** X21. What a call of [sendTransaction] can do, whatever it is given:
    it never changes the wallet object, saves no record, opens no window,
    and hands at most one transaction to a signer. When it returns a
    response, the context was internal, [tx.from] equals the current
    address up to case, the transaction's chain id was absent, empty or the
    one resolved for the origin, exactly one transaction was signed, by the
    signer made from the model's wallet for the current address, and the
    response is the signer's with the signature removed, the same value
    the final [pendingTransactionCreated] event carries. *)
Theorem sendTransaction_signs_at_most_once
    (tx : IncomingTransaction) (context : option Context) (o : string) (w : World)
    (res : Result TransactionResponse) (w' : World) :
  sendTransaction INTERNAL_ORIGIN env tx context o w = (res, w') ->
  this w' = this w /\ clock w' = clock w
  /\ exists es,
       trace w' = trace w ++ es
       /\ windowsOpened es = [] /\ savedRecords es = []
       /\ (length (signerCalls es) <= 1)%nat
       /\ forall resp, res = Ok resp ->
            isInternal INTERNAL_ORIGIN context = true
            /\ (forall target, getTransactionChainId env tx = Some target ->
                  target = "" \/ target = resolvedChainId env (this w) o)
            /\ exists s request raw r c f,
                 signerCalls es = [(s, request)]
                 /\ signer_sendTransaction env s request = Ok raw
                 /\ resp = removeSignature env raw
                 /\ last es = Some (Emit_pendingTransactionCreated resp)
                 /\ record (this w) = Some r
                 /\ readCurrentAddress (this w) = Some c
                 /\ Model_getWalletByAddress env r c = Some (signer_wallet s)
                 /\ tx_from tx = Some f
                 /\ Js.toLowerCase f = Js.toLowerCase c.
Proof.
  intros Hrun.
  assert (Hstop :
    (isInternal INTERNAL_ORIGIN context = false
     \/ ~ (exists f c, tx_from tx = Some f /\ readCurrentAddress (this w) = Some c
                       /\ Js.toLowerCase f = Js.toLowerCase c)) ->
    this w' = this w /\ clock w' = clock w
    /\ exists es,
         trace w' = trace w ++ es
         /\ windowsOpened es = [] /\ savedRecords es = []
         /\ (length (signerCalls es) <= 1)%nat
         /\ forall resp, res = Ok resp ->
              isInternal INTERNAL_ORIGIN context = true
              /\ (forall target, getTransactionChainId env tx = Some target ->
                    target = "" \/ target = resolvedChainId env (this w) o)
              /\ exists s request raw r c f,
                   signerCalls es = [(s, request)]
                   /\ signer_sendTransaction env s request = Ok raw
                   /\ resp = removeSignature env raw
                   /\ last es = Some (Emit_pendingTransactionCreated resp)
                   /\ record (this w) = Some r
                   /\ readCurrentAddress (this w) = Some c
                   /\ Model_getWalletByAddress env r c = Some (signer_wallet s)
                   /\ tx_from tx = Some f
                   /\ Js.toLowerCase f = Js.toLowerCase c).
  { intros H.
    destruct (sendTransaction_first_checks INTERNAL_ORIGIN env tx context o w H) as [e He].
    rewrite He in Hrun. injection Hrun as <- <-.
    split; [reflexivity|]. split; [reflexivity|].
    exists []. rewrite app_nil_r. repeat split; simpl; auto; discriminate. }
  destruct (isInternal INTERNAL_ORIGIN context) eqn:Hint; [|apply Hstop; now left].
  destruct (tx_from tx) as [f|] eqn:Hf.
  2:{ apply Hstop. right. intros (f & c & Hf' & _). discriminate. }
  destruct (readCurrentAddress (this w)) as [c|] eqn:Hc.
  2:{ apply Hstop. right. intros (f' & c & _ & Hc' & _). discriminate. }
  destruct (String.eqb_spec (Js.toLowerCase f) (Js.toLowerCase c)) as [Heq|Hneq].
  2:{ apply Hstop. right. intros (f' & c' & Hf' & Hc' & Heq). congruence. }
  clear Hstop.
  rewrite (sendTransaction_after_sender_check INTERNAL_ORIGIN env tx context o w f c)
    in Hrun by assumption.
  cbv zeta in Hrun.
  assert (Hgo : forall tx0 es0,
    windowsOpened es0 = [] -> savedRecords es0 = [] -> signerCalls es0 = [] ->
    sendTransaction_dispatch env (resolvedChainId env (this w) o) tx0 (logged es0 w)
    = (res, w') ->
    this w' = this w /\ clock w' = clock w
    /\ exists es,
         trace w' = trace w ++ es
         /\ windowsOpened es = [] /\ savedRecords es = []
         /\ (length (signerCalls es) <= 1)%nat
         /\ forall resp, res = Ok resp ->
              exists s request raw r c0 f0,
                signerCalls es = [(s, request)]
                /\ signer_sendTransaction env s request = Ok raw
                /\ resp = removeSignature env raw
                /\ last es = Some (Emit_pendingTransactionCreated resp)
                /\ record (this w) = Some r
                /\ Some c = Some c0
                /\ Model_getWalletByAddress env r c0 = Some (signer_wallet s)
                /\ Some f = Some f0
                /\ Js.toLowerCase f0 = Js.toLowerCase c0).
  { intros tx0 es0 Hwin Hsav Hsig Hd.
    apply sendTransaction_dispatch_effects in Hd.
    destruct Hd as (Hthis & Hclock & es & Htrace & Hwin' & Hsav' & Hlen & Hok).
    cbn [logged this clock trace] in *.
    split; [exact Hthis|]. split; [exact Hclock|].
    exists (es0 ++ es).
    split; [now rewrite Htrace, app_assoc|].
    rewrite windowsOpened_app, savedRecords_app, signerCalls_app, Hwin, Hsav, Hsig, Hwin', Hsav'.
    split; [reflexivity|]. split; [reflexivity|]. split; [exact Hlen|].
    intros resp Hresp.
    destruct (Hok resp Hresp) as (s & request & raw & r & c0 & Hs & Hsend & Hr' & Hlast & Hrec & Hcur & Hw).
    exists s, request, raw, r, c0, f.
    split; [exact Hs|]. split; [exact Hsend|]. split; [exact Hr'|].
    split.
    { destruct es as [|ev es'] using rev_ind; [discriminate|].
      rewrite app_assoc, last_snoc. now rewrite last_snoc in Hlast. }
    split; [exact Hrec|]. split; [now rewrite <- Hcur|]. split; [exact Hw|].
    split; [reflexivity|]. congruence. }
  destruct (getTransactionChainId env tx) as [target|] eqn:Ht.
  - destruct (Js.truthy target && negb (String.eqb (resolvedChainId env (this w) o) target))
      eqn:Hcheck.
    + unfold throw in Hrun. injection Hrun as <- <-. cbn [logged this clock trace].
      split; [reflexivity|]. split; [reflexivity|].
      exists [NetworksStoreLoad]. repeat split; simpl; auto; discriminate.
    + destruct (Hgo tx [NetworksStoreLoad] eq_refl eq_refl eq_refl Hrun)
        as (Hthis & Hclock & es & Htrace & Hwin & Hsav & Hlen & Hok).
      split; [exact Hthis|]. split; [exact Hclock|].
      exists es. repeat (split; [assumption|]).
      intros resp Hresp. split; [reflexivity|]. split; [|exact (Hok resp Hresp)].
      intros target' [= <-].
      apply andb_false_iff in Hcheck as [Hempty|Hsame].
      * left. now apply truthy_false.
      * right. apply negb_false_iff, String.eqb_eq in Hsame. congruence.
  - unfold mbind at 1 in Hrun. unfold M_bind at 1 in Hrun.
    rewrite tell_run, logged_logged in Hrun.
    destruct (Hgo _ [NetworksStoreLoad;
                     ConsoleWarn "chainId field is missing from transaction object"]
                eq_refl eq_refl eq_refl Hrun)
      as (Hthis & Hclock & es & Htrace & Hwin & Hsav & Hlen & Hok).
    split; [exact Hthis|]. split; [exact Hclock|].
    exists es. repeat (split; [assumption|]).
    intros resp Hresp. split; [reflexivity|]. split; [|exact (Hok resp Hresp)].
    discriminate.
Qed.

(** X22. [eth_chainId] follows [wallet_switchEthereumChain]: once an
    allowed origin has switched to a chain id, [eth_chainId] for the same
    context returns that id and leaves the wallet object alone, for a
    registry that gives a chain back its id and a record model whose
    [setChainForOrigin] is read back by [getChainForOrigin]. *)
Theorem eth_chainId_follows_switch
    (p : ChainIdValue) (context : option ChannelContext) (w : World)
    (a cid : string) :
  readCurrentAddress (this w) = Some a ->
  allowedOrigin INTERNAL_ORIGIN (this w) (asContext context) a = Ok true ->
  ethers_hexValue env p = Ok cid ->
  networks_getChainId env (networks_getChainById env cid) = cid ->
  (forall r c o, Model_getChainForOrigin env (Model_setChainForOrigin env r c o) o = c) ->
  exists w1 w2,
    wallet_switchEthereumChain INTERNAL_ORIGIN env p (asContext context) w = (Ok tt, w1)
    /\ eth_chainId env context w1 = (Ok cid, w2)
    /\ this w2 = this w1.
Proof.
  intros Ha Hallowed Hhex Hreg Hget.
  destruct (readCurrentAddress_record _ _ Ha) as (r & Hr & Hor).
  rewrite (wallet_switchEthereumChain_run p (asContext context) w a cid r Ha Hr Hallowed Hhex).
  assert (Horigin : exists o, context = Some {| channel_origin := Some o |}
                              /\ Js.truthy o = true
                              /\ originString (asContext context) = o).
  { unfold allowedOrigin in Hallowed.
    destruct context as [[[o|]]|]; simpl in Hallowed; try discriminate.
    exists o. split; [reflexivity|]. split; [|reflexivity].
    destruct (Js.truthy o); [reflexivity|discriminate]. }
  destruct Horigin as (o & -> & Ho & Hos). rewrite Hos.
  unfold eth_chainId. cbn [channel_origin]. rewrite Ho.
  destruct (String.eqb_spec cid (resolvedChainId env (this w) o)) as [Heq|Hneq];
    eexists _, _; (split; [reflexivity|]); rewrite getChainIdForOrigin_run.
  - cbn [logged this]. rewrite Hr, <- Heq. split; reflexivity.
  - cbv zeta. cbn [logged withThis this with_record record].
    unfold resolvedChainId. cbn [record with_record]. rewrite Hget, Hreg.
    split; reflexivity.
Qed.

(** X25. The two verify methods agree with the two reveal methods: in
    every state and for every context, [verifyPrivateKey] throws exactly
    when [getPrivateKey] throws, with the same error, and otherwise returns
    whether the revealed key is the given value; likewise
    [verifyRecoveryPhrase] and the phrase of [getRecoveryPhrase]. Neither
    changes anything. *)
Theorem verify_methods_agree_with_reveal
    (context : option Context) (w : World) (value : string) :
  (forall a,
      getPrivateKey INTERNAL_ORIGIN env a context w
      = (fst (getPrivateKey INTERNAL_ORIGIN env a context w), w)
      /\ verifyPrivateKey INTERNAL_ORIGIN env a value context w
         = (match fst (getPrivateKey INTERNAL_ORIGIN env a context w) with
            | Ok pk => Ok (String.eqb pk value)
            | Throw e => Throw e
            end, w))
  /\ (forall g,
        getRecoveryPhrase INTERNAL_ORIGIN env g context w
        = (fst (getRecoveryPhrase INTERNAL_ORIGIN env g context w), w)
        /\ verifyRecoveryPhrase INTERNAL_ORIGIN env g value context w
           = (match fst (getRecoveryPhrase INTERNAL_ORIGIN env g context w) with
              | Ok m => Ok (String.eqb (phrase m) value)
              | Throw e => Throw e
              end, w)).
Proof.
  split; [intros a|intros g];
    unfold getPrivateKey, verifyPrivateKey, getRecoveryPhrase, verifyRecoveryPhrase;
    unfold mbind, M_bind; rewrite verifyInternalOrigin_run;
    (destruct (isInternal INTERNAL_ORIGIN context); [|split; reflexivity]);
    rewrite ensureRecord_run;
    (destruct (record (this w)) as [r|]; [|split; reflexivity]);
    unfold getThis, throw, liftR, mret, M_ret;
    (destruct (seedPhraseEncryptionKey (this w)) as [k|]; [|split; reflexivity]).
  - destruct (Model_getPrivateKey env r a); split; reflexivity.
  - destruct (Model_getRecoveryPhrase env r g k); split; reflexivity.
Qed.

(** X26. Wallets reach the UI masked: whatever [uiGetCurrentWallet] and
    [uiGetWalletByAddress] return that is not [null] is [maskWallet] of a
    wallet of the record model, and the call changed nothing.
    [uiGetCurrentWallet] falls back to the model's first wallet when the
    current address has none. *)
Theorem ui_wallets_are_masked (context : option Context) (w w' : World)
    (shown : BareWallet) :
  (uiGetCurrentWallet INTERNAL_ORIGIN env more context w = (Ok (Some shown), w') ->
   w' = w
   /\ exists r c wallet,
        record (this w) = Some r /\ readCurrentAddress (this w) = Some c
        /\ shown = maskWallet more wallet
        /\ (Model_getWalletByAddress env r c = Some wallet
            \/ (Model_getWalletByAddress env r c = None
                /\ Model_getFirstWallet more r = Some wallet)))
  /\ (forall a,
        uiGetWalletByAddress INTERNAL_ORIGIN env more a context w = (Ok (Some shown), w') ->
        w' = w
        /\ exists r wallet,
             record (this w) = Some r /\ a <> ""
             /\ Model_getWalletByAddress env r a = Some wallet
             /\ shown = maskWallet more wallet).
Proof.
  split.
  - unfold uiGetCurrentWallet. unfold mbind, M_bind. rewrite verifyInternalOrigin_run.
    destruct (isInternal INTERNAL_ORIGIN context); [|discriminate].
    unfold getThis, mret, M_ret.
    destruct (negb (Js.truthy (id (this w)))); [discriminate|].
    destruct (record (this w)) as [r|] eqn:Hr; [|discriminate].
    destruct (readCurrentAddress (this w)) as [c|] eqn:Hc; [|discriminate].
    destruct (Model_getWalletByAddress env r c) as [wallet|] eqn:Hw.
    + cbn. intros [= <- <-]. split; [reflexivity|].
      exists r, c, wallet. repeat (split; [reflexivity|]). now left.
    + destruct (Model_getFirstWallet more r) as [wallet|] eqn:Hfirst; cbn; [|discriminate].
      intros [= <- <-]. split; [reflexivity|].
      exists r, c, wallet. repeat (split; [reflexivity|]). right. now split.
  - intros a. unfold uiGetWalletByAddress. unfold mbind, M_bind.
    rewrite verifyInternalOrigin_run.
    destruct (isInternal INTERNAL_ORIGIN context); [|discriminate].
    unfold getThis, mret, M_ret, throw.
    destruct (record (this w)) as [r|] eqn:Hr; [|discriminate].
    destruct (Js.truthy a) eqn:Ha; cbn [negb]; [|discriminate].
    destruct (Model_getWalletByAddress env r a) as [wallet|] eqn:Hw; cbn; [|discriminate].
    intros [= <- <-]. split; [reflexivity|].
    exists r, wallet. split; [reflexivity|]. split; [now apply truthy_true|].
    split; [exact Hw|reflexivity].
Qed.

(** X27. Revocation, for a web origin other than the internal one whose
    name is not a property inherited from [Object.prototype]. After
    [removeAllOriginPermissions], when the record model returns a record
    with an empty permission map, the origin is back to the start:
    [eth_accounts] answers the empty list and [eth_requestAccounts] opens
    the confirmation window again. After [removePermission] of the current
    address for the origin the same holds, when the record model keeps the
    wallet manager and leaves the origin either without an entry or with
    an entry that no longer lists the address. *)
Theorem revoked_origins_must_ask_again
    (w : World) (r : WalletRecord) (o : string) :
  record (this w) = Some r ->
  o <> "" -> o <> INTERNAL_ORIGIN -> ~ In o Js.objectPrototypeKeys ->
  let context := Some {| origin := Some (OriginString o) |} in
  ((forall r0, permissions (Model_removeAllOriginPermissions more r0) = ∅) ->
   exists w1,
     runMutator INTERNAL_ORIGIN env more Mut_removeAllOriginPermissions w = (Ok tt, w1)
     /\ eth_accounts INTERNAL_ORIGIN (this w1) context = Ok []
     /\ eth_requestAccounts INTERNAL_ORIGIN context w1
        = (Ok AwaitingConfirmation,
           logged [NotificationWindowOpen "/requestAccounts" ("?origin=" +:+ o)] w1))
  /\ (forall c,
        readCurrentAddress (this w) = Some c ->
        (forall r0 o0 a0,
            walletManager (Model_removePermission more r0 o0 a0) = walletManager r0) ->
        (forall r0 o0 a0 p,
            permissions (Model_removePermission more r0 o0 (Some a0)) !! o0 = Some p ->
            ~ In a0 (addresses p)) ->
        exists w1,
          runMutator INTERNAL_ORIGIN env more (Mut_removePermission o (Some c)) w
          = (Ok tt, w1)
          /\ readCurrentAddress (this w1) = Some c
          /\ eth_accounts INTERNAL_ORIGIN (this w1) context = Ok []
          /\ eth_requestAccounts INTERNAL_ORIGIN context w1
             = (Ok AwaitingConfirmation,
                logged [NotificationWindowOpen "/requestAccounts" ("?origin=" +:+ o)]
                       w1)).
Proof.
  intros Hr Hne Hnot Hplain context.
  assert (Hgoal : forall r' ev,
    (forall c, readCurrentAddress (with_record (Some r') (this w)) = Some c ->
               forall p, permissions r' !! o = Some p -> ~ In c (addresses p)) ->
    let w1 := logged (storeSaves (this w) r' ++ [ev])
                     (withThis (with_record (Some r') (this w)) w) in
    eth_accounts INTERNAL_ORIGIN (this w1) context = Ok []
    /\ eth_requestAccounts INTERNAL_ORIGIN context w1
       = (Ok AwaitingConfirmation,
          logged [NotificationWindowOpen "/requestAccounts" ("?origin=" +:+ o)] w1)).
  { intros r' ev Hunlisted w1.
    assert (Hperm : forall c, readCurrentAddress (this w1) = Some c ->
                      allowedOrigin INTERNAL_ORIGIN (this w1) context c = Ok false).
    { intros c Hc.
      rewrite (allowedOrigin_string INTERNAL_ORIGIN (this w1) context o c eq_refl Hne).
      apply String.eqb_neq in Hnot. rewrite Hnot.
      destruct (permissionsInclude_cases (this w1) o c) as (_ & _ & Hno & Hnone & _).
      destruct (permissions r' !! o) as [p|] eqn:Hp.
      - apply (Hno r' p); [reflexivity | exact Hp |].
        now apply (Hunlisted c Hc p).
      - apply (Hnone r'); [reflexivity | exact Hp | exact Hplain]. }
    split.
    - unfold eth_accounts.
      destruct (readCurrentAddress (this w1)) as [c|] eqn:Hc; [|reflexivity].
      now rewrite (Hperm c eq_refl).
    - apply (eth_requestAccounts_asks context w1 o eq_refl Hne).
      destruct (readCurrentAddress (this w1)) as [c|] eqn:Hc; [right|now left].
      exists c. split; [reflexivity|now apply Hperm]. }
  split.
  - intros Hall. cbn [runMutator].
    eexists. split; [apply (removeAllOriginPermissions_run w r Hr)|].
    apply Hgoal. intros c _ p Hp. rewrite Hall, lookup_empty in Hp. discriminate.
  - intros c Hc Hwm Hone. cbn [runMutator].
    set (r' := Model_removePermission more r o (Some c)).
    assert (Hcur : readCurrentAddress (with_record (Some r') (this w)) = Some c).
    { destruct (readCurrentAddress_record _ _ Hc) as (r0 & Hr0 & Hor).
      assert (r0 = r) as -> by congruence.
      unfold readCurrentAddress. cbn [record with_record]. unfold r'.
      now rewrite Hwm. }
    eexists. split; [apply (removePermission_run o (Some c) w r Hr)|].
    split; [exact Hcur|].
    apply Hgoal. fold r'. intros c' Hc' p Hp.
    assert (c' = c) as -> by congruence.
    now apply (Hone r o c p).
Qed.

End MoreControllerFacts.

(* ===================================================================== *)
(** ** Further properties: the pending wallet                              *)
(* ===================================================================== *)

Section PendingWalletFacts.

Variable INTERNAL_ORIGIN : string.
Variable env : Collaborators.
Variable more : MoreCollaborators.
Variable ethers_Wallet : string -> Result EthersWallet.
Variable ethers_fromMnemonic : string -> string -> Result EthersWallet.
Variable ethers_createRandom : EthersWallet.

(** X23. [savePendingWallet] with a pending wallet and a storage key: the
    record becomes the one the model builds from the old record and the
    pending wallet, and exactly that record is saved; the pending wallet
    and the session key are cleared, so that right after it the reveal
    methods fail with [SessionExpired] even from the internal origin, and a
    second [savePendingWallet] throws and changes nothing. *)
Theorem savePendingWallet_stores_and_ends_session
    (c : Controller) (p : PendingWallet) (context : option Context) :
  pendingWallet c = Some p ->
  Js.truthyOpt (encryptionKey (this (world c))) = true ->
  isInternal INTERNAL_ORIGIN context = true ->
  exists c',
    savePendingWallet more c = (Ok tt, c')
    /\ pendingWallet c' = None
    /\ record (this (world c'))
       = Some (Model_createOrUpdateRecord more (record (this (world c))) p)
    /\ savedRecords (trace (world c'))
       = savedRecords (trace (world c))
           ++ [Model_createOrUpdateRecord more (record (this (world c))) p]
    /\ encryptionKey (this (world c')) = encryptionKey (this (world c))
    /\ (forall a, getPrivateKey INTERNAL_ORIGIN env a context (world c')
                  = (Throw SessionExpired, world c'))
    /\ (forall g, getRecoveryPhrase INTERNAL_ORIGIN env g context (world c')
                  = (Throw SessionExpired, world c'))
    /\ exists e, savePendingWallet more c' = (Throw e, c').
Proof.
  intros Hp Hkey Hint. unfold savePendingWallet at 1. rewrite Hp, Hkey. cbn [negb].
  set (r := Model_createOrUpdateRecord more (record (this (world c))) p).
  rewrite updateWalletStore_detached. cbn [snd this].
  eexists. split; [reflexivity|]. cbn [pendingWallet world logged this trace].
  split; [reflexivity|]. split; [reflexivity|]. split.
  { rewrite savedRecords_app, storeSaves_saved. cbn [encryptionKey with_record
      with_seedPhraseEncryptionKey]. now rewrite Hkey. }
  split; [reflexivity|]. split; [|split].
  - intros a. unfold getPrivateKey.
    match goal with |- _ ?w0 = _ =>
      rewrite (bind_ok _ _ w0 w0 tt) by (now rewrite verifyInternalOrigin_run, Hint);
      rewrite (bind_ok _ _ w0 w0 r) by (now rewrite ensureRecord_run)
    end.
    reflexivity.
  - intros g. unfold getRecoveryPhrase.
    match goal with |- _ ?w0 = _ =>
      rewrite (bind_ok _ _ w0 w0 tt) by (now rewrite verifyInternalOrigin_run, Hint);
      rewrite (bind_ok _ _ w0 w0 r) by (now rewrite ensureRecord_run)
    end.
    reflexivity.
  - eexists. reflexivity.
Qed.

(** X24. [uiImportPrivateKey] never touches the wallet object. When it
    returns, the key was non-empty and accepted by [ethers.Wallet], the
    pending wallet is an imported one without a group id whose private-key
    container holds exactly one wallet, without a name, and the value
    returned is that wallet masked. When it throws, the pending wallet is
    the one from before. *)
Theorem uiImportPrivateKey_sets_one_pending_wallet (privateKey : string) (c : Controller) :
  exists res c',
    uiImportPrivateKey more ethers_Wallet ethers_fromMnemonic ethers_createRandom
      privateKey c = (res, c')
    /\ world c' = world c
    /\ match res with
       | Throw _ => c' = c
       | Ok shown =>
           privateKey <> ""
           /\ exists e w,
                ethers_Wallet privateKey = Ok e
                /\ shown = maskWallet more w
                /\ WalletContainer.name w = None
                /\ pendingWallet c'
                   = Some {| pending_origin := WalletOrigin_imported;
                             pending_groupId := None;
                             pending_walletContainer :=
                               {| seedType := SeedType_privateKey; wallets := [w] |} |}
       end.
Proof.
  unfold uiImportPrivateKey, PrivateKeyWalletContainer.
  cbn [length Nat.ltb Nat.leb mapR].
  destruct (Js.truthy privateKey) eqn:Hpk.
  2:{ eexists _, _. split; [reflexivity|]. split; reflexivity. }
  destruct (ethers_Wallet privateKey) as [e|err] eqn:He.
  2:{ eexists _, _. split; [reflexivity|]. split; reflexivity. }
  cbn [bindR].
  destruct (restoreBareWallet ethers_Wallet ethers_fromMnemonic ethers_createRandom
              (ethersAsPartial e)) as [w|err] eqn:Hw.
  2:{ eexists _, _. split; [reflexivity|]. split; reflexivity. }
  cbn [bindR getFirstWallet wallets head].
  eexists _, _. split; [reflexivity|]. split; [reflexivity|].
  split; [now apply truthy_true|].
  exists e, w. split; [reflexivity|]. split; [reflexivity|]. split; [|reflexivity].
  exact (restoreBareWallet_of_ethers_name ethers_Wallet ethers_fromMnemonic
           ethers_createRandom e w Hw).
Qed.

End PendingWalletFacts.

(* ===================================================================== *)
(** ** Further properties: groups, addresses, backups and preferences      *)
(* ===================================================================== *)

Import WalletEdits.

Section EditFacts.

Variable INTERNAL_ORIGIN : string.
Variable edits : EditCollaborators.

Lemma assignAndSave_run (edited : Result WalletRecord) (w : World) :
  assignAndSave edited w
  = match edited with
    | Ok r' =>
        (Ok tt,
         logged (storeSaves (this w) r') (withThis (with_record (Some r') (this w)) w))
    | Throw e => (Throw e, w)
    end.
Proof.
  unfold assignAndSave. destruct edited as [r'|e]; [|reflexivity].
  unfold mbind at 1. unfold M_bind at 1. unfold liftR.
  unfold mbind at 1. unfold M_bind at 1. unfold modifyThis.
  rewrite updateWalletStore_detached. reflexivity.
Qed.

Lemma runEdit_run (e : Edit) (context : option Context) (w : World) :
  runEdit INTERNAL_ORIGIN edits e context w
  = if isInternal INTERNAL_ORIGIN context then
      match record (this w) with
      | None => (Throw RecordNotFound, w)
      | Some r => assignAndSave (editedRecord edits e (clock w) r) w
      end
    else (Throw OriginNotAllowed, w).
Proof.
  destruct e as [g|g n|a n|a|g|p|f c]; cbn [runEdit];
    unfold removeWalletGroup, renameWalletGroup, renameAddress, removeAddress,
      updateLastBackedUp, setPreference, wallet_setWalletNameFlag;
    unfold mbind at 1; unfold M_bind at 1; rewrite verifyInternalOrigin_run;
    (destruct (isInternal INTERNAL_ORIGIN context); [|reflexivity]);
    unfold mbind at 1; unfold M_bind at 1; rewrite ?ensureRecord_run;
    unfold getThis, throw;
    (destruct (record (this w)) as [r|]; [|reflexivity]);
    cbn [editedRecord negb]; try reflexivity;
    try (destruct (Js.truthy g); reflexivity);
    try (destruct c; reflexivity).
Qed.

(** X28. The seven methods that edit groups, addresses, backups and
    preferences ([removeWalletGroup], [renameWalletGroup], [renameAddress],
    [removeAddress], [updateLastBackedUp], [setPreference],
    [wallet_setWalletNameFlag]) share one frame: the origin is checked
    first, then the record, then ([updateLastBackedUp] only) the group id;
    what the record model returns, for [updateLastBackedUp] at the current
    time, replaces the record and is handed to the store, and no event is
    emitted: the trace grows by the save alone. When the call throws, for a
    guard or because the model threw, nothing has changed. *)
Theorem edits_store_and_save_silently
    (e : Edit) (context : option Context) (w : World) :
  exists res w',
    runEdit INTERNAL_ORIGIN edits e context w = (res, w')
    /\ match res with
       | Throw err =>
           w' = w
           /\ (isInternal INTERNAL_ORIGIN context = false -> err = OriginNotAllowed)
           /\ (isInternal INTERNAL_ORIGIN context = true ->
               match record (this w) with
               | None => err = RecordNotFound
               | Some r => editedRecord edits e (clock w) r = Throw err
               end)
       | Ok _ =>
           isInternal INTERNAL_ORIGIN context = true
           /\ exists r r',
                record (this w) = Some r
                /\ editedRecord edits e (clock w) r = Ok r'
                /\ this w' = with_record (Some r') (this w)
                /\ clock w' = clock w
                /\ trace w' = trace w ++ storeSaves (this w) r'
       end.
Proof.
  rewrite runEdit_run.
  destruct (isInternal INTERNAL_ORIGIN context).
  2:{ eexists _, _. split; [reflexivity|]. cbn.
      split; [reflexivity|]. split; [reflexivity|discriminate]. }
  destruct (record (this w)) as [r|].
  2:{ eexists _, _. split; [reflexivity|]. cbn.
      split; [reflexivity|]. split; [discriminate|reflexivity]. }
  rewrite assignAndSave_run.
  destruct (editedRecord edits e (clock w) r) as [r'|err] eqn:Hedit.
  - eexists _, _. split; [reflexivity|]. cbn. split; [reflexivity|].
    exists r, r'. split; [reflexivity|]. split; [exact Hedit|]. repeat split.
  - eexists _, _. split; [reflexivity|]. cbn.
    split; [reflexivity|]. split; [discriminate|]. intros _. reflexivity.
Qed.

(** X29. Wallet name flags are public, preferences are not:
    [wallet_getWalletNameFlags] answers every caller, whatever its context,
    without changing anything: the flags of the model's preferences, or the
    empty list when they have none or no record is loaded; [getPreferences]
    itself refuses the same caller with [OriginNotAllowed] unless its
    context is internal, and with no record it returns the empty
    preferences instead of throwing [RecordNotFound]. *)
Theorem wallet_getWalletNameFlags_answers_every_caller
    (context : option ChannelContext) (w : World) :
  wallet_getWalletNameFlags INTERNAL_ORIGIN edits context w
  = (Ok match record (this w) with
        | Some r => default [] (walletNameFlags (Model_getPreferences edits r))
        | None => []
        end, w)
  /\ getPreferences INTERNAL_ORIGIN edits (asContext context) w
     = (if isInternal INTERNAL_ORIGIN (asContext context) then
          Ok match record (this w) with
             | Some r => Model_getPreferences edits r
             | None => NO_PREFERENCES
             end
        else Throw OriginNotAllowed, w).
Proof.
  split.
  - unfold wallet_getWalletNameFlags, getPreferences.
    unfold mbind, M_bind. rewrite verifyInternalOrigin_run.
    cbn. unfold getThis. destruct (record (this w)); reflexivity.
  - unfold getPreferences. unfold mbind, M_bind. rewrite verifyInternalOrigin_run.
    destruct (isInternal INTERNAL_ORIGIN (asContext context)); [|reflexivity].
    unfold getThis. destruct (record (this w)); reflexivity.
Qed.

(** X30. Groups reach the UI masked: from the internal origin
    [uiGetWalletGroups] returns [maskWalletGroups] of the record's groups,
    and [null], not an error, when no record is loaded; a group returned by
    [uiGetWalletGroup] is [maskWalletGroup] of the first group of the
    record whose id is exactly the one asked for. Neither changes
    anything, and any other caller gets [OriginNotAllowed]. *)
Theorem ui_groups_are_masked (context : option Context) (w : World) :
  (isInternal INTERNAL_ORIGIN context = false ->
   uiGetWalletGroups INTERNAL_ORIGIN edits context w = (Throw OriginNotAllowed, w)
   /\ forall g, uiGetWalletGroup INTERNAL_ORIGIN edits g context w
                = (Throw OriginNotAllowed, w))
  /\ (isInternal INTERNAL_ORIGIN context = true ->
      uiGetWalletGroups INTERNAL_ORIGIN edits context w
      = (Ok ((fun r => maskWalletGroups edits (groups (walletManager r)))
               <$> record (this w)), w)
      /\ forall g w' shown,
           uiGetWalletGroup INTERNAL_ORIGIN edits g context w = (Ok (Some shown), w') ->
           w' = w
           /\ exists r before group after,
                record (this w) = Some r
                /\ groups (walletManager r) = before ++ group :: after
                /\ group_id group = g
                /\ (forall other, In other before -> group_id other <> g)
                /\ shown = maskWalletGroup edits group).
Proof.
  split; intros Hint.
  - split; [|intros g]; unfold uiGetWalletGroups, uiGetWalletGroup;
      apply bind_throw; now rewrite verifyInternalOrigin_run, Hint.
  - split.
    + unfold uiGetWalletGroups. unfold mbind, M_bind.
      rewrite verifyInternalOrigin_run, Hint. unfold getThis.
      destruct (record (this w)); reflexivity.
    + intros g w' shown. unfold uiGetWalletGroup. unfold mbind, M_bind.
      rewrite verifyInternalOrigin_run, Hint. unfold getThis, mret, M_ret.
      destruct (record (this w)) as [r|]; [|discriminate].
      destruct (find (fun group => String.eqb (group_id group) g)
                     (groups (walletManager r))) as [group|] eqn:Hfind;
        cbn; [|discriminate].
      intros [= <- <-]. split; [reflexivity|].
      assert (Hsplit : exists before after,
                groups (walletManager r) = before ++ group :: after
                /\ group_id group = g
                /\ forall other, In other before -> group_id other <> g).
      { clear Hint. revert Hfind.
        induction (groups (walletManager r)) as [|x l IH]; [discriminate|].
        cbn [find]. destruct (String.eqb_spec (group_id x) g) as [Heq|Hne].
        - intros [= <-]. exists [], l. split; [reflexivity|].
          split; [exact Heq|]. intros other [].
        - intros Hf. destruct (IH Hf) as (before & after & Hl & Hid & Hbefore).
          exists (x :: before), after. split; [now rewrite Hl|].
          split; [exact Hid|]. intros other [<-|Hin]; [exact Hne|now apply Hbefore]. }
      destruct Hsplit as (before & after & Hl & Hid & Hbefore).
      exists r, before, group, after. repeat split; auto.
Qed.

End EditFacts.

(* ===================================================================== *)
(** ** The further theorems at sample inputs                               *)
(* ===================================================================== *)

Lemma Spec_setChainForOrigin_keeps_addresses
    (r : WalletRecord) (c : Chain) (o : string) (p : Permission) (x : string) :
  permissions r !! o = Some p -> In x (addresses p) ->
  exists p', permissions (Spec_setChainForOrigin r c o) !! o = Some p'
             /\ In x (addresses p').
Proof.
  intros Hp Hin. unfold Spec_setChainForOrigin, with_permissions. cbn [permissions].
  rewrite Hp, lookup_insert_eq. eexists. split; [reflexivity|exact Hin].
Qed.

Lemma Spec_removePermission_walletManager
    (r : WalletRecord) (o : string) (a : option string) :
  walletManager (Spec_removePermission r o a) = walletManager r.
Proof.
  unfold Spec_removePermission.
  destruct (permissions r !! o) as [p|]; [|reflexivity].
  destruct a as [a|]; [|reflexivity].
  destruct (List.filter _ (addresses p)); reflexivity.
Qed.

(** After [Spec_removePermission] of an address the origin has no entry,
    or an entry that does not list the address. *)
Lemma Spec_removePermission_unlists
    (r : WalletRecord) (o a : string) (p : Permission) :
  permissions (Spec_removePermission r o (Some a)) !! o = Some p ->
  ~ In a (addresses p).
Proof.
  unfold Spec_removePermission.
  destruct (permissions r !! o) as [p0|] eqn:Hp0; [|congruence].
  destruct (List.filter (fun x => negb (String.eqb x a)) (addresses p0))
    as [|y rest] eqn:Hrest; cbn [with_permissions permissions].
  - rewrite lookup_delete_eq. discriminate.
  - rewrite lookup_insert_eq. intros [= <-]. cbn [addresses]. rewrite <- Hrest.
    intros Hin. apply List.filter_In in Hin as [_ Hneq].
    now rewrite String.eqb_refl in Hneq.
Qed.

Lemma restoreBareWallet_idempotent_witness :
  restoreBareWallet sample_ethers_Wallet sample_ethers_fromMnemonic
    sample_ethers_createRandom
    (bareAsPartial {| mnemonic := None; privateKey := "abc";
                      address := "0xabc"; name := None |})
  = Ok {| mnemonic := None; privateKey := "abc"; address := "0xabc"; name := None |}.
Proof.
  apply (restoreBareWallet_idempotent sample_ethers_Wallet sample_ethers_fromMnemonic
           sample_ethers_createRandom
           {| p_address := None; p_privateKey := Some "abc";
              p_mnemonic := None; p_name := None |});
    [reflexivity | discriminate | discriminate].
Defined.

Lemma MnemonicWalletContainer_never_empty_witness :
  wallets {| seedType := SeedType_mnemonic;
             wallets := [fromEthersWallet sample_ethers_createRandom] |} <> []
  /\ length (wallets container_AB) = 2%nat.
Proof.
  split.
  - apply (MnemonicWalletContainer_never_empty sample_ethers_Wallet
             sample_ethers_fromMnemonic sample_ethers_createRandom None).
    reflexivity.
  - destruct (MnemonicWalletContainer_never_empty sample_ethers_Wallet
                sample_ethers_fromMnemonic sample_ethers_createRandom
                (Some [bareAsPartial wallet_A; bareAsPartial wallet_B]) container_AB)
      as (_ & _ & Hlen & _); [reflexivity|exact Hlen].
Defined.

Lemma MnemonicWalletContainer_restores_plain_object_witness :
  MnemonicWalletContainer sample_ethers_Wallet sample_ethers_fromMnemonic
    sample_ethers_createRandom
    (Some (map bareAsPartial (plain_wallets (toPlainObject container_AB))))
  = Ok container_AB.
Proof.
  apply (MnemonicWalletContainer_restores_plain_object sample_ethers_Wallet
           sample_ethers_fromMnemonic sample_ethers_createRandom container_AB).
  - reflexivity.
  - repeat constructor; discriminate.
Defined.

Lemma PrivateKeyWalletContainer_shape_witness :
  Forall (fun w => name w = None)
    (wallets (pending_walletContainer imported_pending))
  /\ forall w, isThrow (addWallet (pending_walletContainer imported_pending) w) = true.
Proof.
  destruct (PrivateKeyWalletContainer_shape sample_ethers_Wallet
              sample_ethers_fromMnemonic sample_ethers_createRandom (Some ["abc"])
              (pending_walletContainer imported_pending))
    as (_ & _ & Hname & _ & Hadd); [reflexivity|].
  split; [exact Hname|exact Hadd].
Defined.

Lemma addWallet_then_getWalletByAddress_witness :
  exists c',
    addWallet container_AB wallet_C = Ok c'
    /\ getWalletByAddress c' address_unknown = Some wallet_C
    /\ getWalletByAddress c' address_A_upper = Some wallet_A.
Proof.
  destruct (addWallet_then_getWalletByAddress container_AB wallet_C)
    as (c' & Hadd & _ & _ & Hnew & _ & Hother); [reflexivity|].
  exists c'. split; [exact Hadd|]. split.
  - apply Hnew. reflexivity.
  - rewrite Hother; [reflexivity|vm_compute; discriminate].
Defined.

Lemma addWallet_then_removeWallet_witness :
  removeWallet container_ABC address_unknown = container_AB.
Proof.
  apply (addWallet_then_removeWallet container_AB container_ABC wallet_C); reflexivity.
Defined.

Lemma removeWallet_then_getWalletByAddress_witness :
  getWalletByAddress (removeWallet container_AB address_A_upper) address_A_lower = None
  /\ getWalletByAddress (removeWallet container_AB address_A_upper) address_B
     = Some wallet_B.
Proof.
  destruct (removeWallet_then_getWalletByAddress container_AB address_A_upper)
    as (_ & _ & Hother & Hgone).
  split.
  - replace address_A_lower with (Js.toLowerCase address_A_upper) by reflexivity.
    destruct (removeWallet_then_getWalletByAddress container_AB
                (Js.toLowerCase address_A_upper)) as (_ & _ & _ & Hgone').
    replace (removeWallet container_AB address_A_upper)
      with (removeWallet container_AB (Js.toLowerCase address_A_upper)) by reflexivity.
    apply Hgone'. vm_compute.
    constructor; [intros [H|[]]; discriminate|].
    constructor; [intros []|constructor].
  - rewrite Hother; [reflexivity|vm_compute; discriminate].
Defined.

Lemma internal_methods_fail_closed_witness :
  callInternal SAMPLE_INTERNAL_ORIGIN sample_env sample_more
    (Call_getPrivateKey address_A_lower) dappContext unlocked_world
  = (Throw OriginNotAllowed, unlocked_world)
  /\ callInternal SAMPLE_INTERNAL_ORIGIN sample_env sample_more
       Call_removeAllOriginPermissions None sample_world
     = (Throw OriginNotAllowed, sample_world).
Proof.
  split; apply internal_methods_fail_closed; reflexivity.
Defined.

Lemma gated_methods_fail_closed_witness :
  exists e,
    callGated SAMPLE_INTERNAL_ORIGIN sample_env sample_more
      (Gated_eth_sendTransaction [sample_tx]) newDappChannel sample_world
    = (Throw e, sample_world).
Proof.
  apply gated_methods_fail_closed.
  intros (c & Hc & Ha). vm_compute in Hc. injection Hc as <-.
  vm_compute in Ha. discriminate.
Defined.

Lemma eth_sendTransaction_opens_window_witness :
  eth_sendTransaction SAMPLE_INTERNAL_ORIGIN sample_more [foreign_tx] dappChannel
    sample_world
  = (Ok AwaitingConfirmation,
     logged [NotificationWindowOpen "/sendTransaction"
               ("?" +:+ URLSearchParams_toString sample_more
                          [("origin", dapp);
                           ("transaction",
                            JSON_stringify_transaction sample_more foreign_tx)])]
            sample_world).
Proof.
  apply (eth_sendTransaction_opens_window SAMPLE_INTERNAL_ORIGIN sample_more
           [foreign_tx] dappChannel sample_world).
  exists (address wallet_A). split; vm_compute; reflexivity.
Defined.

Lemma personal_sign_checks_address_first_witness :
  personal_sign SAMPLE_INTERNAL_ORIGIN sample_more ["hello"; address_B] newDappChannel
    sample_world
  = (Throw (JsError
       ("Address parameter is different from currently selected address. Expected: "
          +:+ address wallet_A +:+ ", received: " +:+ address_B)), sample_world)
  /\ personal_sign SAMPLE_INTERNAL_ORIGIN sample_more ["hello"; address_A_upper]
       newDappChannel sample_world
     = (Throw OriginNotAllowed, sample_world).
Proof.
  split.
  - destruct (personal_sign_checks_address_first SAMPLE_INTERNAL_ORIGIN sample_more
                "hello" [address_B] newDappChannel sample_world (address wallet_A))
      as [H _]; [vm_compute; reflexivity|].
    apply (H address_B); [reflexivity | discriminate | vm_compute; discriminate].
  - destruct (personal_sign_checks_address_first SAMPLE_INTERNAL_ORIGIN sample_more
                "hello" [address_A_upper] newDappChannel sample_world (address wallet_A))
      as [_ H]; [vm_compute; reflexivity|].
    rewrite H; [vm_compute; reflexivity|].
    right. right. exists address_A_upper. split; reflexivity.
Defined.

Lemma eth_requestAccounts_settles_or_asks_witness :
  eth_requestAccounts SAMPLE_INTERNAL_ORIGIN dappContext sample_world
  = (Ok (Settled [address wallet_A]), sample_world)
  /\ eth_requestAccounts SAMPLE_INTERNAL_ORIGIN newDappContext sample_world
     = (Ok AwaitingConfirmation,
        logged [NotificationWindowOpen "/requestAccounts" ("?origin=" +:+ newDapp)]
               sample_world).
Proof.
  split.
  - destruct (eth_requestAccounts_settles_or_asks SAMPLE_INTERNAL_ORIGIN dappContext
                sample_world) as [H _].
    apply (H (address wallet_A)); vm_compute; reflexivity.
  - destruct (eth_requestAccounts_settles_or_asks SAMPLE_INTERNAL_ORIGIN newDappContext
                sample_world) as [_ H].
    apply (H newDapp); [reflexivity | discriminate |].
    right. exists (address wallet_A). split; vm_compute; reflexivity.
Defined.

Lemma wallet_requestPermissions_validates_late_witness :
  wallet_requestPermissions SAMPLE_INTERNAL_ORIGIN dappChannel (Some [["eth_accounts"]])
    sample_world
  = (Ok (Settled [ {| parentCapability := "eth_accounts" |} ]), sample_world)
  /\ wallet_requestPermissions SAMPLE_INTERNAL_ORIGIN dappChannel None sample_world
     = (Throw InvalidParams, sample_world)
  /\ wallet_requestPermissions SAMPLE_INTERNAL_ORIGIN newDappChannel None sample_world
     = (Ok AwaitingConfirmation,
        logged [NotificationWindowOpen "/requestAccounts" ("?origin=" +:+ newDapp)]
               sample_world).
Proof.
  assert (Hperm : permitted SAMPLE_INTERNAL_ORIGIN (this sample_world) dappChannel).
  { exists (address wallet_A). split; vm_compute; reflexivity. }
  split; [|split].
  - destruct (wallet_requestPermissions_validates_late SAMPLE_INTERNAL_ORIGIN
                dappChannel (Some [["eth_accounts"]]) sample_world) as [H _].
    exact (H Hperm).
  - destruct (wallet_requestPermissions_validates_late SAMPLE_INTERNAL_ORIGIN
                dappChannel None sample_world) as [H _].
    exact (H Hperm).
  - destruct (wallet_requestPermissions_validates_late SAMPLE_INTERNAL_ORIGIN
                newDappChannel None sample_world) as [_ H].
    apply (H newDapp); [reflexivity | discriminate |].
    right. exists (address wallet_A). split; vm_compute; reflexivity.
Defined.

Lemma signAndSendTransaction_needs_string_origin_witness :
  signAndSendTransaction SAMPLE_INTERNAL_ORIGIN sample_env (Some sample_tx, dapp)
    (Some INTERNAL_SYMBOL_CONTEXT) sample_world
  = (Throw (JsError "Origin must be a string"), sample_world)
  /\ signAndSendTransaction SAMPLE_INTERNAL_ORIGIN sample_env (None, dapp)
       internalContext sample_world
     = (Throw InvalidParams, sample_world).
Proof.
  split.
  - destruct (signAndSendTransaction_needs_string_origin SAMPLE_INTERNAL_ORIGIN
                sample_env (Some sample_tx) dapp (Some INTERNAL_SYMBOL_CONTEXT)
                sample_world) as [H _].
    apply H. reflexivity.
  - destruct (signAndSendTransaction_needs_string_origin SAMPLE_INTERNAL_ORIGIN
                sample_env None dapp internalContext sample_world) as [_ H].
    apply H. reflexivity.
Defined.

Lemma approval_grants_accounts_witness :
  exists w2,
    eth_requestAccounts_onResolve SAMPLE_INTERNAL_ORIGIN sample_env newDappContext
      newDapp (address wallet_A) sample_world = (Ok [address wallet_A], w2)
    /\ eth_accounts SAMPLE_INTERNAL_ORIGIN (this w2) newDappContext
       = Ok [address wallet_A]
    /\ eth_requestAccounts SAMPLE_INTERNAL_ORIGIN newDappContext w2
       = (Ok (Settled [address wallet_A]), w2)
    /\ windowsOpened (trace w2) = windowsOpened (trace sample_world).
Proof.
  apply (approval_grants_accounts SAMPLE_INTERNAL_ORIGIN sample_env newDappContext
           newDapp sample_world (address wallet_A) sample_record);
    [reflexivity | discriminate | reflexivity | vm_compute; reflexivity
     | exact Spec_addPermission_walletManager | exact Spec_addPermission_lists].
Defined.

Lemma wallet_switchEthereumChain_twice_witness :
  exists w1,
    wallet_switchEthereumChain SAMPLE_INTERNAL_ORIGIN sample_env (ChainIdNumber 1)
      dappContext sample_world = (Ok tt, w1)
    /\ resolvedChainId sample_env (this w1) (originString dappContext) = "0x1"
    /\ wallet_switchEthereumChain SAMPLE_INTERNAL_ORIGIN sample_env (ChainIdNumber 1)
         dappContext w1
       = (Ok tt, logged [NetworksStoreLoad] w1).
Proof.
  apply (wallet_switchEthereumChain_twice SAMPLE_INTERNAL_ORIGIN sample_env
           (ChainIdNumber 1) dappContext sample_world (address wallet_A) "0x1");
    [vm_compute; reflexivity | vm_compute; reflexivity | reflexivity | reflexivity
     | exact (Spec_setChainForOrigin_get "ethereum")
     | reflexivity
     | exact Spec_setChainForOrigin_keeps_addresses].
Defined.

Lemma getNoBackupCount_counts_mnemonic_groups_witness :
  exists n,
    getNoBackupCount SAMPLE_INTERNAL_ORIGIN internalContext sample_world
    = (Ok n, sample_world)
    /\ (n <= 1)%nat
    /\ getNoBackupCount SAMPLE_INTERNAL_ORIGIN internalContext
         (withThis (with_record (Some sample_record_with_import) sample_wallet)
                   sample_world)
       = (Ok n,
          withThis (with_record (Some sample_record_with_import) sample_wallet)
                   sample_world).
Proof.
  destruct (getNoBackupCount_counts_mnemonic_groups SAMPLE_INTERNAL_ORIGIN
              internalContext sample_world sample_record)
    as (n & Hrun & Hle & _ & Hkey); [reflexivity | reflexivity |].
  exists n. split; [exact Hrun|]. split; [exact Hle|].
  apply (Hkey imported_group sample_record_with_import); reflexivity.
Defined.

Lemma sendTransaction_signs_at_most_once_witness :
  this (snd (sendTransaction SAMPLE_INTERNAL_ORIGIN sample_env sample_tx
               internalContext dapp sample_world)) = sample_wallet
  /\ this (snd (sendTransaction SAMPLE_INTERNAL_ORIGIN sample_env mainnet_tx
                  internalContext dapp sample_world)) = sample_wallet.
Proof.
  split.
  - destruct (sendTransaction_signs_at_most_once SAMPLE_INTERNAL_ORIGIN sample_env
                sample_tx internalContext dapp sample_world
                (fst (sendTransaction SAMPLE_INTERNAL_ORIGIN sample_env sample_tx
                        internalContext dapp sample_world))
                (snd (sendTransaction SAMPLE_INTERNAL_ORIGIN sample_env sample_tx
                        internalContext dapp sample_world)))
      as (Hthis & _); [vm_compute; reflexivity|exact Hthis].
  - destruct (sendTransaction_signs_at_most_once SAMPLE_INTERNAL_ORIGIN sample_env
                mainnet_tx internalContext dapp sample_world
                (fst (sendTransaction SAMPLE_INTERNAL_ORIGIN sample_env mainnet_tx
                        internalContext dapp sample_world))
                (snd (sendTransaction SAMPLE_INTERNAL_ORIGIN sample_env mainnet_tx
                        internalContext dapp sample_world)))
      as (Hthis & _); [vm_compute; reflexivity|exact Hthis].
Defined.

Lemma eth_chainId_follows_switch_witness :
  exists w1 w2,
    wallet_switchEthereumChain SAMPLE_INTERNAL_ORIGIN sample_env (ChainIdNumber 1)
      (asContext dappChannel) sample_world = (Ok tt, w1)
    /\ eth_chainId sample_env dappChannel w1 = (Ok "0x1", w2)
    /\ this w2 = this w1.
Proof.
  apply (eth_chainId_follows_switch SAMPLE_INTERNAL_ORIGIN sample_env (ChainIdNumber 1)
           dappChannel sample_world (address wallet_A) "0x1");
    [vm_compute; reflexivity | vm_compute; reflexivity | reflexivity | reflexivity
     | exact (Spec_setChainForOrigin_get "ethereum")].
Defined.

Lemma savePendingWallet_stores_and_ends_session_witness :
  exists c',
    savePendingWallet sample_more importing_controller = (Ok tt, c')
    /\ pendingWallet c' = None
    /\ getPrivateKey SAMPLE_INTERNAL_ORIGIN sample_env address_A_lower internalContext
         (world c')
       = (Throw SessionExpired, world c')
    /\ exists e, savePendingWallet sample_more c' = (Throw e, c').
Proof.
  destruct (savePendingWallet_stores_and_ends_session SAMPLE_INTERNAL_ORIGIN sample_env
              sample_more importing_controller imported_pending internalContext)
    as (c' & Hrun & Hpending & _ & _ & _ & Hpk & _ & Hagain);
    [reflexivity | reflexivity | reflexivity |].
  exists c'. split; [exact Hrun|]. split; [exact Hpending|].
  split; [apply Hpk|exact Hagain].
Defined.

Lemma ui_wallets_are_masked_witness :
  exists wallet,
    maskWallet sample_more wallet_A = maskWallet sample_more wallet
    /\ Model_getWalletByAddress sample_env sample_record (address wallet_A)
       = Some wallet.
Proof.
  destruct (ui_wallets_are_masked SAMPLE_INTERNAL_ORIGIN sample_env sample_more
              internalContext sample_world sample_world
              (maskWallet sample_more wallet_A)) as [H _].
  destruct H as (_ & r & c & wallet & Hr & Hc & Hshown & Hfound); [reflexivity|].
  injection Hr as <-. vm_compute in Hc. injection Hc as <-.
  exists wallet. split; [exact Hshown|].
  destruct Hfound as [Hfound|[Hnone _]]; [exact Hfound|].
  vm_compute in Hnone. discriminate.
Defined.

Lemma revoked_origins_must_ask_again_witness :
  (exists w1,
      runMutator SAMPLE_INTERNAL_ORIGIN sample_env sample_more
        Mut_removeAllOriginPermissions sample_world = (Ok tt, w1)
      /\ eth_accounts SAMPLE_INTERNAL_ORIGIN (this w1) dappContext = Ok []
      /\ eth_requestAccounts SAMPLE_INTERNAL_ORIGIN dappContext w1
         = (Ok AwaitingConfirmation,
            logged [NotificationWindowOpen "/requestAccounts" ("?origin=" +:+ dapp)]
                   w1))
  /\ (exists w1,
        runMutator SAMPLE_INTERNAL_ORIGIN sample_env sample_more
          (Mut_removePermission dapp (Some (address wallet_A))) two_address_world
        = (Ok tt, w1)
        /\ (exists r1 p1, record (this w1) = Some r1
                          /\ permissions r1 !! dapp = Some p1
                          /\ addresses p1 = [address_B])
        /\ eth_accounts SAMPLE_INTERNAL_ORIGIN (this w1) dappContext = Ok []
        /\ eth_requestAccounts SAMPLE_INTERNAL_ORIGIN dappContext w1
           = (Ok AwaitingConfirmation,
              logged [NotificationWindowOpen "/requestAccounts" ("?origin=" +:+ dapp)]
                     w1)).
Proof.
  split.
  - destruct (revoked_origins_must_ask_again SAMPLE_INTERNAL_ORIGIN sample_env
                sample_more sample_world sample_record dapp) as [H _];
      [reflexivity | discriminate | discriminate | apply includes_false; reflexivity |].
    apply H. reflexivity.
  - destruct (revoked_origins_must_ask_again SAMPLE_INTERNAL_ORIGIN sample_env
                sample_more two_address_world two_address_record dapp) as [_ H];
      [reflexivity | discriminate | discriminate | apply includes_false; reflexivity |].
    destruct (H (address wallet_A)) as (w1 & Hrun & _ & Hacc & Hask);
      [vm_compute; reflexivity
      | exact Spec_removePermission_walletManager
      | exact Spec_removePermission_unlists |].
    exists w1. split; [exact Hrun|]. split; [|split; [exact Hacc|exact Hask]].
    vm_compute in Hrun. injection Hrun as <-.
    eexists _, _. split; [reflexivity|]. split; [reflexivity|reflexivity].
Defined.

Lemma edits_store_and_save_silently_witness :
  exists r',
    editedRecord sample_edits (Edit_updateLastBackedUp "group-1") 0 sample_record = Ok r'
    /\ runEdit SAMPLE_INTERNAL_ORIGIN sample_edits (Edit_updateLastBackedUp "group-1")
         internalContext sample_world
       = (Ok tt,
          logged (storeSaves sample_wallet r')
                 (withThis (with_record (Some r') sample_wallet) sample_world))
    /\ getNoBackupCount SAMPLE_INTERNAL_ORIGIN internalContext
         (withThis (with_record (Some r') sample_wallet) sample_world)
       = (Ok 0%nat, withThis (with_record (Some r') sample_wallet) sample_world).
Proof.
  destruct (edits_store_and_save_silently SAMPLE_INTERNAL_ORIGIN sample_edits
              (Edit_updateLastBackedUp "group-1") internalContext sample_world)
    as (res & w' & Hrun & Hres).
  destruct res as [[]|err].
  - destruct Hres as (_ & r & r' & Hr & Hedit & Hthis & Hclock & Htrace).
    injection Hr as <-. change (clock sample_world) with 0%Z in Hedit.
    exists r'. split; [exact Hedit|]. split.
    + rewrite Hrun. f_equal. destruct w' as [t c tr]. cbn in Hthis, Hclock, Htrace.
      subst t c tr. reflexivity.
    + vm_compute in Hedit. injection Hedit as <-. reflexivity.
  - destruct Hres as (_ & _ & Hthrow).
    specialize (Hthrow eq_refl). vm_compute in Hthrow. discriminate.
Defined.

Lemma ui_groups_are_masked_witness :
  uiGetWalletGroups SAMPLE_INTERNAL_ORIGIN sample_edits dappContext sample_world
  = (Throw OriginNotAllowed, sample_world)
  /\ uiGetWalletGroups SAMPLE_INTERNAL_ORIGIN sample_edits internalContext empty_world
     = (Ok None, empty_world)
  /\ uiGetWalletGroups SAMPLE_INTERNAL_ORIGIN sample_edits internalContext sample_world
     = (Ok (Some (maskWalletGroups sample_edits (groups (walletManager sample_record)))),
        sample_world).
Proof.
  split; [|split].
  - destruct (ui_groups_are_masked SAMPLE_INTERNAL_ORIGIN sample_edits dappContext
                sample_world) as [H _].
    apply H. reflexivity.
  - destruct (ui_groups_are_masked SAMPLE_INTERNAL_ORIGIN sample_edits internalContext
                empty_world) as [_ H].
    apply H. reflexivity.
  - destruct (ui_groups_are_masked SAMPLE_INTERNAL_ORIGIN sample_edits internalContext
                sample_world) as [_ H].
    apply H. reflexivity.
Defined.
